(** * flv.js I/O layer: IOController, loaders and SpeedSampler

    A shallow embedding of the I/O layer of flv.js (src/io/io-controller.js,
    src/io/speed-sampler.js, src/io/loader.js and the four loader classes)
    together with the properties of its stash-buffer engine.

    Conventions of the embedding:
    - JavaScript numbers that hold byte counts, offsets and clock readings
      are integers ([Z]); throughput figures, which the code obtains by
      division, are exact rationals ([Q]).
    - Every call of [_now()] inside one method invocation reads the same
      instant, passed to the method as [now] (milliseconds).
    - A method that mutates [this] becomes a function from the object's
      record to its updated record; methods that may throw run in the
      small state-and-exception monad [M] below.
    - Callbacks bound by the embedder are recorded in an event trace. *)

From Stdlib Require Import ZArith QArith List Lia Lqa Bool String Sorted.
Import ListNotations.
Open Scope Z_scope.

(* ================================================================== *)
(** * Part I: the program                                              *)
(* ================================================================== *)

(** ** JavaScript helpers *)

(** [list[i]]: an index outside the array yields [undefined] ([None]). *)
Definition js_index {A} (l : list A) (i : Z) : option A :=
  if i <? 0 then None else nth_error l (Z.to_nat i).

Definition Qltb (x y : Q) : bool := negb (Qle_bool y x).

(** Relational operators against a possibly [undefined] array element:
    [undefined] converts to NaN and every comparison with NaN is false. *)
Definition js_lt_num_elt (x : Q) (e : option Z) : bool :=
  match e with Some v => Qltb x (inject_Z v) | None => false end.
Definition js_ge_num_elt (x : Q) (e : option Z) : bool :=
  match e with Some v => Qle_bool (inject_Z v) x | None => false end.
Definition js_lt_elt_num (e : option Z) (x : Q) : bool :=
  match e with Some v => Qltb (inject_Z v) x | None => false end.

Definition KiB : Z := 1024.
Definition MiB : Z := 1024 * 1024 * 1.

(** ** speed-sampler.js *)

Module SpeedSampler.

Record t := mk {
  _firstCheckpoint : Z;
  _lastCheckpoint : Z;
  _intervalBytes : Z;
  _totalBytes : Z;
  _lastSecondBytes : Z
}.

(** [constructor()] *)
Definition new : t := mk 0 0 0 0 0.

(** [reset()] *)
Definition reset (s : t) : t := mk 0 0 0 0 0.

(** [addBytes(bytes)] *)
Definition addBytes (now bytes : Z) (s : t) : t :=
  if _firstCheckpoint s =? 0 then
    mk now now (_intervalBytes s + bytes) (_totalBytes s + bytes)
       (_lastSecondBytes s)
  else if now - _lastCheckpoint s <? 1000 then
    mk (_firstCheckpoint s) (_lastCheckpoint s)
       (_intervalBytes s + bytes) (_totalBytes s + bytes)
       (_lastSecondBytes s)
  else
    mk (_firstCheckpoint s) now bytes (_totalBytes s + bytes)
       (_intervalBytes s).

(** [get currentKBps()]: the getter mutates the sampler through
    [addBytes(0)], so it returns the value and the updated sampler. *)
Definition currentKBps (now : Z) (s : t) : Q * t :=
  let s1 := addBytes now 0 s in
  let durationSeconds := (inject_Z (now - _lastCheckpoint s1) / 1000)%Q in
  let durationSeconds :=
    if Qeq_bool durationSeconds 0 then 1%Q else durationSeconds in
  (((inject_Z (_intervalBytes s1) / durationSeconds) / 1024)%Q, s1).

(** [get lastSecondKBps()] *)
Definition lastSecondKBps (now : Z) (s : t) : Q * t :=
  let s1 := addBytes now 0 s in
  if negb (_lastSecondBytes s1 =? 0) then
    ((inject_Z (_lastSecondBytes s1) / 1024)%Q, s1)
  else if now - _lastCheckpoint s1 >=? 500 then
    currentKBps now s1
  else
    (0%Q, s1).

(** [get averageKBps()]; a zero duration makes the JavaScript division
    yield Infinity or NaN, which has no rational value ([None]). *)
Definition averageKBps (now : Z) (s : t) : option Q :=
  let durationSeconds := (inject_Z (now - _firstCheckpoint s) / 1000)%Q in
  if Qeq_bool durationSeconds 0 then None
  else Some ((inject_Z (_totalBytes s) / durationSeconds) / 1024)%Q.

End SpeedSampler.

(** ** The ladder search shared by IOController and RangeLoader

    [IOController._normalizeSpeed] and [RangeLoader._normalizeSpeed] have
    the same body and differ only in the list they read; [list] is that
    list.  The [while] loop is unrolled with [fuel]; every iteration
    shrinks [ubound - lbound], so [length list + 1] iterations are enough
    (lemma [normalize_loop_sorted] shows the loop returns from inside
    for a sorted list).  Falling out of the loop returns [undefined]. *)

Fixpoint normalize_loop (fuel : nat) (list : list Z) (last : Z) (input : Q)
    (lbound ubound : Z) : option Z :=
  match fuel with
  | O => None
  | S fuel' =>
    if lbound <=? ubound then
      let mid := lbound + (ubound - lbound) / 2 in
      if (mid =? last)
         || (js_ge_num_elt input (js_index list mid)
             && js_lt_num_elt input (js_index list (mid + 1)))
      then js_index list mid
      else if js_lt_elt_num (js_index list mid) input
      then normalize_loop fuel' list last input (mid + 1) ubound
      else normalize_loop fuel' list last input lbound (mid - 1)
    else None
  end.

Definition normalizeSpeed (list : list Z) (input : Q) : option Z :=
  let last := Z.of_nat (List.length list) - 1 in
  if js_lt_num_elt input (js_index list 0) then js_index list 0
  else normalize_loop (S (List.length list)) list last input 0 last.

(** ** loader.js *)

Inductive LoaderStatus :=
  kIdle | kConnecting | kBuffering | kError | kComplete.

Inductive LoaderErrors :=
  | OK
  | EXCEPTION
  | HTTP_STATUS_CODE_INVALID
  | CONNECTING_TIMEOUT
  | EARLY_EOF
  | UNRECOVERABLE_EARLY_EOF.

Record ErrorInfo := mkInfo { code : Z; msg : string }.

Record Range := mkRange { from : Z; to : Z }.

(** [filesize] is [None] when the property is undefined. *)
Record DataSource := mkDataSource { url : string; filesize : option Z }.

(** An ArrayBuffer handed over by a transport is the list of its bytes. *)
Definition byteLength (chunk : list Byte.byte) : Z :=
  Z.of_nat (List.length chunk).

(** The callbacks a loader invokes on its owner.  A loader method returns
    the updated loader together with the callbacks it invoked, in order;
    the owner (IOController) runs them. *)
Inductive LoaderCallback :=
  | onContentLengthKnown (contentLength : Z)
  | onURLRedirect (redirectedURL : string)
  | onDataArrival (chunk : list Byte.byte) (byteStart receivedLength : Z)
  | onComplete (rangeFrom rangeTo : Z)
  | onError (errorType : LoaderErrors) (errorInfo : ErrorInfo).

(** The part of [BaseLoader] every loader class implements. *)
Class BaseLoader (L : Type) := {
  status : L -> LoaderStatus;
  needStashBuffer : L -> bool;
  abort : L -> L;
  destroy : L -> L
}.

Definition status_isWorking (st : LoaderStatus) : bool :=
  match st with kConnecting | kBuffering => true | _ => false end.

(** [BaseLoader.isWorking()] *)
Definition isWorking {L} `{BaseLoader L} (l : L) : bool :=
  status_isWorking (status l).

(** The range a loader holds before [open()] stores one: no method reads
    [_range] before [open()]. *)
Definition unset_range : Range := mkRange 0 (-1).

(** ** fetch-stream-loader.js *)

Module FetchStreamLoader.

Record t := mk {
  _status : LoaderStatus;
  _requestAbort : bool;
  _contentLength : option Z;
  _receivedLength : Z;
  _range : Range
}.

Definition set_status (v : LoaderStatus) (s : t) : t :=
  mk v (_requestAbort s) (_contentLength s) (_receivedLength s)
    (_range s).
Definition set_requestAbort (v : bool) (s : t) : t :=
  mk (_status s) v (_contentLength s) (_receivedLength s) (_range s).
Definition set_contentLength (v : option Z) (s : t) : t :=
  mk (_status s) (_requestAbort s) v (_receivedLength s) (_range s).
Definition set_receivedLength (v : Z) (s : t) : t :=
  mk (_status s) (_requestAbort s) (_contentLength s) v (_range s).
Definition set_range (v : Range) (s : t) : t :=
  mk (_status s) (_requestAbort s) (_contentLength s) (_receivedLength s)
    v.

(** [constructor(seekHandler, config)] *)
Definition new : t := mk kIdle false None 0 unset_range.

(** [abort()] *)
Definition abort (l : t) : t := set_requestAbort true l.

(** [destroy()] followed by [super.destroy()] *)
Definition destroy (l : t) : t :=
  let l := if status_isWorking (_status l) then abort l else l in
  set_status kIdle l.

(** [open(dataSource, range)] up to the call of [fetch], whose promise
    settles later. *)
Definition open (dataSource : DataSource) (range : Range) (l : t) : t :=
  set_status kConnecting (set_range range l).

(** What the [then] callback of [fetch] reads from the response. *)
Record Response := mkResponse {
  res_ok : bool;
  res_status : Z;
  res_statusText : string;
  res_redirected : option string;
  res_contentLength : option Z
}.

(** The [then] callback of [fetch]; the boolean tells whether [_pump]
    was started. *)
Definition fetch_then (res : Response) (l : t)
  : t * list LoaderCallback * bool :=
  if _requestAbort l then
    (set_status kIdle (set_requestAbort false l), [], false)
  else if res_ok res && (res_status res >=? 200) && (res_status res <=? 299)
  then
    let cb1 := match res_redirected res with
               | Some u => [onURLRedirect u] | None => [] end in
    match res_contentLength res with
    | Some n =>
      (set_contentLength (Some n) l,
       cb1 ++ (if negb (n =? 0) then [onContentLengthKnown n] else []),
       true)
    | None => (l, cb1, true)
    end
  else
    (set_status kError l,
     [onError HTTP_STATUS_CODE_INVALID
              (mkInfo (res_status res) (res_statusText res))],
     false).

Inductive ReadResult := Done | Value (chunk : list Byte.byte).

(** The [then] callback of [reader.read()] inside [_pump]; the boolean
    tells whether the next read was requested. *)
Definition _pump (result : ReadResult) (l : t)
  : t * list LoaderCallback * bool :=
  match result with
  | Done =>
    match _contentLength l with
    | Some n =>
      if _receivedLength l <? n then
        (set_status kError l,
         [onError EARLY_EOF (mkInfo (-1) "Fetch stream meet Early-EOF")],
         false)
      else
        (set_status kComplete l,
         [onComplete (from (_range l))
                     (from (_range l) + _receivedLength l - 1)],
         false)
    | None =>
      (set_status kComplete l,
       [onComplete (from (_range l))
                   (from (_range l) + _receivedLength l - 1)],
       false)
    end
  | Value chunk =>
    if _requestAbort l then
      (set_status kComplete (set_requestAbort false l), [], false)
    else
      let l := set_status kBuffering l in
      let byteStart := from (_range l) + _receivedLength l in
      let l := set_receivedLength (_receivedLength l + byteLength chunk) l in
      (l, [onDataArrival chunk byteStart (_receivedLength l)], true)
  end.

(** [_pump(reader)] over the successive results of [reader.read()]:
    a [then] callback that asks for the next read runs [_pump] again on
    the next result; once a callback does not ask, the results that
    follow are never read. *)
Fixpoint _pump_stream (results : list ReadResult) (l : t)
  : t * list LoaderCallback :=
  match results with
  | [] => (l, [])
  | result :: results =>
    let '(l, cbs, again) := _pump result l in
    if again then
      let '(l', cbs') := _pump_stream results l in (l', cbs ++ cbs')
    else (l, cbs)
  end.

#[global] Instance loader : BaseLoader t :=
  Build_BaseLoader t _status (fun _ => true) abort destroy.

End FetchStreamLoader.

(** ** xhr-moz-chunked-loader.js *)

Module MozChunkedLoader.

Record t := mk {
  _status : LoaderStatus;
  _xhr : bool;
  _requestAbort : bool;
  _contentLength : option Z;
  _receivedLength : Z;
  _range : Range
}.

Definition set_status (v : LoaderStatus) (s : t) : t :=
  mk v (_xhr s) (_requestAbort s) (_contentLength s) (_receivedLength s)
    (_range s).
Definition set_xhr (v : bool) (s : t) : t :=
  mk (_status s) v (_requestAbort s) (_contentLength s)
    (_receivedLength s) (_range s).
Definition set_requestAbort (v : bool) (s : t) : t :=
  mk (_status s) (_xhr s) v (_contentLength s) (_receivedLength s)
    (_range s).
Definition set_contentLength (v : option Z) (s : t) : t :=
  mk (_status s) (_xhr s) (_requestAbort s) v (_receivedLength s)
    (_range s).
Definition set_receivedLength (v : Z) (s : t) : t :=
  mk (_status s) (_xhr s) (_requestAbort s) (_contentLength s) v
    (_range s).
Definition set_range (v : Range) (s : t) : t :=
  mk (_status s) (_xhr s) (_requestAbort s) (_contentLength s)
    (_receivedLength s) v.

(** [constructor(seekHandler, config)] *)
Definition new : t := mk kIdle false false None 0 unset_range.

(** [abort()] *)
Definition abort (l : t) : t :=
  let l := set_requestAbort true l in
  set_status kComplete l.

(** [destroy()] followed by [super.destroy()] *)
Definition destroy (l : t) : t :=
  let l := if status_isWorking (_status l) then abort l else l in
  let l := if _xhr l then set_xhr false l else l in
  set_status kIdle l.

(** [open(dataSource, range)] up to [xhr.send()] *)
Definition open (dataSource : DataSource) (range : Range) (l : t) : t :=
  set_status kConnecting (set_xhr true (set_range range l)).

(** [_onReadyStateChange(e)] at [readyState === 2] *)
Definition _onReadyStateChange (redirected : option string)
    (httpStatus : Z) (statusText : string) (l : t)
  : t * list LoaderCallback :=
  let cb1 := match redirected with
             | Some u => [onURLRedirect u] | None => [] end in
  if negb (httpStatus =? 0)
     && ((httpStatus <? 200) || (httpStatus >? 299))
  then (set_status kError l,
        cb1 ++ [onError HTTP_STATUS_CODE_INVALID
                        (mkInfo httpStatus statusText)])
  else (set_status kBuffering l, cb1).

(** [_onProgress(e)]; [total] is [None] for [e.total === null]. *)
Definition _onProgress (total : option Z) (chunk : list Byte.byte)
    (l : t) : t * list LoaderCallback :=
  match _status l with
  | kError => (l, [])
  | _ =>
    let '(l, cb1) :=
      match _contentLength l, total with
      | None, Some n =>
        if negb (n =? 0)
        then (set_contentLength (Some n) l, [onContentLengthKnown n])
        else (l, [])
      | _, _ => (l, [])
      end in
    let byteStart := from (_range l) + _receivedLength l in
    let l := set_receivedLength (_receivedLength l + byteLength chunk) l in
    (l, cb1 ++ [onDataArrival chunk byteStart (_receivedLength l)])
  end.

(** [_onLoadEnd(e)] *)
Definition _onLoadEnd (l : t) : t * list LoaderCallback :=
  if _requestAbort l then (set_requestAbort false l, [])
  else match _status l with
       | kError => (l, [])
       | _ =>
         (set_status kComplete l,
          [onComplete (from (_range l))
                      (from (_range l) + _receivedLength l - 1)])
       end.

(** [_onXhrError(e)] with [e.loaded = loaded] and the error's
    description [what]. *)
Definition _onXhrError (loaded : Z) (what : string) (l : t)
  : t * list LoaderCallback :=
  let l := set_status kError l in
  match _contentLength l with
  | Some n =>
    if negb (n =? 0) && (loaded <? n)
    then (l, [onError EARLY_EOF
                      (mkInfo (-1) "Moz-Chunked stream meet Early-Eof")])
    else (l, [onError EXCEPTION (mkInfo (-1) what)])
  | None => (l, [onError EXCEPTION (mkInfo (-1) what)])
  end.

#[global] Instance loader : BaseLoader t :=
  Build_BaseLoader t _status (fun _ => true) abort destroy.

End MozChunkedLoader.

(** ** websocket-loader.js *)

Module WebSocketLoader.

(** [_ws] holds the [readyState] of the socket object (0 CONNECTING,
    1 OPEN, 2 CLOSING, 3 CLOSED) or [None] for [null]. *)
Record t := mk {
  _status : LoaderStatus;
  _ws : option Z;
  _requestAbort : bool;
  _receivedLength : Z
}.

Definition set_status (v : LoaderStatus) (s : t) : t :=
  mk v (_ws s) (_requestAbort s) (_receivedLength s).
Definition set_ws (v : option Z) (s : t) : t :=
  mk (_status s) v (_requestAbort s) (_receivedLength s).
Definition set_requestAbort (v : bool) (s : t) : t :=
  mk (_status s) (_ws s) v (_receivedLength s).
Definition set_receivedLength (v : Z) (s : t) : t :=
  mk (_status s) (_ws s) (_requestAbort s) v.

(** [constructor()] *)
Definition new : t := mk kIdle None false 0.

(** [open(dataSource)].  [WebSocket_ctor url] is what
    [new WebSocket(url)] does in the host: [None] when it returns a
    socket, [Some info] when it throws [e] with
    [info = {code: e.code, msg: e.message}]. *)
Definition open (WebSocket_ctor : string -> option ErrorInfo)
    (dataSource : DataSource) (l : t) : t * list LoaderCallback :=
  match WebSocket_ctor (url dataSource) with
  | None => (set_status kConnecting (set_ws (Some 0) l), [])
  | Some info => (set_status kError l, [onError EXCEPTION info])
  end.

(** [abort()] *)
Definition abort (l : t) : t :=
  let l := match _ws l with
           | Some readyState =>
             if (readyState =? 0) || (readyState =? 1)
             then set_requestAbort true l else l
           | None => l
           end in
  set_status kComplete (set_ws None l).

(** [destroy()] followed by [super.destroy()] *)
Definition destroy (l : t) : t :=
  let l := match _ws l with Some _ => abort l | None => l end in
  set_status kIdle l.

(** The host sets a socket's [readyState] before it fires the event:
    OPEN before [open], CLOSED before [close] and before the [error]
    that goes with a failed connection. *)
Definition socket_opened (l : t) : t :=
  match _ws l with Some _ => set_ws (Some 1) l | None => l end.
Definition socket_closed (l : t) : t :=
  match _ws l with Some _ => set_ws (Some 3) l | None => l end.

(** [_onWebSocketOpen(e)]: the socket is now OPEN. *)
Definition _onWebSocketOpen (l : t) : t :=
  set_status kBuffering (socket_opened l).

(** [_onWebSocketClose(e)].  With [_requestAbort] raised the event is
    the one of the socket that [abort()] closed and dropped, as the
    method itself takes it to be; otherwise it is the event of the
    socket in [_ws], which is now CLOSED. *)
Definition _onWebSocketClose (l : t) : t * list LoaderCallback :=
  if _requestAbort l then (set_requestAbort false l, [])
  else
    let l := socket_closed l in
    (set_status kComplete l, [onComplete 0 (_receivedLength l - 1)]).

(** [_dispatchArrayBuffer(arraybuffer)] *)
Definition _dispatchArrayBuffer (chunk : list Byte.byte) (l : t)
  : t * list LoaderCallback :=
  let byteStart := _receivedLength l in
  let l := set_receivedLength (_receivedLength l + byteLength chunk) l in
  (l, [onDataArrival chunk byteStart (_receivedLength l)]).

(** [_onWebSocketError(e)]: the socket in [_ws] is CLOSED. *)
Definition _onWebSocketError (info : ErrorInfo) (l : t)
  : t * list LoaderCallback :=
  (set_status kError (socket_closed l), [onError EXCEPTION info]).

#[global] Instance loader : BaseLoader t :=
  Build_BaseLoader t _status (fun _ => true) abort destroy.

End WebSocketLoader.

(** ** xhr-range-loader.js *)

Module RangeLoader.

(** [requests] is not a field of the class: it lists, oldest first,
    the ranges passed to [_internalOpen], each of which becomes one
    XMLHttpRequest. *)
Record t := mk {
  _status : LoaderStatus;
  _currentChunkSizeKB : Z;
  _currentSpeedNormalized : Z;
  _zeroSpeedChunkCount : Z;
  _xhr : bool;
  _speedSampler : SpeedSampler.t;
  _requestAbort : bool;
  _waitForTotalLength : bool;
  _totalLengthReceived : bool;
  _currentRequestRange : option Range;
  _totalLength : option Z;
  _contentLength : option Z;
  _receivedLength : Z;
  _lastTimeLoaded : Z;
  _range : Range;
  requests : list Range
}.

Definition set_status (v : LoaderStatus) (s : t) : t :=
  mk v (_currentChunkSizeKB s) (_currentSpeedNormalized s)
    (_zeroSpeedChunkCount s) (_xhr s) (_speedSampler s) (_requestAbort s)
    (_waitForTotalLength s) (_totalLengthReceived s)
    (_currentRequestRange s) (_totalLength s) (_contentLength s)
    (_receivedLength s) (_lastTimeLoaded s) (_range s) (requests s).
Definition set_currentChunkSizeKB (v : Z) (s : t) : t :=
  mk (_status s) v (_currentSpeedNormalized s) (_zeroSpeedChunkCount s)
    (_xhr s) (_speedSampler s) (_requestAbort s) (_waitForTotalLength s)
    (_totalLengthReceived s) (_currentRequestRange s) (_totalLength s)
    (_contentLength s) (_receivedLength s) (_lastTimeLoaded s) (_range s)
    (requests s).
Definition set_currentSpeedNormalized (v : Z) (s : t) : t :=
  mk (_status s) (_currentChunkSizeKB s) v (_zeroSpeedChunkCount s)
    (_xhr s) (_speedSampler s) (_requestAbort s) (_waitForTotalLength s)
    (_totalLengthReceived s) (_currentRequestRange s) (_totalLength s)
    (_contentLength s) (_receivedLength s) (_lastTimeLoaded s) (_range s)
    (requests s).
Definition set_zeroSpeedChunkCount (v : Z) (s : t) : t :=
  mk (_status s) (_currentChunkSizeKB s) (_currentSpeedNormalized s) v
    (_xhr s) (_speedSampler s) (_requestAbort s) (_waitForTotalLength s)
    (_totalLengthReceived s) (_currentRequestRange s) (_totalLength s)
    (_contentLength s) (_receivedLength s) (_lastTimeLoaded s) (_range s)
    (requests s).
Definition set_xhr (v : bool) (s : t) : t :=
  mk (_status s) (_currentChunkSizeKB s) (_currentSpeedNormalized s)
    (_zeroSpeedChunkCount s) v (_speedSampler s) (_requestAbort s)
    (_waitForTotalLength s) (_totalLengthReceived s)
    (_currentRequestRange s) (_totalLength s) (_contentLength s)
    (_receivedLength s) (_lastTimeLoaded s) (_range s) (requests s).
Definition set_speedSampler (v : SpeedSampler.t) (s : t) : t :=
  mk (_status s) (_currentChunkSizeKB s) (_currentSpeedNormalized s)
    (_zeroSpeedChunkCount s) (_xhr s) v (_requestAbort s)
    (_waitForTotalLength s) (_totalLengthReceived s)
    (_currentRequestRange s) (_totalLength s) (_contentLength s)
    (_receivedLength s) (_lastTimeLoaded s) (_range s) (requests s).
Definition set_requestAbort (v : bool) (s : t) : t :=
  mk (_status s) (_currentChunkSizeKB s) (_currentSpeedNormalized s)
    (_zeroSpeedChunkCount s) (_xhr s) (_speedSampler s) v
    (_waitForTotalLength s) (_totalLengthReceived s)
    (_currentRequestRange s) (_totalLength s) (_contentLength s)
    (_receivedLength s) (_lastTimeLoaded s) (_range s) (requests s).
Definition set_waitForTotalLength (v : bool) (s : t) : t :=
  mk (_status s) (_currentChunkSizeKB s) (_currentSpeedNormalized s)
    (_zeroSpeedChunkCount s) (_xhr s) (_speedSampler s) (_requestAbort s)
    v (_totalLengthReceived s) (_currentRequestRange s) (_totalLength s)
    (_contentLength s) (_receivedLength s) (_lastTimeLoaded s) (_range s)
    (requests s).
Definition set_totalLengthReceived (v : bool) (s : t) : t :=
  mk (_status s) (_currentChunkSizeKB s) (_currentSpeedNormalized s)
    (_zeroSpeedChunkCount s) (_xhr s) (_speedSampler s) (_requestAbort s)
    (_waitForTotalLength s) v (_currentRequestRange s) (_totalLength s)
    (_contentLength s) (_receivedLength s) (_lastTimeLoaded s) (_range s)
    (requests s).
Definition set_currentRequestRange (v : option Range) (s : t) : t :=
  mk (_status s) (_currentChunkSizeKB s) (_currentSpeedNormalized s)
    (_zeroSpeedChunkCount s) (_xhr s) (_speedSampler s) (_requestAbort s)
    (_waitForTotalLength s) (_totalLengthReceived s) v (_totalLength s)
    (_contentLength s) (_receivedLength s) (_lastTimeLoaded s) (_range s)
    (requests s).
Definition set_totalLength (v : option Z) (s : t) : t :=
  mk (_status s) (_currentChunkSizeKB s) (_currentSpeedNormalized s)
    (_zeroSpeedChunkCount s) (_xhr s) (_speedSampler s) (_requestAbort s)
    (_waitForTotalLength s) (_totalLengthReceived s)
    (_currentRequestRange s) v (_contentLength s) (_receivedLength s)
    (_lastTimeLoaded s) (_range s) (requests s).
Definition set_contentLength (v : option Z) (s : t) : t :=
  mk (_status s) (_currentChunkSizeKB s) (_currentSpeedNormalized s)
    (_zeroSpeedChunkCount s) (_xhr s) (_speedSampler s) (_requestAbort s)
    (_waitForTotalLength s) (_totalLengthReceived s)
    (_currentRequestRange s) (_totalLength s) v (_receivedLength s)
    (_lastTimeLoaded s) (_range s) (requests s).
Definition set_receivedLength (v : Z) (s : t) : t :=
  mk (_status s) (_currentChunkSizeKB s) (_currentSpeedNormalized s)
    (_zeroSpeedChunkCount s) (_xhr s) (_speedSampler s) (_requestAbort s)
    (_waitForTotalLength s) (_totalLengthReceived s)
    (_currentRequestRange s) (_totalLength s) (_contentLength s) v
    (_lastTimeLoaded s) (_range s) (requests s).
Definition set_lastTimeLoaded (v : Z) (s : t) : t :=
  mk (_status s) (_currentChunkSizeKB s) (_currentSpeedNormalized s)
    (_zeroSpeedChunkCount s) (_xhr s) (_speedSampler s) (_requestAbort s)
    (_waitForTotalLength s) (_totalLengthReceived s)
    (_currentRequestRange s) (_totalLength s) (_contentLength s)
    (_receivedLength s) v (_range s) (requests s).
Definition set_range (v : Range) (s : t) : t :=
  mk (_status s) (_currentChunkSizeKB s) (_currentSpeedNormalized s)
    (_zeroSpeedChunkCount s) (_xhr s) (_speedSampler s) (_requestAbort s)
    (_waitForTotalLength s) (_totalLengthReceived s)
    (_currentRequestRange s) (_totalLength s) (_contentLength s)
    (_receivedLength s) (_lastTimeLoaded s) v (requests s).
Definition set_requests (v : list Range) (s : t) : t :=
  mk (_status s) (_currentChunkSizeKB s) (_currentSpeedNormalized s)
    (_zeroSpeedChunkCount s) (_xhr s) (_speedSampler s) (_requestAbort s)
    (_waitForTotalLength s) (_totalLengthReceived s)
    (_currentRequestRange s) (_totalLength s) (_contentLength s)
    (_receivedLength s) (_lastTimeLoaded s) (_range s) v.

Definition _chunkSizeKBList : list Z :=
  [128; 256; 384; 512; 768; 1024; 1536; 2048; 3072; 4096; 5120; 6144;
   7168; 8192].

(** [constructor(seekHandler, config)] *)
Definition new : t :=
  mk kIdle 384 0 0 false SpeedSampler.new false false false None None
     None 0 0 unset_range [].

(** [_internalOpen(dataSource, range)] *)
Definition _internalOpen (range : Range) (l : t) : t :=
  let l := set_lastTimeLoaded 0 l in
  let l := set_xhr true l in
  set_requests (requests l ++ [range]) l.

(** [_openSubRange()] *)
Definition _openSubRange (l : t) : t :=
  let chunkSize := _currentChunkSizeKB l * 1024 in
  let from_ := from (_range l) + _receivedLength l in
  let to_ := from_ + chunkSize in
  let to_ :=
    match _contentLength l with
    | Some contentLength =>
      if to_ - from (_range l) >=? contentLength
      then from (_range l) + contentLength - 1
      else to_
    | None => to_
    end in
  let l := set_currentRequestRange (Some (mkRange from_ to_)) l in
  _internalOpen (mkRange from_ to_) l.

(** [open(dataSource, range)] *)
Definition open (dataSource : DataSource) (range : Range) (l : t) : t :=
  let l := set_range range l in
  let l := set_status kConnecting l in
  let useRefTotalLength :=
    match filesize dataSource with
    | Some n => negb (n =? 0)
    | None => false
    end in
  let l := if useRefTotalLength
           then set_totalLength (filesize dataSource) l else l in
  if negb (_totalLengthReceived l) && negb useRefTotalLength then
    _internalOpen (mkRange 0 (-1)) (set_waitForTotalLength true l)
  else
    _openSubRange l.

(** [_internalAbort()] *)
Definition _internalAbort (l : t) : t :=
  if _xhr l then set_xhr false l else l.

(** [abort()] *)
Definition abort (l : t) : t :=
  let l := set_requestAbort true l in
  let l := _internalAbort l in
  set_status kComplete l.

(** [destroy()] followed by [super.destroy()] *)
Definition destroy (l : t) : t :=
  let l := if status_isWorking (_status l) then abort l else l in
  let l := if _xhr l then set_xhr false l else l in
  set_status kIdle l.

(** [_onReadyStateChange(e)] at [readyState === 2]; [redirected] is
    the new redirected URL when the response URL differs from both the
    request URL and the redirect already recorded. *)
Definition _onReadyStateChange (redirected : option string)
    (httpStatus : Z) (statusText : string) (l : t)
  : t * list LoaderCallback :=
  let cb1 := match redirected with
             | Some u => [onURLRedirect u] | None => [] end in
  if (httpStatus >=? 200) && (httpStatus <=? 299) then
    if _waitForTotalLength l then (l, cb1)
    else (set_status kBuffering l, cb1)
  else
    (set_status kError l,
     cb1 ++ [onError HTTP_STATUS_CODE_INVALID
                     (mkInfo httpStatus statusText)]).

(** In arithmetic [null] converts to 0. *)
Definition js_number (v : option Z) : Z :=
  match v with Some n => n | None => 0 end.

(** [_onProgress(e)] with [e.total = total] ([None] for [null]) and
    [e.loaded = loaded]. *)
Definition _onProgress (now : Z) (total : option Z) (loaded : Z) (l : t)
  : t * list LoaderCallback :=
  let account (l : t) :=
    let delta := loaded - _lastTimeLoaded l in
    let l := set_lastTimeLoaded loaded l in
    set_speedSampler (SpeedSampler.addBytes now delta (_speedSampler l)) l
  in
  match _status l with
  | kError => (l, [])
  | _ =>
    match _contentLength l with
    | None =>
      let openNextRange := _waitForTotalLength l in
      let l :=
        if _waitForTotalLength l then
          let l := set_waitForTotalLength false l in
          let l := set_totalLengthReceived true l in
          let l := _internalAbort l in
          match total with
          | Some n => if negb (n =? 0) then set_totalLength (Some n) l
                      else l
          | None => l
          end
        else l in
      let l :=
        if to (_range l) =? -1
        then set_contentLength
               (Some (js_number (_totalLength l) - from (_range l))) l
        else set_contentLength
               (Some (to (_range l) - from (_range l) + 1)) l in
      if openNextRange then (_openSubRange l, [])
      else (account l,
            [onContentLengthKnown (js_number (_contentLength l))])
    | Some _ => (account l, [])
    end
  end.

(** [_normalizeSpeed(input)] *)
Definition _normalizeSpeed (input : Q) : option Z :=
  normalizeSpeed _chunkSizeKBList input.

(** [_onLoad(e)] with [e.target.response = chunk].  When
    [_normalizeSpeed] returns [undefined] ([None], which lemma
    [RangeLoader_normalizeSpeed_total] excludes) the chunk size is
    left as it is. *)
Definition _onLoad (now : Z) (chunk : list Byte.byte) (l : t)
  : t * list LoaderCallback :=
  match _status l with
  | kError => (l, [])
  | _ =>
    if _waitForTotalLength l then (set_waitForTotalLength false l, [])
    else
      let l := set_lastTimeLoaded 0 l in
      let '(KBps, sampler) :=
        SpeedSampler.lastSecondKBps now (_speedSampler l) in
      let l := set_speedSampler sampler l in
      let '(KBps, l) :=
        if Qeq_bool KBps 0 then
          let l := set_zeroSpeedChunkCount (_zeroSpeedChunkCount l + 1) l in
          if _zeroSpeedChunkCount l >=? 3 then
            let '(KBps, sampler) :=
              SpeedSampler.currentKBps now (_speedSampler l) in
            (KBps, set_speedSampler sampler l)
          else (KBps, l)
        else (KBps, l) in
      let l :=
        if negb (Qeq_bool KBps 0) then
          match _normalizeSpeed KBps with
          | Some normalized =>
            if negb (_currentSpeedNormalized l =? normalized) then
              set_currentChunkSizeKB normalized
                (set_currentSpeedNormalized normalized l)
            else l
          | None => l
          end
        else l in
      let byteStart := from (_range l) + _receivedLength l in
      let l := set_receivedLength (_receivedLength l + byteLength chunk) l in
      let reportComplete :=
        match _contentLength l with
        | Some n => negb (_receivedLength l <? n)
        | None => true
        end in
      let l := if reportComplete then l else _openSubRange l in
      let cb := [onDataArrival chunk byteStart (_receivedLength l)] in
      if reportComplete then
        (set_status kComplete l,
         cb ++ [onComplete (from (_range l))
                           (from (_range l) + _receivedLength l - 1)])
      else (l, cb)
  end.

(** [_onXhrError(e)] *)
Definition _onXhrError (what : string) (l : t) : t * list LoaderCallback :=
  let l := set_status kError l in
  match _contentLength l with
  | Some n =>
    if negb (n =? 0) && (_receivedLength l >? 0) && (_receivedLength l <? n)
    then (l, [onError EARLY_EOF
                      (mkInfo (-1) "RangeLoader meet Early-Eof")])
    else (l, [onError EXCEPTION (mkInfo (-1) what)])
  | None => (l, [onError EXCEPTION (mkInfo (-1) what)])
  end.

#[global] Instance loader : BaseLoader t :=
  Build_BaseLoader t _status (fun _ => false) abort destroy.

End RangeLoader.

(** ** ArrayBuffer and Uint8Array

    The stash buffer is megabytes long, so an ArrayBuffer is its length
    and the map from index to byte; [new ArrayBuffer(n)] is zero-filled. *)

Record ArrayBuffer := mkBuffer { ab_byteLength : Z; ab_cell : Z -> Byte.byte }.

Definition ArrayBuffer_new (n : Z) : ArrayBuffer :=
  mkBuffer n (fun _ => Byte.x00).

Definition ArrayBuffer_of_list (l : list Byte.byte) : ArrayBuffer :=
  mkBuffer (byteLength l) (fun i => nth (Z.to_nat i) l Byte.x00).

(** [buffer.slice(begin, end)]: negative indices count from the end and
    both are clamped to the buffer. *)
Definition slice_index (len i : Z) : Z :=
  if i <? 0 then Z.max (len + i) 0 else Z.min i len.

Definition ArrayBuffer_slice (b : ArrayBuffer) (begin end_ : Z)
  : list Byte.byte :=
  let first := slice_index (ab_byteLength b) begin in
  let final := slice_index (ab_byteLength b) end_ in
  map (fun k => ab_cell b (first + Z.of_nat k))
      (seq 0 (Z.to_nat (Z.max (final - first) 0))).

(** A typed array read as a copy source. *)
Record Uint8Array := mkU8 { u8_length : Z; u8_get : Z -> Byte.byte }.

(** [new Uint8Array(buffer, byteOffset, length)]; [length = None] when
    the argument is omitted.  [None] is the RangeError of the
    constructor. *)
Definition Uint8Array_new (b : ArrayBuffer) (byteOffset : Z)
    (length : option Z) : option Uint8Array :=
  if (byteOffset <? 0) || (byteOffset >? ab_byteLength b) then None
  else match length with
       | None =>
         Some (mkU8 (ab_byteLength b - byteOffset)
                    (fun i => ab_cell b (byteOffset + i)))
       | Some n =>
         if (n <? 0) || (byteOffset + n >? ab_byteLength b) then None
         else Some (mkU8 n (fun i => ab_cell b (byteOffset + i)))
       end.

(** [target.set(source, offset)] where [target] is the view of the first
    [targetLength] bytes of [b]; the source is read before anything is
    written.  [None] is the RangeError of [set]. *)
Definition Uint8Array_set (b : ArrayBuffer) (targetLength : Z)
    (source : Uint8Array) (offset : Z) : option ArrayBuffer :=
  if (offset <? 0) || (offset + u8_length source >? targetLength) then None
  else Some (mkBuffer (ab_byteLength b)
               (fun i => if (offset <=? i) && (i <? offset + u8_length source)
                         then u8_get source (i - offset)
                         else ab_cell b i)).

(** ** io-controller.js *)

(** The loader object the controller holds, one case per loader class
    that [_selectLoader] can choose by itself. *)
Inductive Loader :=
  | FetchStream (l : FetchStreamLoader.t)
  | MozChunked (l : MozChunkedLoader.t)
  | XhrRange (l : RangeLoader.t)
  | WebSocket (l : WebSocketLoader.t).

Inductive LoaderClass :=
  | class_FetchStreamLoader
  | class_MozChunkedLoader
  | class_RangeLoader
  | class_WebSocketLoader.

#[global] Instance Loader_BaseLoader : BaseLoader Loader :=
  Build_BaseLoader Loader
    (fun l => match l with
              | FetchStream l => status l | MozChunked l => status l
              | XhrRange l => status l | WebSocket l => status l end)
    (fun l => match l with
              | FetchStream l => needStashBuffer l
              | MozChunked l => needStashBuffer l
              | XhrRange l => needStashBuffer l
              | WebSocket l => needStashBuffer l end)
    (fun l => match l with
              | FetchStream l => FetchStream (abort l)
              | MozChunked l => MozChunked (abort l)
              | XhrRange l => XhrRange (abort l)
              | WebSocket l => WebSocket (abort l) end)
    (fun l => match l with
              | FetchStream l => FetchStream (destroy l)
              | MozChunked l => MozChunked (destroy l)
              | XhrRange l => XhrRange (destroy l)
              | WebSocket l => WebSocket (destroy l) end).

Definition loader_status (l : Loader) : LoaderStatus := status l.
Definition loader_needStashBuffer (l : Loader) : bool := needStashBuffer l.
Definition loader_isWorking (l : Loader) : bool := isWorking l.
Definition loader_abort (l : Loader) : Loader := abort l.
Definition loader_destroy (l : Loader) : Loader := destroy l.

(** [new this._loaderClass(this._seekHandler, this._config)] *)
Definition loader_new (c : LoaderClass) : Loader :=
  match c with
  | class_FetchStreamLoader => FetchStream FetchStreamLoader.new
  | class_MozChunkedLoader => MozChunked MozChunkedLoader.new
  | class_RangeLoader => XhrRange RangeLoader.new
  | class_WebSocketLoader => WebSocket WebSocketLoader.new
  end.

(** [loader.open(dataSource, range)] *)
Definition loader_open (WebSocket_ctor : string -> option ErrorInfo)
    (dataSource : DataSource) (range : Range) (l : Loader)
  : Loader * list LoaderCallback :=
  match l with
  | FetchStream l => (FetchStream (FetchStreamLoader.open dataSource range l), [])
  | MozChunked l => (MozChunked (MozChunkedLoader.open dataSource range l), [])
  | XhrRange l => (XhrRange (RangeLoader.open dataSource range l), [])
  | WebSocket l =>
    let '(l, cbs) := WebSocketLoader.open WebSocket_ctor dataSource l in
    (WebSocket l, cbs)
  end.

(** The options of [config] the controller reads; [None] is an
    undefined option. *)
Record Config := mkConfig {
  stashInitialSize : option Z;
  enableStashBuffer : option bool;
  isLive : bool
}.

Inductive LogMessage :=
  | msg_loader_error (code : Z) (msg : string)
  | msg_unconsumed_dropped (remain : Z)
  | msg_connection_lost.

(** What the controller does to the outside, in order: the callbacks of
    its owner it invokes (for [onDataArrival] with the number the
    consumer returned) and the lines it logs. *)
Inductive Event :=
  | ev_onDataArrival (chunks : list Byte.byte) (byteStart consumed : Z)
  | ev_onSeeked
  | ev_onError (type : LoaderErrors) (info : ErrorInfo)
  | ev_onComplete
  | ev_onRedirect (redirectedURL : string)
  | ev_onRecoveredEarlyEof
  | ev_Log_e (m : LogMessage)
  | ev_Log_w (m : LogMessage).

(** The consumer bound to [onDataArrival]: the number it returns may
    depend on everything it has been shown so far. *)
Definition Consumer : Type := list Event -> list Byte.byte -> Z -> Z.

Inductive Exn :=
  | TypeError
  | RangeError
  | IllegalStateException (msg : string)
  | RuntimeException (msg : string).

Module IOController.

(** [trace] is not a field of the class: it accumulates the events,
    oldest first.  The five one-way callbacks are [true] when bound. *)
Record t := mk {
  _config : Config;
  _stashInitialSize : Z;
  _stashUsed : Z;
  _stashSize : Z;
  _bufferSize : Z;
  _stashBuffer : ArrayBuffer;
  _stashByteStart : Z;
  _enableStash : bool;
  _loader : option Loader;
  _loaderClass : LoaderClass;
  _dataSource : DataSource;
  _totalLength : option Z;
  _fullRequestFlag : bool;
  _currentRange : option Range;
  _redirectedURL : option string;
  _speedNormalized : Z;
  _speedSampler : SpeedSampler.t;
  _isEarlyEofReconnecting : bool;
  _paused : bool;
  _resumeFrom : Z;
  _onDataArrival : option Consumer;
  _onSeeked : bool;
  _onError : bool;
  _onComplete : bool;
  _onRedirect : bool;
  _onRecoveredEarlyEof : bool;
  trace : list Event
}.

Definition set_stashUsed (v : Z) (s : t) : t :=
  mk (_config s) (_stashInitialSize s) v (_stashSize s) (_bufferSize s)
    (_stashBuffer s) (_stashByteStart s) (_enableStash s) (_loader s)
    (_loaderClass s) (_dataSource s) (_totalLength s)
    (_fullRequestFlag s) (_currentRange s) (_redirectedURL s)
    (_speedNormalized s) (_speedSampler s) (_isEarlyEofReconnecting s)
    (_paused s) (_resumeFrom s) (_onDataArrival s) (_onSeeked s)
    (_onError s) (_onComplete s) (_onRedirect s) (_onRecoveredEarlyEof s)
    (trace s).
Definition set_stashSize (v : Z) (s : t) : t :=
  mk (_config s) (_stashInitialSize s) (_stashUsed s) v (_bufferSize s)
    (_stashBuffer s) (_stashByteStart s) (_enableStash s) (_loader s)
    (_loaderClass s) (_dataSource s) (_totalLength s)
    (_fullRequestFlag s) (_currentRange s) (_redirectedURL s)
    (_speedNormalized s) (_speedSampler s) (_isEarlyEofReconnecting s)
    (_paused s) (_resumeFrom s) (_onDataArrival s) (_onSeeked s)
    (_onError s) (_onComplete s) (_onRedirect s) (_onRecoveredEarlyEof s)
    (trace s).
Definition set_bufferSize (v : Z) (s : t) : t :=
  mk (_config s) (_stashInitialSize s) (_stashUsed s) (_stashSize s) v
    (_stashBuffer s) (_stashByteStart s) (_enableStash s) (_loader s)
    (_loaderClass s) (_dataSource s) (_totalLength s)
    (_fullRequestFlag s) (_currentRange s) (_redirectedURL s)
    (_speedNormalized s) (_speedSampler s) (_isEarlyEofReconnecting s)
    (_paused s) (_resumeFrom s) (_onDataArrival s) (_onSeeked s)
    (_onError s) (_onComplete s) (_onRedirect s) (_onRecoveredEarlyEof s)
    (trace s).
Definition set_stashBuffer (v : ArrayBuffer) (s : t) : t :=
  mk (_config s) (_stashInitialSize s) (_stashUsed s) (_stashSize s)
    (_bufferSize s) v (_stashByteStart s) (_enableStash s) (_loader s)
    (_loaderClass s) (_dataSource s) (_totalLength s)
    (_fullRequestFlag s) (_currentRange s) (_redirectedURL s)
    (_speedNormalized s) (_speedSampler s) (_isEarlyEofReconnecting s)
    (_paused s) (_resumeFrom s) (_onDataArrival s) (_onSeeked s)
    (_onError s) (_onComplete s) (_onRedirect s) (_onRecoveredEarlyEof s)
    (trace s).
Definition set_stashByteStart (v : Z) (s : t) : t :=
  mk (_config s) (_stashInitialSize s) (_stashUsed s) (_stashSize s)
    (_bufferSize s) (_stashBuffer s) v (_enableStash s) (_loader s)
    (_loaderClass s) (_dataSource s) (_totalLength s)
    (_fullRequestFlag s) (_currentRange s) (_redirectedURL s)
    (_speedNormalized s) (_speedSampler s) (_isEarlyEofReconnecting s)
    (_paused s) (_resumeFrom s) (_onDataArrival s) (_onSeeked s)
    (_onError s) (_onComplete s) (_onRedirect s) (_onRecoveredEarlyEof s)
    (trace s).
Definition set_enableStash (v : bool) (s : t) : t :=
  mk (_config s) (_stashInitialSize s) (_stashUsed s) (_stashSize s)
    (_bufferSize s) (_stashBuffer s) (_stashByteStart s) v (_loader s)
    (_loaderClass s) (_dataSource s) (_totalLength s)
    (_fullRequestFlag s) (_currentRange s) (_redirectedURL s)
    (_speedNormalized s) (_speedSampler s) (_isEarlyEofReconnecting s)
    (_paused s) (_resumeFrom s) (_onDataArrival s) (_onSeeked s)
    (_onError s) (_onComplete s) (_onRedirect s) (_onRecoveredEarlyEof s)
    (trace s).
Definition set_loader (v : option Loader) (s : t) : t :=
  mk (_config s) (_stashInitialSize s) (_stashUsed s) (_stashSize s)
    (_bufferSize s) (_stashBuffer s) (_stashByteStart s) (_enableStash s)
    v (_loaderClass s) (_dataSource s) (_totalLength s)
    (_fullRequestFlag s) (_currentRange s) (_redirectedURL s)
    (_speedNormalized s) (_speedSampler s) (_isEarlyEofReconnecting s)
    (_paused s) (_resumeFrom s) (_onDataArrival s) (_onSeeked s)
    (_onError s) (_onComplete s) (_onRedirect s) (_onRecoveredEarlyEof s)
    (trace s).
Definition set_totalLength (v : option Z) (s : t) : t :=
  mk (_config s) (_stashInitialSize s) (_stashUsed s) (_stashSize s)
    (_bufferSize s) (_stashBuffer s) (_stashByteStart s) (_enableStash s)
    (_loader s) (_loaderClass s) (_dataSource s) v (_fullRequestFlag s)
    (_currentRange s) (_redirectedURL s) (_speedNormalized s)
    (_speedSampler s) (_isEarlyEofReconnecting s) (_paused s)
    (_resumeFrom s) (_onDataArrival s) (_onSeeked s) (_onError s)
    (_onComplete s) (_onRedirect s) (_onRecoveredEarlyEof s) (trace s).
Definition set_fullRequestFlag (v : bool) (s : t) : t :=
  mk (_config s) (_stashInitialSize s) (_stashUsed s) (_stashSize s)
    (_bufferSize s) (_stashBuffer s) (_stashByteStart s) (_enableStash s)
    (_loader s) (_loaderClass s) (_dataSource s) (_totalLength s) v
    (_currentRange s) (_redirectedURL s) (_speedNormalized s)
    (_speedSampler s) (_isEarlyEofReconnecting s) (_paused s)
    (_resumeFrom s) (_onDataArrival s) (_onSeeked s) (_onError s)
    (_onComplete s) (_onRedirect s) (_onRecoveredEarlyEof s) (trace s).
Definition set_currentRange (v : option Range) (s : t) : t :=
  mk (_config s) (_stashInitialSize s) (_stashUsed s) (_stashSize s)
    (_bufferSize s) (_stashBuffer s) (_stashByteStart s) (_enableStash s)
    (_loader s) (_loaderClass s) (_dataSource s) (_totalLength s)
    (_fullRequestFlag s) v (_redirectedURL s) (_speedNormalized s)
    (_speedSampler s) (_isEarlyEofReconnecting s) (_paused s)
    (_resumeFrom s) (_onDataArrival s) (_onSeeked s) (_onError s)
    (_onComplete s) (_onRedirect s) (_onRecoveredEarlyEof s) (trace s).
Definition set_redirectedURL (v : option string) (s : t) : t :=
  mk (_config s) (_stashInitialSize s) (_stashUsed s) (_stashSize s)
    (_bufferSize s) (_stashBuffer s) (_stashByteStart s) (_enableStash s)
    (_loader s) (_loaderClass s) (_dataSource s) (_totalLength s)
    (_fullRequestFlag s) (_currentRange s) v (_speedNormalized s)
    (_speedSampler s) (_isEarlyEofReconnecting s) (_paused s)
    (_resumeFrom s) (_onDataArrival s) (_onSeeked s) (_onError s)
    (_onComplete s) (_onRedirect s) (_onRecoveredEarlyEof s) (trace s).
Definition set_speedNormalized (v : Z) (s : t) : t :=
  mk (_config s) (_stashInitialSize s) (_stashUsed s) (_stashSize s)
    (_bufferSize s) (_stashBuffer s) (_stashByteStart s) (_enableStash s)
    (_loader s) (_loaderClass s) (_dataSource s) (_totalLength s)
    (_fullRequestFlag s) (_currentRange s) (_redirectedURL s) v
    (_speedSampler s) (_isEarlyEofReconnecting s) (_paused s)
    (_resumeFrom s) (_onDataArrival s) (_onSeeked s) (_onError s)
    (_onComplete s) (_onRedirect s) (_onRecoveredEarlyEof s) (trace s).
Definition set_speedSampler (v : SpeedSampler.t) (s : t) : t :=
  mk (_config s) (_stashInitialSize s) (_stashUsed s) (_stashSize s)
    (_bufferSize s) (_stashBuffer s) (_stashByteStart s) (_enableStash s)
    (_loader s) (_loaderClass s) (_dataSource s) (_totalLength s)
    (_fullRequestFlag s) (_currentRange s) (_redirectedURL s)
    (_speedNormalized s) v (_isEarlyEofReconnecting s) (_paused s)
    (_resumeFrom s) (_onDataArrival s) (_onSeeked s) (_onError s)
    (_onComplete s) (_onRedirect s) (_onRecoveredEarlyEof s) (trace s).
Definition set_isEarlyEofReconnecting (v : bool) (s : t) : t :=
  mk (_config s) (_stashInitialSize s) (_stashUsed s) (_stashSize s)
    (_bufferSize s) (_stashBuffer s) (_stashByteStart s) (_enableStash s)
    (_loader s) (_loaderClass s) (_dataSource s) (_totalLength s)
    (_fullRequestFlag s) (_currentRange s) (_redirectedURL s)
    (_speedNormalized s) (_speedSampler s) v (_paused s) (_resumeFrom s)
    (_onDataArrival s) (_onSeeked s) (_onError s) (_onComplete s)
    (_onRedirect s) (_onRecoveredEarlyEof s) (trace s).
Definition set_paused (v : bool) (s : t) : t :=
  mk (_config s) (_stashInitialSize s) (_stashUsed s) (_stashSize s)
    (_bufferSize s) (_stashBuffer s) (_stashByteStart s) (_enableStash s)
    (_loader s) (_loaderClass s) (_dataSource s) (_totalLength s)
    (_fullRequestFlag s) (_currentRange s) (_redirectedURL s)
    (_speedNormalized s) (_speedSampler s) (_isEarlyEofReconnecting s) v
    (_resumeFrom s) (_onDataArrival s) (_onSeeked s) (_onError s)
    (_onComplete s) (_onRedirect s) (_onRecoveredEarlyEof s) (trace s).
Definition set_resumeFrom (v : Z) (s : t) : t :=
  mk (_config s) (_stashInitialSize s) (_stashUsed s) (_stashSize s)
    (_bufferSize s) (_stashBuffer s) (_stashByteStart s) (_enableStash s)
    (_loader s) (_loaderClass s) (_dataSource s) (_totalLength s)
    (_fullRequestFlag s) (_currentRange s) (_redirectedURL s)
    (_speedNormalized s) (_speedSampler s) (_isEarlyEofReconnecting s)
    (_paused s) v (_onDataArrival s) (_onSeeked s) (_onError s)
    (_onComplete s) (_onRedirect s) (_onRecoveredEarlyEof s) (trace s).
Definition set_onDataArrival (v : option Consumer) (s : t) : t :=
  mk (_config s) (_stashInitialSize s) (_stashUsed s) (_stashSize s)
    (_bufferSize s) (_stashBuffer s) (_stashByteStart s) (_enableStash s)
    (_loader s) (_loaderClass s) (_dataSource s) (_totalLength s)
    (_fullRequestFlag s) (_currentRange s) (_redirectedURL s)
    (_speedNormalized s) (_speedSampler s) (_isEarlyEofReconnecting s)
    (_paused s) (_resumeFrom s) v (_onSeeked s) (_onError s)
    (_onComplete s) (_onRedirect s) (_onRecoveredEarlyEof s) (trace s).
Definition set_onSeeked (v : bool) (s : t) : t :=
  mk (_config s) (_stashInitialSize s) (_stashUsed s) (_stashSize s)
    (_bufferSize s) (_stashBuffer s) (_stashByteStart s) (_enableStash s)
    (_loader s) (_loaderClass s) (_dataSource s) (_totalLength s)
    (_fullRequestFlag s) (_currentRange s) (_redirectedURL s)
    (_speedNormalized s) (_speedSampler s) (_isEarlyEofReconnecting s)
    (_paused s) (_resumeFrom s) (_onDataArrival s) v (_onError s)
    (_onComplete s) (_onRedirect s) (_onRecoveredEarlyEof s) (trace s).
Definition set_onError (v : bool) (s : t) : t :=
  mk (_config s) (_stashInitialSize s) (_stashUsed s) (_stashSize s)
    (_bufferSize s) (_stashBuffer s) (_stashByteStart s) (_enableStash s)
    (_loader s) (_loaderClass s) (_dataSource s) (_totalLength s)
    (_fullRequestFlag s) (_currentRange s) (_redirectedURL s)
    (_speedNormalized s) (_speedSampler s) (_isEarlyEofReconnecting s)
    (_paused s) (_resumeFrom s) (_onDataArrival s) (_onSeeked s) v
    (_onComplete s) (_onRedirect s) (_onRecoveredEarlyEof s) (trace s).
Definition set_onComplete (v : bool) (s : t) : t :=
  mk (_config s) (_stashInitialSize s) (_stashUsed s) (_stashSize s)
    (_bufferSize s) (_stashBuffer s) (_stashByteStart s) (_enableStash s)
    (_loader s) (_loaderClass s) (_dataSource s) (_totalLength s)
    (_fullRequestFlag s) (_currentRange s) (_redirectedURL s)
    (_speedNormalized s) (_speedSampler s) (_isEarlyEofReconnecting s)
    (_paused s) (_resumeFrom s) (_onDataArrival s) (_onSeeked s)
    (_onError s) v (_onRedirect s) (_onRecoveredEarlyEof s) (trace s).
Definition set_onRedirect (v : bool) (s : t) : t :=
  mk (_config s) (_stashInitialSize s) (_stashUsed s) (_stashSize s)
    (_bufferSize s) (_stashBuffer s) (_stashByteStart s) (_enableStash s)
    (_loader s) (_loaderClass s) (_dataSource s) (_totalLength s)
    (_fullRequestFlag s) (_currentRange s) (_redirectedURL s)
    (_speedNormalized s) (_speedSampler s) (_isEarlyEofReconnecting s)
    (_paused s) (_resumeFrom s) (_onDataArrival s) (_onSeeked s)
    (_onError s) (_onComplete s) v (_onRecoveredEarlyEof s) (trace s).
Definition set_onRecoveredEarlyEof (v : bool) (s : t) : t :=
  mk (_config s) (_stashInitialSize s) (_stashUsed s) (_stashSize s)
    (_bufferSize s) (_stashBuffer s) (_stashByteStart s) (_enableStash s)
    (_loader s) (_loaderClass s) (_dataSource s) (_totalLength s)
    (_fullRequestFlag s) (_currentRange s) (_redirectedURL s)
    (_speedNormalized s) (_speedSampler s) (_isEarlyEofReconnecting s)
    (_paused s) (_resumeFrom s) (_onDataArrival s) (_onSeeked s)
    (_onError s) (_onComplete s) (_onRedirect s) v (trace s).
Definition set_trace (v : list Event) (s : t) : t :=
  mk (_config s) (_stashInitialSize s) (_stashUsed s) (_stashSize s)
    (_bufferSize s) (_stashBuffer s) (_stashByteStart s) (_enableStash s)
    (_loader s) (_loaderClass s) (_dataSource s) (_totalLength s)
    (_fullRequestFlag s) (_currentRange s) (_redirectedURL s)
    (_speedNormalized s) (_speedSampler s) (_isEarlyEofReconnecting s)
    (_paused s) (_resumeFrom s) (_onDataArrival s) (_onSeeked s)
    (_onError s) (_onComplete s) (_onRedirect s) (_onRecoveredEarlyEof s)
    v.

(** *** The state-and-exception monad of the methods

    A method run either returns, or throws, or (the doubling loop of
    [_expandBuffer] on a non-positive stash size) never returns. *)
Inductive Outcome (A : Type) :=
  | Ret (a : A) (s : t)
  | Throw (e : Exn) (s : t)
  | Diverge.
Arguments Ret {A}.
Arguments Throw {A}.
Arguments Diverge {A}.

Definition M (A : Type) : Type := t -> Outcome A.

Definition ret {A} (a : A) : M A := fun s => Ret a s.
Definition bind {A B} (m : M A) (k : A -> M B) : M B :=
  fun s => match m s with
           | Ret a s' => k a s'
           | Throw e s' => Throw e s'
           | Diverge => Diverge
           end.
Definition throw {A} (e : Exn) : M A := fun s => Throw e s.
Definition gets {A} (f : t -> A) : M A := fun s => Ret (f s) s.
Definition modify (f : t -> t) : M unit := fun s => Ret tt (f s).
Definition when (b : bool) (m : M unit) : M unit :=
  if b then m else ret tt.
Definition emit (e : Event) : M unit :=
  modify (fun s => set_trace (trace s ++ [e]) s).
(** Reading through a [null] reference and a failed typed-array
    operation throw. *)
Definition non_null {A} (f : t -> option A) : M A :=
  fun s => match f s with Some a => Ret a s | None => Throw TypeError s end.
Definition in_range {A} (o : option A) : M A :=
  fun s => match o with Some a => Ret a s | None => Throw RangeError s end.

Notation "x <- m ;; k" := (bind m (fun x => k))
  (at level 61, m at next level, right associativity).
Notation "m ;; k" := (bind m (fun _ => k))
  (at level 61, right associativity).

(** [new Uint8Array(this._stashBuffer, 0, length)], used only as the
    target of [set]: the view is its length, and it always aliases the
    current [_stashBuffer] because no view is used across a
    reallocation. *)
Definition stashArray_new (length : Z) : M Z :=
  fun s => match Uint8Array_new (_stashBuffer s) 0 (Some length) with
           | Some v => Ret (u8_length v) s
           | None => Throw RangeError s
           end.

(** [stashArray.set(source, offset)] *)
Definition stashArray_set (stashArray : Z) (source : Uint8Array)
    (offset : Z) : M unit :=
  fun s => match Uint8Array_set (_stashBuffer s) stashArray source offset
           with
           | Some b => Ret tt (set_stashBuffer b s)
           | None => Throw RangeError s
           end.

(** [new Uint8Array(chunk, byteOffset)] *)
Definition Uint8Array_of_chunk (chunk : list Byte.byte) (byteOffset : Z)
  : M Uint8Array :=
  in_range (Uint8Array_new (ArrayBuffer_of_list chunk) byteOffset None).

(** [new Uint8Array(this._stashBuffer, byteOffset)] *)
Definition Uint8Array_of_stash (byteOffset : Z) : M Uint8Array :=
  fun s => in_range (Uint8Array_new (_stashBuffer s) byteOffset None) s.

(** [this._stashBuffer.slice(0, this._stashUsed)] *)
Definition stash_slice : M (list Byte.byte) :=
  gets (fun s => ArrayBuffer_slice (_stashBuffer s) 0 (_stashUsed s)).

(** [constructor(dataSource, config, extraData)] after
    [_selectLoader()] chose [loaderClass]. *)
Definition _createLoader (s : t) : t :=
  let l := loader_new (_loaderClass s) in
  let s := set_loader (Some l) s in
  if negb (loader_needStashBuffer l) then set_enableStash false s else s.

Definition new (dataSource : DataSource) (config : Config)
    (loaderClass : LoaderClass) : t :=
  let stashInitialSize :=
    match stashInitialSize config with
    | Some n => if n >? 0 then n else 1024 * 384
    | None => 1024 * 384
    end in
  let totalLength :=
    match filesize dataSource with
    | Some n => if n =? 0 then None else Some n
    | None => None
    end in
  _createLoader
    (mk config stashInitialSize 0 stashInitialSize (1024 * 1024 * 3)
        (ArrayBuffer_new (1024 * 1024 * 3)) 0
        (match enableStashBuffer config with
         | Some false => false | _ => true end)
        None loaderClass dataSource totalLength false None None 0
        SpeedSampler.new false false 0 None false false false false false
        []).

(** [isWorking()] *)
Definition isWorking (s : t) : bool :=
  match _loader s with
  | Some l => loader_isWorking l && negb (_paused s)
  | None => false
  end.

(** [isPaused()] *)
Definition isPaused (s : t) : bool := _paused s.

(** The [while] loop of [_expandBuffer]: [None] when it is still
    running after [fuel] doublings. *)
Fixpoint expand_loop (fuel : nat) (bufferNewSize expectedBytes : Z)
  : option Z :=
  if bufferNewSize + 1024 * 1024 * 1 <? expectedBytes then
    match fuel with
    | O => None
    | S fuel' => expand_loop fuel' (bufferNewSize * 2) expectedBytes
    end
  else Some bufferNewSize.

(** A positive size passes [expectedBytes] within this many doublings
    (lemma [expand_loop_terminates]); a size that is zero or negative
    never does. *)
Definition expand_fuel (expectedBytes : Z) : nat :=
  S (Z.to_nat (Z.log2_up expectedBytes)).

(** [_expandBuffer(expectedBytes)] *)
Definition _expandBuffer (expectedBytes : Z) : M unit :=
  fun s =>
    match expand_loop (expand_fuel expectedBytes) (_stashSize s)
                      expectedBytes with
    | None => Diverge
    | Some doubled =>
      let bufferNewSize := doubled + 1024 * 1024 * 1 in
      if bufferNewSize =? _bufferSize s then Ret tt s
      else if bufferNewSize <? 0 then Throw RangeError s
      else
        let newBuffer := ArrayBuffer_new bufferNewSize in
        (newBuffer <-
           (if _stashUsed s >? 0 then
              stashOldArray <-
                in_range (Uint8Array_new (_stashBuffer s) 0
                                         (Some (_stashUsed s))) ;;
              in_range (Uint8Array_set newBuffer bufferNewSize
                                       stashOldArray 0)
            else ret newBuffer) ;;
         modify (set_stashBuffer newBuffer) ;;
         modify (set_bufferSize bufferNewSize)) s
    end.

Definition _speedNormalizeList : list Z :=
  [64; 128; 256; 384; 512; 768; 1024; 1536; 2048; 3072; 4096].

(** [_normalizeSpeed(input)] *)
Definition _normalizeSpeed (input : Q) : option Z :=
  normalizeSpeed _speedNormalizeList input.

(** The [stashSizeKB] that [_adjustStashSize] computes, before and
    after the clamp. *)
Definition stashSizeKB_for (live : bool) (normalized : Z) : Z :=
  let stashSizeKB :=
    if live then normalized
    else if normalized <? 512 then normalized
    else if (normalized >=? 512) && (normalized <=? 1024)
    then (normalized * 3) / 2      (* Math.floor(normalized * 1.5) *)
    else normalized * 2 in
  if stashSizeKB >? 8192 then 8192 else stashSizeKB.

(** [_adjustStashSize(normalized)] *)
Definition _adjustStashSize (normalized : Z) : M unit :=
  live <- gets (fun s => isLive (_config s)) ;;
  let stashSizeKB := stashSizeKB_for live normalized in
  let bufferSize := stashSizeKB * 1024 + 1024 * 1024 * 1 in
  current <- gets _bufferSize ;;
  when (current <? bufferSize) (_expandBuffer bufferSize) ;;
  modify (set_stashSize (stashSizeKB * 1024)).

(** [_dispatchChunks(chunks, byteStart)] *)
Definition _dispatchChunks (chunks : list Byte.byte) (byteStart : Z)
  : M Z :=
  r <- non_null _currentRange ;;
  modify (set_currentRange
            (Some (mkRange (from r) (byteStart + byteLength chunks - 1)))) ;;
  consumer <- non_null _onDataArrival ;;
  history <- gets trace ;;
  let consumed := consumer history chunks byteStart in
  emit (ev_onDataArrival chunks byteStart consumed) ;;
  ret consumed.

(** [_onURLRedirect(redirectedURL)] *)
Definition _onURLRedirect (redirectedURL : string) : M unit :=
  modify (set_redirectedURL (Some redirectedURL)) ;;
  cb <- gets _onRedirect ;;
  when cb (emit (ev_onRedirect redirectedURL)).

(** [_onContentLengthKnown(contentLength)] *)
Definition _onContentLengthKnown (contentLength : Z) : M unit :=
  flag <- gets _fullRequestFlag ;;
  when (negb (contentLength =? 0) && flag)
       (modify (set_totalLength (Some contentLength)) ;;
        modify (set_fullRequestFlag false)).

(** [_onLoaderChunkArrival(chunk, byteStart, receivedLength)].  When
    [_normalizeSpeed] returns [undefined] ([None], which lemma
    [normalizeSpeed_total] excludes) the stash size is left as it
    is. *)
Definition _onLoaderChunkArrival (now : Z) (chunk : list Byte.byte)
    (byteStart receivedLength : Z) : M unit :=
  consumer <- gets _onDataArrival ;;
  match consumer with
  | None =>
    throw (IllegalStateException
             "IOController: No existing consumer (onDataArrival) callback!")
  | Some _ =>
  paused <- gets _paused ;;
  if paused then ret tt else
  reconnecting <- gets _isEarlyEofReconnecting ;;
  when reconnecting
    (modify (set_isEarlyEofReconnecting false) ;;
     cb <- gets _onRecoveredEarlyEof ;;
     when cb (emit ev_onRecoveredEarlyEof)) ;;
  modify (fun s => set_speedSampler
            (SpeedSampler.addBytes now (byteLength chunk)
                                   (_speedSampler s)) s) ;;
  KBps <- (fun s =>
             let '(k, sampler) :=
               SpeedSampler.lastSecondKBps now (_speedSampler s) in
             Ret k (set_speedSampler sampler s)) ;;
  when (negb (Qeq_bool KBps 0))
    (match _normalizeSpeed KBps with
     | Some normalized =>
       current <- gets _speedNormalized ;;
       when (negb (current =? normalized))
         (modify (set_speedNormalized normalized) ;;
          _adjustStashSize normalized)
     | None => ret tt
     end) ;;
  enableStash <- gets _enableStash ;;
  if negb enableStash then
    used <- gets _stashUsed ;;
    if used =? 0 then
      consumed <- _dispatchChunks chunk byteStart ;;
      when (consumed <? byteLength chunk)
        (let remain := byteLength chunk - consumed in
         bufferSize <- gets _bufferSize ;;
         when (remain >? bufferSize) (_expandBuffer remain) ;;
         bufferSize <- gets _bufferSize ;;
         stashArray <- stashArray_new bufferSize ;;
         source <- Uint8Array_of_chunk chunk consumed ;;
         stashArray_set stashArray source 0 ;;
         modify (fun s => set_stashUsed (_stashUsed s + remain) s) ;;
         modify (set_stashByteStart (byteStart + consumed)))
    else
      bufferSize <- gets _bufferSize ;;
      when (used + byteLength chunk >? bufferSize)
           (_expandBuffer (used + byteLength chunk)) ;;
      bufferSize <- gets _bufferSize ;;
      stashArray <- stashArray_new bufferSize ;;
      source <- Uint8Array_of_chunk chunk 0 ;;
      stashArray_set stashArray source used ;;
      modify (fun s => set_stashUsed (_stashUsed s + byteLength chunk) s) ;;
      buffer <- stash_slice ;;
      stashByteStart <- gets _stashByteStart ;;
      consumed <- _dispatchChunks buffer stashByteStart ;;
      used <- gets _stashUsed ;;
      when ((consumed <? used) && (consumed >? 0))
        (remainArray <- Uint8Array_of_stash consumed ;;
         stashArray_set stashArray remainArray 0) ;;
      modify (fun s => set_stashUsed (_stashUsed s - consumed) s) ;;
      modify (fun s => set_stashByteStart (_stashByteStart s + consumed) s)
  else
    used <- gets _stashUsed ;;
    stashByteStart <- gets _stashByteStart ;;
    when ((used =? 0) && (stashByteStart =? 0))
         (modify (set_stashByteStart byteStart)) ;;
    stashSize <- gets _stashSize ;;
    if used + byteLength chunk <=? stashSize then
      stashArray <- stashArray_new stashSize ;;
      source <- Uint8Array_of_chunk chunk 0 ;;
      stashArray_set stashArray source used ;;
      modify (fun s => set_stashUsed (_stashUsed s + byteLength chunk) s)
    else
      bufferSize <- gets _bufferSize ;;
      stashArray <- stashArray_new bufferSize ;;
      if used >? 0 then
        buffer <- stash_slice ;;
        stashByteStart <- gets _stashByteStart ;;
        consumed <- _dispatchChunks buffer stashByteStart ;;
        (if consumed <? byteLength buffer then
           when (consumed >? 0)
             (remainArray <-
                in_range (Uint8Array_new (ArrayBuffer_of_list buffer)
                                         consumed None) ;;
              stashArray_set stashArray remainArray 0 ;;
              modify (set_stashUsed (u8_length remainArray)) ;;
              modify (fun s =>
                        set_stashByteStart (_stashByteStart s + consumed) s))
         else
           modify (set_stashUsed 0) ;;
           modify (fun s =>
                     set_stashByteStart (_stashByteStart s + consumed) s)) ;;
        used <- gets _stashUsed ;;
        bufferSize <- gets _bufferSize ;;
        stashArray <-
          (if used + byteLength chunk >? bufferSize then
             _expandBuffer (used + byteLength chunk) ;;
             bufferSize <- gets _bufferSize ;;
             stashArray_new bufferSize
           else ret stashArray) ;;
        source <- Uint8Array_of_chunk chunk 0 ;;
        stashArray_set stashArray source used ;;
        modify (fun s => set_stashUsed (_stashUsed s + byteLength chunk) s)
      else
        consumed <- _dispatchChunks chunk byteStart ;;
        when (consumed <? byteLength chunk)
          (let remain := byteLength chunk - consumed in
           bufferSize <- gets _bufferSize ;;
           stashArray <-
             (if remain >? bufferSize then
                _expandBuffer remain ;;
                bufferSize <- gets _bufferSize ;;
                stashArray_new bufferSize
              else ret stashArray) ;;
           source <- Uint8Array_of_chunk chunk consumed ;;
           stashArray_set stashArray source 0 ;;
           modify (fun s => set_stashUsed (_stashUsed s + remain) s) ;;
           modify (set_stashByteStart (byteStart + consumed)))
  end.

(** [_flushStashBuffer(dropUnconsumed)] *)
Definition _flushStashBuffer (dropUnconsumed : bool) : M Z :=
  used <- gets _stashUsed ;;
  if used >? 0 then
    buffer <- stash_slice ;;
    stashByteStart <- gets _stashByteStart ;;
    consumed <- _dispatchChunks buffer stashByteStart ;;
    let remain := byteLength buffer - consumed in
    let discard : M Z :=
      modify (set_stashUsed 0) ;;
      modify (set_stashByteStart 0) ;;
      ret remain in
    if consumed <? byteLength buffer then
      if dropUnconsumed then
        emit (ev_Log_w (msg_unconsumed_dropped remain)) ;;
        discard
      else
        when (consumed >? 0)
          (bufferSize <- gets _bufferSize ;;
           stashArray <- stashArray_new bufferSize ;;
           remainArray <-
             in_range (Uint8Array_new (ArrayBuffer_of_list buffer)
                                      consumed None) ;;
           stashArray_set stashArray remainArray 0 ;;
           modify (set_stashUsed (u8_length remainArray)) ;;
           modify (fun s =>
                     set_stashByteStart (_stashByteStart s + consumed) s)) ;;
        ret 0
    else discard
  else ret 0.

(** [_onLoaderComplete(from, to)] *)
Definition _onLoaderComplete (from_ to_ : Z) : M unit :=
  _flushStashBuffer true ;;
  cb <- gets _onComplete ;;
  when cb (emit ev_onComplete).

Section Host.

(** What [new WebSocket(url)] does in the host (see
    [WebSocketLoader.open]). *)
Variable WebSocket_ctor : string -> option ErrorInfo.

(** The callbacks [loader.open()] invokes before it returns are
    [onError] calls (lemma [loader_open_callbacks]); [onLoaderError]
    is the handler [_createLoader] bound to [loader.onError]. *)
Fixpoint run_open_callbacks
    (onLoaderError : LoaderErrors -> ErrorInfo -> M unit)
    (cbs : list LoaderCallback) : M unit :=
  match cbs with
  | [] => ret tt
  | onError type data :: cbs =>
    onLoaderError type data ;; run_open_callbacks onLoaderError cbs
  | _ :: cbs => run_open_callbacks onLoaderError cbs
  end.

(** [this._loader.open(this._dataSource, range)] *)
Definition open_loader
    (onLoaderError : LoaderErrors -> ErrorInfo -> M unit)
    (range : Range) : M unit :=
  l <- non_null _loader ;;
  dataSource <- gets _dataSource ;;
  let '(l, cbs) := loader_open WebSocket_ctor dataSource range l in
  modify (set_loader (Some l)) ;;
  run_open_callbacks onLoaderError cbs.

(** [_internalSeek(bytes, dropUnconsumed)], given the error handler
    bound to the loader it creates. *)
Definition _internalSeek_with
    (onLoaderError : LoaderErrors -> ErrorInfo -> M unit)
    (bytes : Z) (dropUnconsumed : bool) : M unit :=
  l <- non_null _loader ;;
  when (loader_isWorking l)
       (modify (set_loader (Some (loader_abort l)))) ;;
  _flushStashBuffer dropUnconsumed ;;
  l <- non_null _loader ;;
  modify (set_loader (Some (loader_destroy l))) ;;
  modify (set_loader None) ;;
  let requestRange := mkRange bytes (-1) in
  modify (set_currentRange (Some (mkRange (from requestRange) (-1)))) ;;
  modify (fun s =>
            set_speedSampler (SpeedSampler.reset (_speedSampler s)) s) ;;
  modify (fun s => set_stashSize (_stashInitialSize s) s) ;;
  modify _createLoader ;;
  open_loader onLoaderError requestRange ;;
  cb <- gets _onSeeked ;;
  when cb (emit ev_onSeeked).

(** [_onLoaderError(type, data)], given what [this._internalSeek]
    does. *)
Definition _onLoaderError_with
    (internalSeek : Z -> bool -> M unit)
    (type : LoaderErrors) (data : ErrorInfo) : M unit :=
  emit (ev_Log_e (msg_loader_error (code data) (msg data))) ;;
  _flushStashBuffer false ;;
  reconnecting <- gets _isEarlyEofReconnecting ;;
  when reconnecting (modify (set_isEarlyEofReconnecting false)) ;;
  let type := if reconnecting then UNRECOVERABLE_EARLY_EOF else type in
  let report (type : LoaderErrors) : M unit :=
    cb <- gets _onError ;;
    if cb then emit (ev_onError type data)
    else throw (RuntimeException ("IOException: " ++ msg data)) in
  match type with
  | EARLY_EOF =>
    live <- gets (fun s => isLive (_config s)) ;;
    totalLength <- gets _totalLength ;;
    match live, totalLength with
    | false, Some totalLength =>
      if totalLength =? 0 then report UNRECOVERABLE_EARLY_EOF
      else
        r <- non_null _currentRange ;;
        let nextFrom := to r + 1 in
        when (nextFrom <? totalLength)
          (emit (ev_Log_w msg_connection_lost) ;;
           modify (set_isEarlyEofReconnecting true) ;;
           internalSeek nextFrom false)
    | _, _ => report UNRECOVERABLE_EARLY_EOF
    end
  | _ => report type
  end.

(** [_onLoaderError] and [_internalSeek] call each other: the error
    handler reconnects through [_internalSeek], which binds the error
    handler to the loader it opens.  [depth] bounds the nesting; two
    levels are never exceeded (lemma [onLoaderError_depth_enough]). *)
Fixpoint _onLoaderError_depth (depth : nat) (type : LoaderErrors)
    (data : ErrorInfo) : M unit :=
  match depth with
  | O => fun _ => Diverge
  | S depth' =>
    _onLoaderError_with
      (_internalSeek_with (_onLoaderError_depth depth')) type data
  end.

Definition _onLoaderError : LoaderErrors -> ErrorInfo -> M unit :=
  _onLoaderError_depth 2.

Definition _internalSeek : Z -> bool -> M unit :=
  _internalSeek_with (_onLoaderError_depth 1).

(** [open(optionalFrom)]; [None] when the argument is omitted. *)
Definition open (optionalFrom : option Z) : M unit :=
  modify (set_currentRange (Some (mkRange 0 (-1)))) ;;
  match optionalFrom with
  | Some n =>
    when (negb (n =? 0)) (modify (set_currentRange (Some (mkRange n (-1)))))
  | None => ret tt
  end ;;
  modify (fun s =>
            set_speedSampler (SpeedSampler.reset (_speedSampler s)) s) ;;
  match optionalFrom with
  | Some n => when (n =? 0) (modify (set_fullRequestFlag true))
  | None => modify (set_fullRequestFlag true)
  end ;;
  r <- non_null _currentRange ;;
  open_loader _onLoaderError r.

(** [abort()] *)
Definition abort : M unit :=
  l <- non_null _loader ;;
  modify (set_loader (Some (loader_abort l))) ;;
  paused <- gets _paused ;;
  when paused (modify (set_paused false) ;; modify (set_resumeFrom 0)).

(** [pause()] *)
Definition pause : M unit :=
  working <- gets isWorking ;;
  when working
    (l <- non_null _loader ;;
     modify (set_loader (Some (loader_abort l))) ;;
     used <- gets _stashUsed ;;
     (if negb (used =? 0) then
        stashByteStart <- gets _stashByteStart ;;
        modify (set_resumeFrom stashByteStart) ;;
        r <- non_null _currentRange ;;
        modify (set_currentRange
                  (Some (mkRange (from r) (stashByteStart - 1))))
      else
        r <- non_null _currentRange ;;
        modify (set_resumeFrom (to r + 1))) ;;
     modify (set_stashUsed 0) ;;
     modify (set_stashByteStart 0) ;;
     modify (set_paused true)).

(** [resume()] *)
Definition resume : M unit :=
  paused <- gets _paused ;;
  when paused
    (modify (set_paused false) ;;
     bytes <- gets _resumeFrom ;;
     modify (set_resumeFrom 0) ;;
     _internalSeek bytes true).

(** [seek(bytes)] *)
Definition seek (bytes : Z) : M unit :=
  modify (set_paused false) ;;
  modify (set_stashUsed 0) ;;
  modify (set_stashByteStart 0) ;;
  _internalSeek bytes true.

(** *** The loader's callbacks, as bound by [_createLoader] *)

Definition deliver (now : Z) (cb : LoaderCallback) : M unit :=
  match cb with
  | onContentLengthKnown n => _onContentLengthKnown n
  | onURLRedirect u => _onURLRedirect u
  | onDataArrival chunk byteStart receivedLength =>
    _onLoaderChunkArrival now chunk byteStart receivedLength
  | onComplete from_ to_ => _onLoaderComplete from_ to_
  | onError type data => _onLoaderError type data
  end.

Fixpoint deliver_all (now : Z) (cbs : list LoaderCallback) : M unit :=
  match cbs with
  | [] => ret tt
  | cb :: cbs => deliver now cb ;; deliver_all now cbs
  end.

(** A transport event at time [now]: [handler] is the method of the
    loader that the event runs.  An exception that a callback throws is
    the outcome of the event: the rejection handlers of the fetch
    promise chain, which would catch it and report it through
    [onError], are outside this model. *)
Definition loader_event (now : Z)
    (handler : Loader -> Loader * list LoaderCallback) : M unit :=
  l <- non_null _loader ;;
  let '(l, cbs) := handler l in
  modify (set_loader (Some l)) ;;
  deliver_all now cbs.

(** [FetchStreamLoader._pump]'s [read()] settling with [result], up to
    the end of its [then] callback (see [loader_event] for a callback
    that throws). *)
Definition fetch_read (now : Z) (result : FetchStreamLoader.ReadResult)
  : M unit :=
  loader_event now
    (fun l => match l with
              | FetchStream l =>
                let '(l, cbs, _) := FetchStreamLoader._pump result l in
                (FetchStream l, cbs)
              | _ => (l, [])
              end).

(** The [fetch] promise settling with [res], up to the end of its
    [then] callback. *)
Definition fetch_response (now : Z) (res : FetchStreamLoader.Response)
  : M unit :=
  loader_event now
    (fun l => match l with
              | FetchStream l =>
                let '(l, cbs, _) := FetchStreamLoader.fetch_then res l in
                (FetchStream l, cbs)
              | _ => (l, [])
              end).

(** [RangeLoader._onLoad] for a sub-range answered with [chunk]. *)
Definition range_load (now : Z) (chunk : list Byte.byte) : M unit :=
  loader_event now
    (fun l => match l with
              | XhrRange l =>
                let '(l, cbs) := RangeLoader._onLoad now chunk l in
                (XhrRange l, cbs)
              | _ => (l, [])
              end).

End Host.

(** A sequence of methods run one after the other. *)
Fixpoint run (ms : list (M unit)) : M unit :=
  match ms with
  | [] => ret tt
  | m :: ms => m ;; run ms
  end.

(** The calls of [onDataArrival] in a trace, oldest first, each with
      [(byteStart, chunk length, consumed)]. *)
Fixpoint dispatches (tr : list Event) : list (Z * Z * Z) :=
  match tr with
  | [] => []
  | ev_onDataArrival chunks byteStart consumed :: tr =>
    (byteStart, byteLength chunks, consumed) :: dispatches tr
  | _ :: tr => dispatches tr
  end.

End IOController.

(** ** Vocabulary of the properties *)

(** What the search establishes: [v] sits at an index [k] of the list,
    is not above [input], and the next entry, if any, is above it. *)
Definition step_of (list : list Z) (input : Q) (v : Z) : Prop :=
  exists k, js_index list k = Some v /\ (inject_Z v <= input)%Q /\
            forall b, js_index list (k + 1) = Some b -> (input < inject_Z b)%Q.

(** The "normalized" value of [x] on a ladder whose least entry is
    [floor]: the greatest entry not above [x], and [floor] itself for an
    [x] below every entry. *)
Definition ladder_floor (ladder : list Z) (floor : Z) (x : Q) (v : Z)
  : Prop :=
  In v ladder /\
  ((x < inject_Z floor)%Q -> v = floor) /\
  ((inject_Z floor <= x)%Q ->
   (inject_Z v <= x)%Q /\
   forall w, In w ladder -> (inject_Z w <= x)%Q -> w <= v).

(** The spec's formula for [current_kbps]. *)
Definition spec_current_kbps (interval_bytes now last_checkpoint : Z) : Q :=
  (inject_Z interval_bytes / inject_Z (Z.max 1 (now - last_checkpoint))
   * 1000 / 1024)%Q.


(** The methods of a RangeLoader that its owner and the XMLHttpRequest
    events run, as one step of the loader's life. *)
Inductive RangeLoader_step : RangeLoader.t -> RangeLoader.t -> Prop :=
  | step_open dataSource range l :
      RangeLoader_step l (RangeLoader.open dataSource range l)
  | step_abort l : RangeLoader_step l (RangeLoader.abort l)
  | step_destroy l : RangeLoader_step l (RangeLoader.destroy l)
  | step_onReadyStateChange redirected httpStatus statusText l :
      RangeLoader_step l
        (fst (RangeLoader._onReadyStateChange redirected httpStatus
                                              statusText l))
  | step_onProgress now total loaded l :
      RangeLoader_step l (fst (RangeLoader._onProgress now total loaded l))
  | step_onLoad now chunk l :
      RangeLoader_step l (fst (RangeLoader._onLoad now chunk l))
  | step_onXhrError what l :
      RangeLoader_step l (fst (RangeLoader._onXhrError what l)).

Inductive RangeLoader_reachable : RangeLoader.t -> Prop :=
  | reach_new : RangeLoader_reachable RangeLoader.new
  | reach_step l l' :
      RangeLoader_reachable l -> RangeLoader_step l l' ->
      RangeLoader_reachable l'.


(** *** The controller *)

Section ControllerVocabulary.

Import IOController.

(** What [_expandBuffer(expectedBytes)] does to a controller [s]. *)
Definition expandBuffer_post (s : IOController.t) (expectedBytes : Z)
  : Prop :=
  exists k,
    0 <= k /\
    let new_size := _stashSize s * 2 ^ k + MiB in
    (forall j, 0 <= j < k -> _stashSize s * 2 ^ j + MiB < expectedBytes) /\
    expectedBytes <= new_size /\
    (new_size = _bufferSize s -> _expandBuffer expectedBytes s = Ret tt s) /\
    (new_size <> _bufferSize s -> _stashUsed s <= new_size ->
     exists newBuffer,
       _expandBuffer expectedBytes s
       = Ret tt (set_bufferSize new_size (set_stashBuffer newBuffer s)) /\
       ab_byteLength newBuffer = new_size /\
       (forall i, 0 <= i < _stashUsed s ->
                  ab_cell newBuffer i = ab_cell (_stashBuffer s) i)) /\
    (forall s',
        _expandBuffer expectedBytes s = Ret tt s' ->
        _stashUsed s <= new_size ->
        _bufferSize s' = new_size /\
        _stashUsed s' = _stashUsed s /\
        _stashByteStart s' = _stashByteStart s /\
        _stashSize s' = _stashSize s /\
        (expectedBytes <= _bufferSize s' \/ _bufferSize s' = _bufferSize s)).

(** What [_adjustStashSize(normalized)] does to a controller [s]: the
    stash target follows the table, and a buffer smaller than the target
    plus 1 MiB grows through [_expandBuffer], that is to the old stash
    size doubled until it reaches the target, plus 1 MiB. *)
Definition adjustStashSize_post (s : IOController.t) (normalized : Z)
  : Prop :=
  let kb := stashSizeKB_for (isLive (_config s)) normalized in
  let desired := kb * 1024 + MiB in
  exists s',
    _adjustStashSize normalized s = Ret tt s' /\
    _stashSize s' = kb * 1024 /\
    _stashUsed s' = _stashUsed s /\
    _stashByteStart s' = _stashByteStart s /\
    trace s' = trace s /\
    (desired <= _bufferSize s -> _bufferSize s' = _bufferSize s) /\
    (_bufferSize s < desired ->
     desired <= _bufferSize s' /\
     exists k,
       0 <= k /\ _bufferSize s' = _stashSize s * 2 ^ k + MiB /\
       forall j, 0 <= j < k -> _stashSize s * 2 ^ j + MiB < desired).

(** The fields [_flushStashBuffer] and [_dispatchChunks] never touch. *)
Definition same_outside_stash (s s' : t) : Prop :=
  _config s' = _config s /\
  _stashInitialSize s' = _stashInitialSize s /\
  _stashSize s' = _stashSize s /\
  _bufferSize s' = _bufferSize s /\
  _enableStash s' = _enableStash s /\
  _loader s' = _loader s /\
  _loaderClass s' = _loaderClass s /\
  _dataSource s' = _dataSource s /\
  _totalLength s' = _totalLength s /\
  _fullRequestFlag s' = _fullRequestFlag s /\
  _speedNormalized s' = _speedNormalized s /\
  _speedSampler s' = _speedSampler s /\
  _isEarlyEofReconnecting s' = _isEarlyEofReconnecting s /\
  _paused s' = _paused s /\
  _resumeFrom s' = _resumeFrom s /\
  _onDataArrival s' = _onDataArrival s /\
  _onSeeked s' = _onSeeked s /\
  _onError s' = _onError s /\
  _onComplete s' = _onComplete s /\
  _onRecoveredEarlyEof s' = _onRecoveredEarlyEof s.

(** The state in which [_internalSeek] opens the new loader. *)
Definition seek_prepared (bytes : Z) (s : t) : t :=
  _createLoader
    (set_stashSize (_stashInitialSize s)
       (set_speedSampler (SpeedSampler.reset (_speedSampler s))
          (set_currentRange (Some (mkRange bytes (-1)))
             (set_loader None s)))).

(** Reporting an error: through [onError] when bound, else by throwing
    the IOException. *)
Definition report_error (type : LoaderErrors) (data : ErrorInfo) (s : t)
  : Outcome unit :=
  if _onError s then Ret tt (set_trace (trace s ++ [ev_onError type data]) s)
  else Throw (RuntimeException ("IOException: " ++ msg data)) s.

(** The state in which [_onLoaderError] flushes: the error is logged. *)
Definition error_logged (data : ErrorInfo) (s : t) : t :=
  set_trace (trace s ++ [ev_Log_e (msg_loader_error (code data) (msg data))])
            s.

(** The state in which the reconnecting [_internalSeek] starts. *)
Definition reconnecting_from (s : t) : t :=
  set_isEarlyEofReconnecting true
    (set_trace (trace s ++ [ev_Log_w msg_connection_lost]) s).

(** The events [seek] can add to the trace. *)
Definition seek_event (e : Event) : Prop :=
  e = ev_onSeeked \/
  (exists type info, e = ev_onError type info) \/
  (exists code msg, e = ev_Log_e (msg_loader_error code msg)).

End ControllerVocabulary.

(** *** Scenarios *)

(** A host in which [new WebSocket(url)] always returns a socket. *)
Definition host_ok : string -> option ErrorInfo := fun _ => None.

Definition on_demand_source : DataSource :=
  mkDataSource "http://host/video.flv" None.

(** A controller as constructed with the default configuration for an
    on-demand stream, on a host with fetch streaming. *)
Definition default_controller : IOController.t :=
  IOController.new on_demand_source (mkConfig None None false)
                   class_FetchStreamLoader.

(** The state a run leaves behind ([s0] if it never returns). *)
Definition final_state {A} (o : IOController.Outcome A)
    (s0 : IOController.t) : IOController.t :=
  match o with
  | IOController.Ret _ s => s
  | IOController.Throw _ s => s
  | IOController.Diverge => s0
  end.

(** A consumer that accepts [n] bytes of whatever it is shown. *)
Definition consumer_accepting (n : Z) : Consumer := fun _ _ _ => n.

(** A controller with the stash disabled that was opened at 0, received
    the three bytes ["ABC"] and whose consumer accepted none: they are
    in the stash. *)
Definition controller_holding_ABC : IOController.t :=
  let s0 :=
    IOController.set_onDataArrival (Some (consumer_accepting 0))
      (IOController.new on_demand_source (mkConfig None (Some false) false)
                        class_FetchStreamLoader) in
  final_state
    (IOController.run
       [IOController.open host_ok None;
        IOController.fetch_read host_ok 5
          (FetchStreamLoader.Value [Byte.x41; Byte.x42; Byte.x43])] s0) s0.


(** A host in which [new WebSocket(url)] throws a SyntaxError. *)
Definition host_refusing_sockets : string -> option ErrorInfo :=
  fun _ => Some (mkInfo 12 "SyntaxError").

(** Scenario S3: an on-demand stream of 1000 bytes, default
    configuration, every callback bound and a consumer that accepts all
    it is shown; the first 600 bytes have arrived (and sit in the
    stash). *)
Definition consumer_accepting_all : Consumer :=
  fun _ chunk _ => byteLength chunk.

Definition early_eof_info : ErrorInfo :=
  mkInfo (-1) "Fetch stream meet Early-EOF".

Definition controller_S3 : IOController.t :=
  let s0 :=
    IOController.set_onRecoveredEarlyEof true
      (IOController.set_onSeeked true
         (IOController.set_onError true
            (IOController.set_onDataArrival (Some consumer_accepting_all)
               default_controller))) in
  final_state
    (IOController.run
       [IOController.open host_ok None;
        IOController.fetch_response host_ok 5
          (FetchStreamLoader.mkResponse true 200 "OK" None (Some 1000));
        IOController.fetch_read host_ok 5
          (FetchStreamLoader.Value (repeat Byte.x41 600))] s0) s0.

(** A stream whose [filesize] hint (1000) is smaller than the resource:
    opened at 100 with the stash disabled, the server announces 1400
    more bytes and 950 of them have been delivered and consumed. *)
Definition controller_past_filesize : IOController.t :=
  let s0 :=
    IOController.set_onError true
      (IOController.set_onDataArrival (Some consumer_accepting_all)
         (IOController.new
            (mkDataSource "http://host/video.flv" (Some 1000))
            (mkConfig None (Some false) false) class_FetchStreamLoader)) in
  final_state
    (IOController.run
       [IOController.open host_ok (Some 100);
        IOController.fetch_response host_ok 5
          (FetchStreamLoader.mkResponse true 200 "OK" None (Some 1400));
        IOController.fetch_read host_ok 5
          (FetchStreamLoader.Value (repeat Byte.x41 950))] s0) s0.


(** Consumption accounting (invariant I3) on the list of dispatches
    [(byte_start, length, consumed)]: every dispatch starts where the
    previous one started plus what the consumer took of it. *)
Fixpoint consumption_accounting (ds : list (Z * Z * Z)) : Prop :=
  match ds with
  | (byteStart, _, consumed) :: rest =>
    match rest with
    | (next, _, _) :: _ => next = byteStart + consumed
    | [] => True
    end /\ consumption_accounting rest
  | [] => True
  end.

(** One loader session of a fetch loader: the controller is opened at
    [from] with the stash enabled and a consumer that accepts all it is
    shown; two chunks of [first] and [second] bytes arrive 5 ms after the
    sampler's epoch and the stream completes. *)
Definition session_open_at (from : option Z) (stashInitialSize : option Z)
    (first second : Z) : IOController.Outcome unit :=
  let s0 :=
    IOController.set_onComplete true
      (IOController.set_onDataArrival (Some consumer_accepting_all)
         (IOController.new on_demand_source
            (mkConfig stashInitialSize None false)
            class_FetchStreamLoader)) in
  IOController.run
    [IOController.open host_ok from;
     IOController.fetch_read host_ok 5
       (FetchStreamLoader.Value (repeat Byte.x41 (Z.to_nat first)));
     IOController.fetch_read host_ok 5
       (FetchStreamLoader.Value (repeat Byte.x42 (Z.to_nat second)));
     IOController.fetch_read host_ok 5 FetchStreamLoader.Done] s0.

(** The dispatches of a run that returned. *)
Definition returned_dispatches (o : IOController.Outcome unit)
  : option (list (Z * Z * Z)) :=
  match o with
  | IOController.Ret _ s => Some (IOController.dispatches (IOController.trace s))
  | _ => None
  end.

(** *** Loader sessions *)

(** The [onDataArrival] calls that hand over [chunks] back to back: the
    first one at [rangeFrom + received], each next one where the
    previous chunk ended, each with the running count of received
    bytes. *)
Fixpoint data_callbacks (rangeFrom received : Z)
    (chunks : list (list Byte.byte)) : list LoaderCallback :=
  match chunks with
  | [] => []
  | chunk :: chunks =>
    onDataArrival chunk (rangeFrom + received)
                  (received + byteLength chunk)
    :: data_callbacks rangeFrom (received + byteLength chunk) chunks
  end.

Definition total_length (chunks : list (list Byte.byte)) : Z :=
  fold_right (fun chunk n => byteLength chunk + n) 0 chunks.

(** The [onDataArrival] calls among the callbacks a loader made. *)
Definition data_arrivals (cbs : list LoaderCallback)
  : list LoaderCallback :=
  filter (fun cb => match cb with onDataArrival _ _ _ => true | _ => false end)
         cbs.

(** The [onContentLengthKnown] calls among the callbacks a loader
    made. *)
Definition length_announcements (cbs : list LoaderCallback)
  : list LoaderCallback :=
  filter (fun cb => match cb with
                    | onContentLengthKnown _ => true | _ => false end)
         cbs.

(** The first total, neither null nor zero, that progress events
    report. *)
Fixpoint first_total (events : list (option Z * list Byte.byte))
  : option Z :=
  match events with
  | [] => None
  | (Some n, _) :: events => if n =? 0 then first_total events else Some n
  | (None, _) :: events => first_total events
  end.

(** The callbacks of a run of progress events on a chunked-XHR loader
    that knows [contentLength]: every event hands over its chunk where
    the previous one ended, and the first event that reports a total
    while no content length is known announces it just before its
    chunk. *)
Fixpoint moz_session_callbacks (rangeFrom received : Z)
    (contentLength : option Z) (events : list (option Z * list Byte.byte))
  : list LoaderCallback :=
  match events with
  | [] => []
  | (total, chunk) :: events =>
    let announced :=
      match contentLength with
      | Some _ => None
      | None => first_total [(total, chunk)]
      end in
    match announced with
    | Some n => [onContentLengthKnown n]
    | None => []
    end
    ++ onDataArrival chunk (rangeFrom + received)
                     (received + byteLength chunk)
       :: moz_session_callbacks rangeFrom (received + byteLength chunk)
            (match announced with
             | Some n => Some n
             | None => contentLength
             end) events
  end.

(** Event handlers of one loader run one after the other, with the
    callbacks they make in order. *)
Fixpoint handle_all {L} (handlers : list (L -> L * list LoaderCallback))
    (l : L) : L * list LoaderCallback :=
  match handlers with
  | [] => (l, [])
  | h :: handlers =>
    let '(l, cbs) := h l in
    let '(l', cbs') := handle_all handlers l in
    (l', cbs ++ cbs')
  end.

(** The progress events of a chunked XMLHttpRequest, each with
    [e.total] and the chunk in [e.target.response]. *)
Definition moz_progress_handlers
    (events : list (option Z * list Byte.byte))
  : list (MozChunkedLoader.t -> MozChunkedLoader.t * list LoaderCallback) :=
  map (fun e => MozChunkedLoader._onProgress (fst e) (snd e)) events.

(** The events a RangeLoader's XMLHttpRequest delivers after the
    headers: progress and load. *)
Inductive range_body_event
  : (RangeLoader.t -> RangeLoader.t * list LoaderCallback) -> Prop :=
  | body_progress now total loaded :
      range_body_event (RangeLoader._onProgress now total loaded)
  | body_load now chunk :
      range_body_event (RangeLoader._onLoad now chunk).

(** The same for a chunked XMLHttpRequest: progress and load-end. *)
Inductive moz_body_event
  : (MozChunkedLoader.t -> MozChunkedLoader.t * list LoaderCallback)
    -> Prop :=
  | moz_progress total chunk :
      moz_body_event (MozChunkedLoader._onProgress total chunk)
  | moz_loadend : moz_body_event MozChunkedLoader._onLoadEnd.

(** *** Sampler sessions *)




(** *** The parts of [_onLoaderChunkArrival]

    The method is long; its three parts are named here so that they can
    be reasoned about one at a time.  Lemma [chunk_arrival_parts] shows
    that [_onLoaderChunkArrival], past its two guards, is the first part
    followed by the second or the third. *)

Section ChunkArrivalParts.

Import IOController.

(** From the early-EOF recovery notice to the stash adjustment. *)
Definition arrival_prefix (now : Z) (chunk : list Byte.byte) : M unit :=
  reconnecting <- gets _isEarlyEofReconnecting ;;
  when reconnecting
    (modify (set_isEarlyEofReconnecting false) ;;
     cb <- gets _onRecoveredEarlyEof ;;
     when cb (emit ev_onRecoveredEarlyEof)) ;;
  modify (fun s => set_speedSampler
            (SpeedSampler.addBytes now (byteLength chunk)
                                   (_speedSampler s)) s) ;;
  KBps <- (fun s =>
             let '(k, sampler) :=
               SpeedSampler.lastSecondKBps now (_speedSampler s) in
             Ret k (set_speedSampler sampler s)) ;;
  when (negb (Qeq_bool KBps 0))
    (match _normalizeSpeed KBps with
     | Some normalized =>
       current <- gets _speedNormalized ;;
       when (negb (current =? normalized))
         (modify (set_speedNormalized normalized) ;;
          _adjustStashSize normalized)
     | None => ret tt
     end).

(** The branch for a disabled stash. *)
Definition arrival_without_stash (chunk : list Byte.byte) (byteStart : Z)
  : M unit :=
  used <- gets _stashUsed ;;
  if used =? 0 then
    consumed <- _dispatchChunks chunk byteStart ;;
    when (consumed <? byteLength chunk)
      (let remain := byteLength chunk - consumed in
       bufferSize <- gets _bufferSize ;;
       when (remain >? bufferSize) (_expandBuffer remain) ;;
       bufferSize <- gets _bufferSize ;;
       stashArray <- stashArray_new bufferSize ;;
       source <- Uint8Array_of_chunk chunk consumed ;;
       stashArray_set stashArray source 0 ;;
       modify (fun s => set_stashUsed (_stashUsed s + remain) s) ;;
       modify (set_stashByteStart (byteStart + consumed)))
  else
    bufferSize <- gets _bufferSize ;;
    when (used + byteLength chunk >? bufferSize)
         (_expandBuffer (used + byteLength chunk)) ;;
    bufferSize <- gets _bufferSize ;;
    stashArray <- stashArray_new bufferSize ;;
    source <- Uint8Array_of_chunk chunk 0 ;;
    stashArray_set stashArray source used ;;
    modify (fun s => set_stashUsed (_stashUsed s + byteLength chunk) s) ;;
    buffer <- stash_slice ;;
    stashByteStart <- gets _stashByteStart ;;
    consumed <- _dispatchChunks buffer stashByteStart ;;
    used <- gets _stashUsed ;;
    when ((consumed <? used) && (consumed >? 0))
      (remainArray <- Uint8Array_of_stash consumed ;;
       stashArray_set stashArray remainArray 0) ;;
    modify (fun s => set_stashUsed (_stashUsed s - consumed) s) ;;
    modify (fun s => set_stashByteStart (_stashByteStart s + consumed) s).

(** The branch for an enabled stash. *)
Definition arrival_with_stash (chunk : list Byte.byte) (byteStart : Z)
  : M unit :=
  used <- gets _stashUsed ;;
  stashByteStart <- gets _stashByteStart ;;
  when ((used =? 0) && (stashByteStart =? 0))
       (modify (set_stashByteStart byteStart)) ;;
  stashSize <- gets _stashSize ;;
  if used + byteLength chunk <=? stashSize then
    stashArray <- stashArray_new stashSize ;;
    source <- Uint8Array_of_chunk chunk 0 ;;
    stashArray_set stashArray source used ;;
    modify (fun s => set_stashUsed (_stashUsed s + byteLength chunk) s)
  else
    bufferSize <- gets _bufferSize ;;
    stashArray <- stashArray_new bufferSize ;;
    if used >? 0 then
      buffer <- stash_slice ;;
      stashByteStart <- gets _stashByteStart ;;
      consumed <- _dispatchChunks buffer stashByteStart ;;
      (if consumed <? byteLength buffer then
         when (consumed >? 0)
           (remainArray <-
              in_range (Uint8Array_new (ArrayBuffer_of_list buffer)
                                       consumed None) ;;
            stashArray_set stashArray remainArray 0 ;;
            modify (set_stashUsed (u8_length remainArray)) ;;
            modify (fun s =>
                      set_stashByteStart (_stashByteStart s + consumed) s))
       else
         modify (set_stashUsed 0) ;;
         modify (fun s =>
                   set_stashByteStart (_stashByteStart s + consumed) s)) ;;
      used <- gets _stashUsed ;;
      bufferSize <- gets _bufferSize ;;
      stashArray <-
        (if used + byteLength chunk >? bufferSize then
           _expandBuffer (used + byteLength chunk) ;;
           bufferSize <- gets _bufferSize ;;
           stashArray_new bufferSize
         else ret stashArray) ;;
      source <- Uint8Array_of_chunk chunk 0 ;;
      stashArray_set stashArray source used ;;
      modify (fun s => set_stashUsed (_stashUsed s + byteLength chunk) s)
    else
      consumed <- _dispatchChunks chunk byteStart ;;
      when (consumed <? byteLength chunk)
        (let remain := byteLength chunk - consumed in
         bufferSize <- gets _bufferSize ;;
         stashArray <-
           (if remain >? bufferSize then
              _expandBuffer remain ;;
              bufferSize <- gets _bufferSize ;;
              stashArray_new bufferSize
            else ret stashArray) ;;
         source <- Uint8Array_of_chunk chunk consumed ;;
         stashArray_set stashArray source 0 ;;
         modify (fun s => set_stashUsed (_stashUsed s + remain) s) ;;
         modify (set_stashByteStart (byteStart + consumed))).

(** The bytes the stash holds. *)
Definition stash_bytes (s : t) : list Byte.byte :=
  ArrayBuffer_slice (_stashBuffer s) 0 (_stashUsed s).

(** A well-formed stash: a positive stash size, and no more bytes used
    than the buffer, whose recorded size is its real length, holds. *)
Definition stash_ok (s : t) : Prop :=
  0 < _stashSize s /\
  0 <= _stashUsed s <= _bufferSize s /\
  _bufferSize s = ab_byteLength (_stashBuffer s).

(** [s'] is [s] with a buffer that is at least as long and starts with
    the same stashed bytes. *)
Definition buffer_grown (s s' : t) : Prop :=
  exists buffer,
    s' = set_bufferSize (ab_byteLength buffer) (set_stashBuffer buffer s) /\
    _bufferSize s <= ab_byteLength buffer /\
    forall i, 0 <= i < _stashUsed s ->
              ab_cell buffer i = ab_cell (_stashBuffer s) i.

(** What the first part of a chunk arrival leaves of a controller with
    a well-formed stash: the early-EOF recovery is announced, the
    sampler and the stash size may change and the buffer may grow, the
    stash size staying within the buffer if it was and, if it changes,
    becoming 64 KiB at least, and nothing else changes. *)
Definition arrival_prefix_post (s s' : t) : Prop :=
  _onDataArrival s' = _onDataArrival s /\
  _enableStash s' = _enableStash s /\
  _paused s' = _paused s /\
  _currentRange s' = _currentRange s /\
  _stashUsed s' = _stashUsed s /\
  _stashByteStart s' = _stashByteStart s /\
  _loader s' = _loader s /\
  _isEarlyEofReconnecting s' = false /\
  trace s'
  = trace s ++ (if _isEarlyEofReconnecting s && _onRecoveredEarlyEof s
                then [ev_onRecoveredEarlyEof] else []) /\
  stash_ok s' /\
  _bufferSize s <= _bufferSize s' /\
  stash_bytes s' = stash_bytes s /\
  (_stashSize s <= _bufferSize s -> _stashSize s' <= _bufferSize s') /\
  (_stashSize s' = _stashSize s \/ 64 * 1024 <= _stashSize s').

(** A consumer that never claims more bytes than it was shown, nor
    fewer than none. *)
Definition consumer_in_bounds (consumer : Consumer) : Prop :=
  forall history chunks byteStart,
    0 <= consumer history chunks byteStart <= byteLength chunks.

End ChunkArrivalParts.

(** *** Chunks arriving one after the other *)

Section ChunkSequences.

Import IOController.

(** The arrivals a loader produces for a body received in pieces: each
    [(now, chunk)] is delivered at the byte offset where the previous
    one ended. *)
Fixpoint contiguous_arrivals (byteStart receivedLength : Z)
    (chunks : list (Z * list Byte.byte)) : list (M unit) :=
  match chunks with
  | [] => []
  | (now, chunk) :: rest =>
    _onLoaderChunkArrival now chunk byteStart
                          (receivedLength + byteLength chunk)
    :: contiguous_arrivals (byteStart + byteLength chunk)
                           (receivedLength + byteLength chunk) rest
  end.

(** The bytes the consumer took, oldest first: of every dispatch its
    first [consumed] bytes. *)
Fixpoint consumed_bytes (tr : list Event) : list Byte.byte :=
  match tr with
  | [] => []
  | ev_onDataArrival chunks _ consumed :: tr =>
    firstn (Z.to_nat consumed) chunks ++ consumed_bytes tr
  | _ :: tr => consumed_bytes tr
  end.

(** Dispatches [(byte_start, length, consumed)] that follow one another
    from [start]: each begins where the previous one began plus what
    the consumer took of it, and shows no fewer bytes than are taken. *)
Fixpoint accounted_from (start : Z) (ds : list (Z * Z * Z)) : Prop :=
  match ds with
  | [] => True
  | (byteStart, length, consumed) :: rest =>
    byteStart = start /\ 0 <= consumed <= length /\
    accounted_from (start + consumed) rest
  end.

(** A consumer that takes at most [n] bytes of what it is shown. *)
Definition consumer_taking (n : Z) : Consumer :=
  fun _ chunks _ => Z.max 0 (Z.min n (byteLength chunks)).

(** A controller constructed with [enableStashBuffer: false], bound to
    a consumer that takes at most two bytes at a time, after [open()]. *)
Definition controller_without_stash : t :=
  let s0 := set_onDataArrival (Some (consumer_taking 2))
              (new on_demand_source (mkConfig None (Some false) false)
                   class_FetchStreamLoader) in
  final_state (open host_ok None s0) s0.

End ChunkSequences.

Section StashedArrivals.

Import IOController.

(** A controller constructed with the default configuration (the stash
    enabled), bound to a consumer that takes at most two bytes at a
    time, after [open()]. *)
Definition controller_with_stash : t :=
  let s0 := set_onDataArrival (Some (consumer_taking 2))
              (new on_demand_source (mkConfig None None false)
                   class_FetchStreamLoader) in
  final_state (open host_ok None s0) s0.

End StashedArrivals.

Section LargeStash.

Import IOController.

(** A controller constructed with [stashInitialSize] of 4 MiB, more
    than the 3 MiB the constructor allocates for the buffer, bound to a
    consumer and after [open()]. *)
Definition controller_with_large_stash : t :=
  let s0 := set_onDataArrival (Some consumer_accepting_all)
              (new on_demand_source
                   (mkConfig (Some (1024 * 1024 * 4)) None false)
                   class_FetchStreamLoader) in
  final_state (open host_ok None s0) s0.

End LargeStash.

(** *** Pausing *)

Section Pausing.

Import IOController.




End Pausing.

Section StashOffsets.

Import IOController.


End StashOffsets.
(* ================================================================== *)
(** * Part II: properties                                              *)
(* ================================================================== *)

(** ** Comparisons *)

Lemma Qltb_true (x y : Q) : Qltb x y = true <-> (x < y)%Q.
Proof.
  unfold Qltb. rewrite negb_true_iff.
  split; intro H.
  - apply Qnot_le_lt. intro Hle. apply Qle_bool_iff in Hle. congruence.
  - destruct (Qle_bool y x) eqn:E; [|reflexivity].
    apply Qle_bool_iff in E. exfalso. apply (Qlt_not_le _ _ H E).
Qed.

Lemma Qltb_false (x y : Q) : Qltb x y = false <-> (y <= x)%Q.
Proof.
  unfold Qltb. rewrite negb_false_iff. apply Qle_bool_iff.
Qed.

Lemma Qle_bool_false (x y : Q) : Qle_bool x y = false <-> (y < x)%Q.
Proof.
  rewrite <- Qltb_true. unfold Qltb.
  destruct (Qle_bool x y); simpl; intuition congruence.
Qed.

(** ** The ladder search *)

Lemma js_index_Some {A} (l : list A) (i : Z) (a : A) :
  js_index l i = Some a ->
  0 <= i < Z.of_nat (List.length l) /\ nth_error l (Z.to_nat i) = Some a.
Proof.
  unfold js_index. destruct (i <? 0) eqn:E; [discriminate|].
  apply Z.ltb_ge in E. intro H. split; [|exact H].
  assert (Hn : nth_error l (Z.to_nat i) <> None) by congruence.
  apply nth_error_Some in Hn. lia.
Qed.

Lemma js_index_in_range {A} (l : list A) (i : Z) :
  0 <= i < Z.of_nat (List.length l) -> exists a, js_index l i = Some a.
Proof.
  intros Hi. unfold js_index.
  destruct (i <? 0) eqn:E; [apply Z.ltb_lt in E; lia|].
  destruct (nth_error l (Z.to_nat i)) eqn:N; [eauto|].
  apply nth_error_None in N. lia.
Qed.

Lemma js_index_In {A} (l : list A) (i : Z) (a : A) :
  js_index l i = Some a -> In a l.
Proof.
  intro H. apply js_index_Some in H. eapply nth_error_In. apply H.
Qed.

Lemma In_js_index {A} (l : list A) (a : A) :
  In a l -> exists i, js_index l i = Some a.
Proof.
  intro H. apply In_nth_error in H. destruct H as [n Hn].
  exists (Z.of_nat n). unfold js_index.
  destruct (Z.of_nat n <? 0) eqn:E; [apply Z.ltb_lt in E; lia|].
  now rewrite Nat2Z.id.
Qed.

Lemma sorted_nth_lt (l : list Z) :
  StronglySorted Z.lt l ->
  forall i j a b, (i < j)%nat ->
    nth_error l i = Some a -> nth_error l j = Some b -> a < b.
Proof.
  induction 1 as [|x l Hs IH Hx]; intros i j a' b' Hij Ha Hb.
  - destruct i; discriminate.
  - destruct j as [|j]; [lia|]. simpl in Hb.
    destruct i as [|i]; simpl in Ha.
    + injection Ha as <-. rewrite Forall_forall in Hx.
      apply Hx. eapply nth_error_In; eauto.
    + apply (IH i j a' b'); auto. lia.
Qed.

Lemma sorted_index_lt (l : list Z) (i j a b : Z) :
  StronglySorted Z.lt l -> i < j ->
  js_index l i = Some a -> js_index l j = Some b -> a < b.
Proof.
  intros Hs Hij Ha Hb.
  apply js_index_Some in Ha. apply js_index_Some in Hb.
  destruct Ha as [Hi Ha], Hb as [Hj Hb].
  apply (sorted_nth_lt l Hs (Z.to_nat i) (Z.to_nat j)); auto. lia.
Qed.

Lemma normalize_loop_sorted (list : list Z) (input : Q) :
  StronglySorted Z.lt list ->
  forall fuel lbound ubound a,
    0 <= lbound <= ubound ->
    ubound <= Z.of_nat (List.length list) - 1 ->
    (Z.to_nat (ubound - lbound) < fuel)%nat ->
    js_index list lbound = Some a -> (inject_Z a <= input)%Q ->
    (forall b, js_index list (ubound + 1) = Some b -> (input < inject_Z b)%Q) ->
    exists v,
      normalize_loop fuel list (Z.of_nat (List.length list) - 1) input
                     lbound ubound = Some v /\ step_of list input v.
Proof.
  intros Hs. set (last := Z.of_nat (List.length list) - 1).
  induction fuel as [|fuel IH]; intros lbound ubound a Hb Hu Hf Ha Hle Hub;
    [lia|].
  simpl. destruct (lbound <=? ubound) eqn:E; [|apply Z.leb_gt in E; lia].
  set (mid := lbound + (ubound - lbound) / 2).
  assert (Hmid : lbound <= mid <= ubound).
  { unfold mid.
    pose proof (Z.div_pos (ubound - lbound) 2).
    pose proof (Z.div_le_upper_bound (ubound - lbound) 2 (ubound - lbound)).
    lia. }
  destruct (js_index_in_range list mid) as [m Hm]; [unfold last in *; lia|].
  rewrite Hm. simpl.
  destruct (mid =? last) eqn:Elast.
  - (* mid is the last index: then lbound = ubound = last *)
    apply Z.eqb_eq in Elast. simpl. exists m. split; [reflexivity|].
    assert (mid = lbound).
    { unfold mid in *.
      assert (ubound - lbound < 2 * ((ubound - lbound) / 2) + 2).
      { pose proof (Z.mod_pos_bound (ubound - lbound) 2).
        pose proof (Z.div_mod (ubound - lbound) 2). lia. }
      pose proof (Z.mul_div_le (ubound - lbound) 2).
      unfold last in *. lia. }
    exists mid. split; [exact Hm|]. split.
    + replace m with a; [exact Hle|]. congruence.
    + intros b Hb'. apply js_index_Some in Hb'. unfold last in *. lia.
  - apply Z.eqb_neq in Elast. simpl.
    destruct (js_index_in_range list (mid + 1)) as [m1 Hm1];
      [unfold last in *; lia|].
    rewrite Hm1. simpl.
    destruct (Qle_bool (inject_Z m) input) eqn:E1; simpl.
    + apply Qle_bool_iff in E1.
      destruct (Qltb input (inject_Z m1)) eqn:E2.
      * apply Qltb_true in E2. exists m. split; [reflexivity|].
        exists mid. split; [exact Hm|]. split; [exact E1|].
        intros b Hb'. replace b with m1 by congruence. exact E2.
      * apply Qltb_false in E2.
        destruct (Qltb (inject_Z m) input) eqn:E3.
        -- (* move right *)
           assert (mid < ubound).
           { destruct (Z.eq_dec mid ubound) as [->|]; [|lia].
             specialize (Hub m1 Hm1). exfalso.
             apply (Qlt_not_le _ _ Hub E2). }
           apply (IH (mid + 1) ubound m1); auto; lia.
        -- (* list[mid] = input < list[mid+1] contradicts E2 *)
           apply Qltb_false in E3. exfalso.
           assert (m < m1)
             by (apply (sorted_index_lt list mid (mid + 1) m m1 Hs); auto; lia).
           assert (inject_Z m < inject_Z m1)%Q by (rewrite <- Zlt_Qlt; lia).
           lra.
    + apply Qle_bool_false in E1.
      destruct (Qltb (inject_Z m) input) eqn:E3.
      * apply Qltb_true in E3. lra.
      * (* move left *)
        assert (lbound < mid).
        { destruct (Z.eq_dec mid lbound) as [Heq|]; [|lia].
          exfalso. rewrite Heq in Hm. replace m with a in E1 by congruence.
          lra. }
        apply (IH lbound (mid - 1) a); auto; try lia.
        replace (mid - 1 + 1) with mid by lia.
        intros b Hb'. replace b with m by congruence. exact E1.
Qed.

Lemma step_of_greatest (list : list Z) (input : Q) (v : Z) :
  StronglySorted Z.lt list -> step_of list input v ->
  forall w, In w list -> (inject_Z w <= input)%Q -> w <= v.
Proof.
  intros Hs (k & Hk & Hv & Hnext) w Hw Hle.
  destruct (In_js_index _ _ Hw) as [j Hj].
  destruct (Z_lt_le_dec k j) as [Hlt|Hge].
  - exfalso.
    pose proof (js_index_Some _ _ _ Hk) as [Hk0 _].
    pose proof (js_index_Some _ _ _ Hj) as [Hj0 _].
    destruct (js_index_in_range list (k + 1)) as [b Hb]; [lia|].
    specialize (Hnext b Hb).
    assert (b <= w).
    { destruct (Z.eq_dec (k + 1) j) as [<-|Hne];
        [assert (b = w) by congruence; lia|].
      assert (b < w) by (apply (sorted_index_lt list (k + 1) j b w Hs); auto; lia).
      lia. }
    assert (inject_Z b <= inject_Z w)%Q by (rewrite <- Zle_Qle; lia).
    lra.
  - destruct (Z.eq_dec j k) as [->|Hne]; [assert (w = v) by congruence; lia|].
    assert (w < v) by (apply (sorted_index_lt list j k w v Hs); auto; lia). lia.
Qed.

(** On a strictly increasing, non-empty list the search always returns
    an entry: the first one for an input below it, otherwise the step
    the input falls on. *)
Lemma normalizeSpeed_sorted (list : list Z) (input : Q) (x0 : Z) :
  StronglySorted Z.lt list -> js_index list 0 = Some x0 ->
  exists v, normalizeSpeed list input = Some v /\ In v list /\
            ((input < inject_Z x0)%Q -> v = x0) /\
            ((inject_Z x0 <= input)%Q -> step_of list input v).
Proof.
  intros Hs H0. unfold normalizeSpeed. rewrite H0. simpl.
  destruct (Qltb input (inject_Z x0)) eqn:E.
  - apply Qltb_true in E. exists x0. repeat split; auto.
    + eapply js_index_In; eauto.
    + intro. lra.
  - apply Qltb_false in E.
    pose proof (js_index_Some _ _ _ H0) as [Hlen _].
    destruct (normalize_loop_sorted list input Hs (S (List.length list)) 0
                (Z.of_nat (List.length list) - 1) x0) as (v & Hv & Hstep);
      auto; try lia.
    { intros b Hb. apply js_index_Some in Hb. lia. }
    exists v. repeat split; auto.
    + destruct Hstep as (k & Hk & _). eapply js_index_In; eauto.
    + intro. lra.
Qed.

Lemma speedNormalizeList_sorted :
  StronglySorted Z.lt IOController._speedNormalizeList.
Proof.
  unfold IOController._speedNormalizeList.
  repeat (constructor; [|repeat (constructor; [lia|]); constructor]).
  constructor.
Qed.

Lemma chunkSizeKBList_sorted : StronglySorted Z.lt RangeLoader._chunkSizeKBList.
Proof.
  unfold RangeLoader._chunkSizeKBList.
  repeat (constructor; [|repeat (constructor; [lia|]); constructor]).
  constructor.
Qed.

(** [IOController._normalizeSpeed] never returns [undefined]. *)
Lemma normalizeSpeed_total (input : Q) :
  exists v, IOController._normalizeSpeed input = Some v /\
            In v IOController._speedNormalizeList.
Proof.
  destruct (normalizeSpeed_sorted _ input 64 speedNormalizeList_sorted eq_refl)
    as (v & Hv & Hin & _).
  exists v. split; assumption.
Qed.

(** [RangeLoader._normalizeSpeed] never returns [undefined]. *)
Lemma RangeLoader_normalizeSpeed_total (input : Q) :
  exists v, RangeLoader._normalizeSpeed input = Some v /\
            In v RangeLoader._chunkSizeKBList.
Proof.
  destruct (normalizeSpeed_sorted _ input 128 chunkSizeKBList_sorted eq_refl)
    as (v & Hv & Hin & _).
  exists v. split; assumption.
Qed.

Lemma normalizeSpeed_ladder_floor (list : list Z) (input : Q) (x0 : Z) :
  StronglySorted Z.lt list -> js_index list 0 = Some x0 ->
  exists v, normalizeSpeed list input = Some v /\
            ladder_floor list x0 input v.
Proof.
  intros Hs H0.
  destruct (normalizeSpeed_sorted _ input x0 Hs H0)
    as (v & Hv & Hin & Hlow & Hstep).
  exists v. split; [exact Hv|]. split; [exact Hin|]. split; [exact Hlow|].
  intro Hge. specialize (Hstep Hge). split.
  - destruct Hstep as (k & _ & Hle & _). exact Hle.
  - apply (step_of_greatest _ _ _ Hs Hstep).
Qed.

(** C3. For every input [kbps > 0], [_normalizeSpeed] returns the largest
    entry of the ladder [64, 128, ..., 4096] that is not above [kbps],
    and 64 for an input below 64; the inputs 63, 64, 65, 383, 384, 385
    and 5000 give 64, 64, 64, 256, 384, 384 and 4096. *)
Theorem C3_normalizeSpeed_ladder (kbps : Q) :
  (0 < kbps)%Q ->
  (exists v,
      IOController._normalizeSpeed kbps = Some v /\
      ladder_floor
        [64; 128; 256; 384; 512; 768; 1024; 1536; 2048; 3072; 4096] 64
        kbps v) /\
  map IOController._normalizeSpeed
      [63#1; 64#1; 65#1; 383#1; 384#1; 385#1; 5000#1]%Q
  = map Some [64; 64; 64; 256; 384; 384; 4096].
Proof.
  intros _. split; [|reflexivity].
  apply (normalizeSpeed_ladder_floor _ kbps 64 speedNormalizeList_sorted
                                     eq_refl).
Qed.

Lemma C3_normalizeSpeed_ladder_witness :
  (0 < 700#1)%Q /\
  exists v,
    IOController._normalizeSpeed (700#1) = Some v /\
    ladder_floor
      [64; 128; 256; 384; 512; 768; 1024; 1536; 2048; 3072; 4096] 64
      (700#1) v.
Proof.
  split; [reflexivity|].
  exact (proj1 (C3_normalizeSpeed_ladder (700#1) eq_refl)).
Defined.

(** ** SpeedSampler *)

Lemma duration_zero (d : Z) :
  Qeq_bool (inject_Z d / 1000) 0 = (d =? 0).
Proof.
  destruct (d =? 0) eqn:E.
  - apply Z.eqb_eq in E. subst d. reflexivity.
  - apply Z.eqb_neq in E. apply not_true_is_false. intro H.
    apply Qeq_bool_iff in H. apply E.
    unfold Qeq, Qdiv, Qmult, Qinv in H. simpl in H. lia.
Qed.

Lemma inject_Z_nonzero (d : Z) : d <> 0 -> ~ (inject_Z d == 0)%Q.
Proof. intros Hd H. unfold Qeq in H. simpl in H. lia. Qed.

(** Rotating the window twice at the same instant is rotating it once. *)
Lemma addBytes_0_idempotent (now : Z) (s : SpeedSampler.t) :
  SpeedSampler.addBytes now 0 (SpeedSampler.addBytes now 0 s)
  = SpeedSampler.addBytes now 0 s.
Proof.
  unfold SpeedSampler.addBytes.
  destruct (SpeedSampler._firstCheckpoint s =? 0) eqn:E1; simpl.
  - destruct (now =? 0) eqn:E2; simpl.
    + now rewrite !Z.add_0_r.
    + replace (now - now <? 1000) with true
        by (symmetry; apply Z.ltb_lt; lia).
      now rewrite !Z.add_0_r.
  - destruct (now - SpeedSampler._lastCheckpoint s <? 1000) eqn:E2; simpl;
      rewrite E1.
    + rewrite E2. now rewrite !Z.add_0_r.
    + replace (now - now <? 1000) with true
        by (symmetry; apply Z.ltb_lt; lia).
      now rewrite !Z.add_0_r.
Qed.

(** Byte counters stay non-negative when non-negative counts are added. *)
Lemma addBytes_nonneg (now bytes : Z) (s : SpeedSampler.t) :
  0 <= bytes ->
  0 <= SpeedSampler._intervalBytes s ->
  0 <= SpeedSampler._lastSecondBytes s ->
  0 <= SpeedSampler._intervalBytes (SpeedSampler.addBytes now bytes s) /\
  0 <= SpeedSampler._lastSecondBytes (SpeedSampler.addBytes now bytes s).
Proof.
  intros Hb Hi Hl. unfold SpeedSampler.addBytes.
  destruct (SpeedSampler._firstCheckpoint s =? 0);
    [|destruct (now - SpeedSampler._lastCheckpoint s <? 1000)];
    simpl; lia.
Qed.

Lemma currentKBps_value (now : Z) (s : SpeedSampler.t) :
  let r := SpeedSampler.addBytes now 0 s in
  let d := now - SpeedSampler._lastCheckpoint r in
  snd (SpeedSampler.currentKBps now s) = r /\
  (d <> 0 ->
   (fst (SpeedSampler.currentKBps now s)
    == inject_Z (SpeedSampler._intervalBytes r) / inject_Z d * 1000 / 1024)%Q)
  /\
  (d = 0 ->
   (fst (SpeedSampler.currentKBps now s)
    == inject_Z (SpeedSampler._intervalBytes r) / 1024)%Q).
Proof.
  intros r d. unfold SpeedSampler.currentKBps. fold r. fold d. simpl.
  rewrite duration_zero. split; [reflexivity|]. split; intro Hd.
  - apply Z.eqb_neq in Hd. rewrite Hd. apply Z.eqb_neq in Hd.
    pose proof (inject_Z_nonzero d Hd). field. auto.
  - subst d. rewrite Hd. simpl. field.
Qed.

(** C7 (as amended). Each getter first rotates the window with
    [addBytes(0)].  After the rotation, [currentKBps] is
    [interval_bytes / (now - last_checkpoint) * 1000 / 1024] when
    [now] differs from [last_checkpoint] (the spec's formula whenever at
    least 1 ms has passed) and [interval_bytes / 1024] when they are
    equal: a zero duration is replaced by one second, not by 1 ms.
    [lastSecondKBps] is [last_second_bytes / 1024] when
    [last_second_bytes > 0], else [currentKBps] when
    [now - last_checkpoint >= 500], else 0. *)
Theorem C7_sampler_observables (now : Z) (s : SpeedSampler.t) :
  0 <= SpeedSampler._intervalBytes s ->
  0 <= SpeedSampler._lastSecondBytes s ->
  let r := SpeedSampler.addBytes now 0 s in
  let d := now - SpeedSampler._lastCheckpoint r in
  let current := fst (SpeedSampler.currentKBps now s) in
  let last_second := fst (SpeedSampler.lastSecondKBps now s) in
  snd (SpeedSampler.currentKBps now s) = r /\
  snd (SpeedSampler.lastSecondKBps now s) = r /\
  (d <> 0 ->
   (current
    == inject_Z (SpeedSampler._intervalBytes r) / inject_Z d * 1000 / 1024)%Q)
  /\
  (1 <= d ->
   (current
    == spec_current_kbps (SpeedSampler._intervalBytes r) now
                         (SpeedSampler._lastCheckpoint r))%Q) /\
  (d = 0 -> (current == inject_Z (SpeedSampler._intervalBytes r) / 1024)%Q) /\
  (0 < SpeedSampler._lastSecondBytes r ->
   (last_second == inject_Z (SpeedSampler._lastSecondBytes r) / 1024)%Q) /\
  (SpeedSampler._lastSecondBytes r <= 0 -> 500 <= d ->
   (last_second == current)%Q) /\
  (SpeedSampler._lastSecondBytes r <= 0 -> d < 500 -> (last_second == 0)%Q).
Proof.
  intros Hi Hl r d current last_second.
  destruct (currentKBps_value now s) as (Hs & Hne & Hz).
  fold r in Hs, Hne, Hz. fold d in Hne, Hz. fold current in Hne, Hz.
  destruct (addBytes_nonneg now 0 s (Z.le_refl 0) Hi Hl) as [_ Hl'].
  fold r in Hl'.
  assert (Hcur : SpeedSampler.currentKBps now r = SpeedSampler.currentKBps now s).
  { unfold SpeedSampler.currentKBps, r.
    now rewrite addBytes_0_idempotent. }
  split; [exact Hs|].
  split.
  { unfold SpeedSampler.lastSecondKBps. fold r.
    destruct (negb (SpeedSampler._lastSecondBytes r =? 0)); [reflexivity|].
    destruct (now - SpeedSampler._lastCheckpoint r >=? 500);
      [|reflexivity].
    rewrite Hcur. exact Hs. }
  split; [exact Hne|].
  split.
  { intro Hd. unfold spec_current_kbps. fold d.
    rewrite Z.max_r by lia. apply Hne. lia. }
  split; [exact Hz|].
  unfold last_second, SpeedSampler.lastSecondKBps. fold r. fold d.
  split; [|split].
  - intro Hpos.
    replace (SpeedSampler._lastSecondBytes r =? 0) with false
      by (symmetry; apply Z.eqb_neq; lia).
    cbv beta iota delta [negb fst]. reflexivity.
  - intros Hzero Hd.
    replace (SpeedSampler._lastSecondBytes r =? 0) with true
      by (symmetry; apply Z.eqb_eq; lia).
    replace (d >=? 500) with true by (symmetry; apply Z.geb_le; lia).
    cbv beta iota delta [negb]. rewrite Hcur. reflexivity.
  - intros Hzero Hd.
    replace (SpeedSampler._lastSecondBytes r =? 0) with true
      by (symmetry; apply Z.eqb_eq; lia).
    replace (d >=? 500) with false.
    + cbv beta iota delta [negb fst]. reflexivity.
    + symmetry. rewrite Z.geb_leb. apply Z.leb_gt. lia.
Qed.

Lemma C7_sampler_observables_witness :
  let s := SpeedSampler.addBytes 1700 4096 (SpeedSampler.addBytes 1000 2048 SpeedSampler.new) in
  0 <= SpeedSampler._intervalBytes s /\
  0 <= SpeedSampler._lastSecondBytes s /\
  (fst (SpeedSampler.currentKBps 1900 s)
   == spec_current_kbps (SpeedSampler._intervalBytes (SpeedSampler.addBytes 1900 0 s))
                        1900
                        (SpeedSampler._lastCheckpoint (SpeedSampler.addBytes 1900 0 s)))%Q.
Proof.
  intro s.
  assert (Hi : 0 <= SpeedSampler._intervalBytes s) by (vm_compute; discriminate).
  assert (Hl : 0 <= SpeedSampler._lastSecondBytes s) by (vm_compute; discriminate).
  split; [exact Hi|]. split; [exact Hl|].
  refine (proj1 (proj2 (proj2 (proj2 (C7_sampler_observables 1900 s Hi Hl)))) _).
  vm_compute. discriminate.
Defined.

(** C7 as stated fails when the query comes in the same millisecond as
    the checkpoint: 2048 bytes in the interval give 2 KiB/s, not the
    2000 KiB/s of [interval_bytes / max(1 ms, 0) * 1000 / 1024]. *)
Lemma C7_counterexample :
  let s := SpeedSampler.addBytes 7 2048 SpeedSampler.new in
  let r := SpeedSampler.addBytes 7 0 s in
  (fst (SpeedSampler.currentKBps 7 s) == 2)%Q /\
  (spec_current_kbps (SpeedSampler._intervalBytes r) 7
                     (SpeedSampler._lastCheckpoint r) == 2000)%Q /\
  ~ (fst (SpeedSampler.currentKBps 7 s)
     == spec_current_kbps (SpeedSampler._intervalBytes r) 7
                          (SpeedSampler._lastCheckpoint r))%Q.
Proof.
  intros s r. split; [reflexivity|]. split; [reflexivity|].
  intro H. vm_compute in H. discriminate.
Qed.

(** ** Loaders *)

Ltac break_if :=
  match goal with
  | |- context [if ?c then _ else _] => destruct c eqn:?
  | |- context [match ?c with Some _ => _ | None => _ end] => destruct c eqn:?
  | |- context [let '(_, _) := ?c in _] => destruct c eqn:?
  end.

Lemma openSubRange_chunkSize (l : RangeLoader.t) :
  RangeLoader._currentChunkSizeKB (RangeLoader._openSubRange l)
  = RangeLoader._currentChunkSizeKB l.
Proof. reflexivity. Qed.

Lemma onLoad_chunkSize (now : Z) (chunk : list Byte.byte) (l : RangeLoader.t) :
  let l' := fst (RangeLoader._onLoad now chunk l) in
  RangeLoader._currentChunkSizeKB l' = RangeLoader._currentChunkSizeKB l \/
  exists q, RangeLoader._normalizeSpeed q
            = Some (RangeLoader._currentChunkSizeKB l').
Proof.
  unfold RangeLoader._onLoad.
  destruct (RangeLoader._status l); try (left; reflexivity);
  (destruct (RangeLoader._waitForTotalLength l); [left; reflexivity|]);
  destruct (SpeedSampler.lastSecondKBps now _) as [KBps sampler];
  (destruct (Qeq_bool KBps 0) eqn:EK;
   [ cbn [RangeLoader._zeroSpeedChunkCount RangeLoader.set_zeroSpeedChunkCount
          RangeLoader.set_speedSampler RangeLoader.set_lastTimeLoaded];
     destruct (_ >=? 3);
     [ destruct (SpeedSampler.currentKBps now _) as [KBps' sampler'] | ]
   | ]);
  repeat break_if; cbn; auto; right; eexists; eassumption.
Qed.

Lemma step_chunkSize (l l' : RangeLoader.t) :
  RangeLoader_step l l' ->
  RangeLoader._currentChunkSizeKB l' = RangeLoader._currentChunkSizeKB l \/
  exists q, RangeLoader._normalizeSpeed q
            = Some (RangeLoader._currentChunkSizeKB l').
Proof.
  destruct 1.
  - left. unfold RangeLoader.open. repeat break_if; reflexivity.
  - left. unfold RangeLoader.abort, RangeLoader._internalAbort.
    repeat break_if; reflexivity.
  - left. unfold RangeLoader.destroy, RangeLoader.abort,
      RangeLoader._internalAbort.
    repeat break_if; reflexivity.
  - left. unfold RangeLoader._onReadyStateChange.
    repeat break_if; reflexivity.
  - left. unfold RangeLoader._onProgress, RangeLoader._internalAbort.
    destruct (RangeLoader._status l); try reflexivity;
      destruct (RangeLoader._contentLength l); try reflexivity;
      destruct (RangeLoader._waitForTotalLength l);
      cbn; repeat break_if; reflexivity.
  - apply onLoad_chunkSize.
  - left. unfold RangeLoader._onXhrError. repeat break_if; reflexivity.
Qed.

(** The chunk size of a RangeLoader is always an entry of its ladder. *)
Lemma reachable_chunkSize (l : RangeLoader.t) :
  RangeLoader_reachable l ->
  In (RangeLoader._currentChunkSizeKB l) RangeLoader._chunkSizeKBList.
Proof.
  induction 1 as [|l l' Hr IH Hstep].
  - cbn. tauto.
  - destruct (step_chunkSize _ _ Hstep) as [->|[q Hq]]; [exact IH|].
    destruct (RangeLoader_normalizeSpeed_total q) as (v & Hv & Hin).
    congruence.
Qed.

Lemma chunkSizeKBList_bounds (v : Z) :
  In v RangeLoader._chunkSizeKBList -> 128 <= v <= 8192.
Proof.
  unfold RangeLoader._chunkSizeKBList. cbn.
  intuition lia.
Qed.

(** C9 (as amended). A new RangeLoader starts with
    [_currentChunkSizeKB = 384], and the chunk size is always an entry of
    the ladder [128, ..., 8192].  [_openSubRange] issues one request; it
    starts at [range.from + received_length] and ends exactly
    [current_chunk_size_kb] KiB after its start, unless the content
    length is known and that end lies at or past
    [range.from + content_length]: then it ends at
    [range.from + content_length - 1].  So a request never ends more
    than [current_chunk_size_kb] KiB after its start and, once the
    content length is known, never past
    [range.from + content_length - 1]. *)
Theorem C9_range_loader_sub_ranges :
  RangeLoader._currentChunkSizeKB RangeLoader.new = 384 /\
  (forall l,
      RangeLoader_reachable l ->
      In (RangeLoader._currentChunkSizeKB l)
         [128; 256; 384; 512; 768; 1024; 1536; 2048; 3072; 4096; 5120; 6144;
          7168; 8192] /\
      128 <= RangeLoader._currentChunkSizeKB l <= 8192) /\
  (forall l,
      let chunkSize := RangeLoader._currentChunkSizeKB l * 1024 in
      let rangeFrom := from (RangeLoader._range l) in
      exists r,
        RangeLoader.requests (RangeLoader._openSubRange l)
        = RangeLoader.requests l ++ [r] /\
        RangeLoader._currentRequestRange (RangeLoader._openSubRange l)
        = Some r /\
        from r = rangeFrom + RangeLoader._receivedLength l /\
        (RangeLoader._contentLength l = None -> to r = from r + chunkSize) /\
        (forall contentLength,
            RangeLoader._contentLength l = Some contentLength ->
            (from r + chunkSize < rangeFrom + contentLength ->
             to r = from r + chunkSize) /\
            (rangeFrom + contentLength <= from r + chunkSize ->
             to r = rangeFrom + contentLength - 1) /\
            to r <= rangeFrom + contentLength - 1) /\
        to r <= from r + chunkSize).
Proof.
  split; [reflexivity|]. split.
  - intros l Hl. pose proof (reachable_chunkSize l Hl) as Hin.
    split; [exact Hin|]. apply chunkSizeKBList_bounds. exact Hin.
  - intro l. cbv zeta.
    unfold RangeLoader._openSubRange, RangeLoader._internalOpen.
    eexists. split; [cbn; reflexivity|]. split; [cbn; reflexivity|].
    destruct (RangeLoader._contentLength l) as [c|] eqn:Ec; cbn.
    + destruct (_ >=? c) eqn:E; cbn; rewrite Z.geb_leb in E;
        [apply Z.leb_le in E|apply Z.leb_gt in E];
        (split; [reflexivity|]); (split; [discriminate|]);
        (split; [|lia]); intros c' [= <-]; lia.
    + split; [reflexivity|]. split; [reflexivity|].
      split; [intros c' [=]|lia].
Qed.

Lemma C9_range_loader_sub_ranges_witness :
  let l := fst (RangeLoader._onProgress 5 (Some 1000) 10
                  (RangeLoader.open
                     (mkDataSource "http://host/video.flv" None)
                     (mkRange 0 (-1)) RangeLoader.new)) in
  RangeLoader_reachable l /\
  128 <= RangeLoader._currentChunkSizeKB l <= 8192 /\
  RangeLoader.requests l = [mkRange 0 (-1); mkRange 0 999] /\
  RangeLoader.requests (RangeLoader._openSubRange l)
  = RangeLoader.requests l ++ [mkRange 0 999].
Proof.
  intros l.
  assert (H : RangeLoader_reachable l).
  { eapply reach_step; [|apply step_onProgress].
    eapply reach_step; [apply reach_new|apply step_open]. }
  split; [exact H|].
  split; [exact (proj2 (proj1 (proj2 C9_range_loader_sub_ranges) l H))|].
  split; [reflexivity|].
  destruct (proj2 (proj2 C9_range_loader_sub_ranges) l)
    as (r & Hreq & _ & Hfrom & _ & Hknown & _).
  destruct (Hknown 1000 eq_refl) as (_ & Hclamp & _).
  rewrite Hreq. f_equal. destruct r as [f t0]. cbn in Hfrom, Hclamp.
  rewrite Hfrom, Hclamp; [reflexivity|].
  rewrite Hfrom. vm_compute. discriminate.
Defined.

(** C9 as stated fails: the chunk size starts at 384, not 128, and the
    first request of a loader opened on a 10 MiB file is [0, 393216]. *)
Lemma C9_counterexample :
  RangeLoader._currentChunkSizeKB RangeLoader.new <> 128 /\
  RangeLoader.requests
    (RangeLoader.open (mkDataSource "http://host/video.flv" (Some 10485760))
                      (mkRange 0 (-1)) RangeLoader.new)
  = [mkRange 0 (384 * 1024)].
Proof. split; [discriminate|reflexivity]. Qed.

(** C8 (as amended). [abort()] leaves the chunked-XHR, ranged and
    WebSocket loaders in [kComplete].  The fetch loader's [abort()] only
    raises [_requestAbort] and keeps the status; the status then becomes
    [kIdle] if the response arrives next, and [kComplete] if a chunk is
    read next. *)
Theorem C8_abort_status :
  (forall l : MozChunkedLoader.t, status (abort l) = kComplete) /\
  (forall l : MozChunkedLoader.t,
      status (fst (MozChunkedLoader._onLoadEnd (abort l))) = kComplete) /\
  (forall l : RangeLoader.t, status (abort l) = kComplete) /\
  (forall l : WebSocketLoader.t, status (abort l) = kComplete) /\
  (forall l : FetchStreamLoader.t,
      status (abort l) = status l /\
      FetchStreamLoader._requestAbort (abort l) = true) /\
  (forall (l : FetchStreamLoader.t) res,
      status (fst (fst (FetchStreamLoader.fetch_then res (abort l)))) = kIdle)
  /\
  (forall (l : FetchStreamLoader.t) chunk,
      status (fst (fst (FetchStreamLoader._pump
                          (FetchStreamLoader.Value chunk) (abort l))))
      = kComplete) /\
  (forall l : Loader,
      match l with
      | FetchStream _ => loader_status (loader_abort l) = loader_status l
      | _ => loader_status (loader_abort l) = kComplete
      end).
Proof.
  repeat split; try reflexivity; intros;
    try match goal with l : Loader |- _ => destruct l end;
    cbn;
    unfold MozChunkedLoader._onLoadEnd, MozChunkedLoader.abort,
      RangeLoader.abort, RangeLoader._internalAbort, WebSocketLoader.abort,
      FetchStreamLoader.abort, FetchStreamLoader.fetch_then,
      FetchStreamLoader._pump;
    cbn; repeat break_if; reflexivity.
Qed.

(** C8 as stated fails for both streaming loaders: aborting a
    chunked-XHR loader leaves it in [kComplete], and aborting a fetch
    loader that is connecting leaves it connecting. *)
Lemma C8_counterexample :
  let dataSource := mkDataSource "http://host/video.flv" None in
  let moz := MozChunkedLoader.open dataSource (mkRange 0 (-1))
                                   MozChunkedLoader.new in
  let fetch := FetchStreamLoader.open dataSource (mkRange 0 (-1))
                                      FetchStreamLoader.new in
  status (abort moz) = kComplete /\ status (abort moz) <> kIdle /\
  status (abort fetch) = kConnecting /\ status (abort fetch) <> kIdle.
Proof. cbn. repeat split; discriminate. Qed.

Import IOController.

(** ** The stash buffer *)

Lemma expand_loop_unfold (fuel : nat) (n e : Z) :
  expand_loop fuel n e
  = if n + 1024 * 1024 * 1 <? e then
      match fuel with
      | O => None
      | S fuel' => expand_loop fuel' (n * 2) e
      end
    else Some n.
Proof. destruct fuel; reflexivity. Qed.

(** What the doubling loop returns: the stash size doubled the least
    number of times that brings it, plus 1 MiB, up to [expectedBytes]. *)
Lemma expand_loop_spec (fuel : nat) :
  forall n e r,
    expand_loop fuel n e = Some r ->
    exists k, 0 <= k /\ r = n * 2 ^ k /\ e <= r + MiB /\
              forall j, 0 <= j < k -> n * 2 ^ j + MiB < e.
Proof.
  unfold MiB.
  induction fuel as [|fuel IH]; intros n e r; rewrite expand_loop_unfold;
    destruct (n + 1024 * 1024 * 1 <? e) eqn:E; try discriminate.
  - intros [= <-]. apply Z.ltb_ge in E. exists 0.
    repeat split; try lia. 
  - intro H. apply IH in H. destruct H as (k & Hk & Hr & He & Hj).
    apply Z.ltb_lt in E. exists (k + 1).
    split; [lia|]. split; [rewrite Z.pow_add_r by lia; lia|].
    split; [exact He|]. intros j Hj'.
    destruct (Z.eq_dec j 0) as [->|Hne]; [simpl; lia|].
    specialize (Hj (j - 1) ltac:(lia)).
    assert (2 ^ j = 2 * 2 ^ (j - 1))
      by (rewrite <- Z.pow_succ_r by lia; f_equal; lia).
    lia.
  - intros [= <-]. apply Z.ltb_ge in E. exists 0.
    repeat split; try lia.
Qed.

Lemma expand_loop_enough (fuel : nat) :
  forall n e,
    0 < n -> e <= n * 2 ^ Z.of_nat fuel + MiB ->
    exists r, expand_loop fuel n e = Some r.
Proof.
  unfold MiB.
  induction fuel as [|fuel IH]; intros n e Hn He; rewrite expand_loop_unfold;
    destruct (n + 1024 * 1024 * 1 <? e) eqn:E; eauto.
  - apply Z.ltb_lt in E. simpl in He. lia.
  - apply IH; [lia|]. rewrite Nat2Z.inj_succ, Z.pow_succ_r in He by lia. lia.
Qed.

(** On a positive stash size the loop of [_expandBuffer] terminates
    within [expand_fuel] doublings. *)
Lemma expand_loop_terminates (n e : Z) :
  0 < n -> exists r, expand_loop (expand_fuel e) n e = Some r.
Proof.
  intro Hn. apply expand_loop_enough; [exact Hn|].
  unfold expand_fuel, MiB.
  rewrite Nat2Z.inj_succ, Z2Nat.id by apply Z.log2_up_nonneg.
  rewrite Z.pow_succ_r by apply Z.log2_up_nonneg.
  destruct (Z_le_gt_dec e 1) as [Hle|Hgt].
  - assert (0 < 2 ^ Z.log2_up e)
      by (apply Z.pow_pos_nonneg; [lia|apply Z.log2_up_nonneg]).
    nia.
  - pose proof (Z.log2_up_spec e ltac:(lia)) as [_ Hup]. nia.
Qed.

Lemma expandBuffer_correct (s : t) (expectedBytes : Z) :
  0 < _stashSize s ->
  0 <= _stashUsed s <= ab_byteLength (_stashBuffer s) ->
  expandBuffer_post s expectedBytes.
Proof.
  intros Hsize Hused. unfold expandBuffer_post.
  destruct (expand_loop_terminates (_stashSize s) expectedBytes Hsize)
    as [r Hr].
  destruct (expand_loop_spec _ _ _ _ Hr) as (k & Hk & -> & He & Hj).
  exists k. split; [exact Hk|]. cbv zeta.
  split; [exact Hj|]. split; [exact He|].
  assert (Hpos : 0 < _stashSize s * 2 ^ k).
  { apply Z.mul_pos_pos; [exact Hsize|]. apply Z.pow_pos_nonneg; lia. }
  assert (Hsame : _stashSize s * 2 ^ k + MiB = _bufferSize s ->
                  _expandBuffer expectedBytes s = Ret tt s).
  { intro Heq. unfold _expandBuffer. rewrite Hr. unfold MiB in Heq.
    apply Z.eqb_eq in Heq. rewrite Heq. reflexivity. }
  assert (Hnew : _stashSize s * 2 ^ k + MiB <> _bufferSize s ->
                 _stashUsed s <= _stashSize s * 2 ^ k + MiB ->
                 exists newBuffer,
                   _expandBuffer expectedBytes s
                   = Ret tt (set_bufferSize (_stashSize s * 2 ^ k + MiB)
                               (set_stashBuffer newBuffer s)) /\
                   ab_byteLength newBuffer = _stashSize s * 2 ^ k + MiB /\
                   (forall i, 0 <= i < _stashUsed s ->
                              ab_cell newBuffer i
                              = ab_cell (_stashBuffer s) i)).
  { intros Hne Hfit. unfold _expandBuffer. rewrite Hr. unfold MiB in *.
    apply Z.eqb_neq in Hne. rewrite Hne.
    replace (_stashSize s * 2 ^ k + 1024 * 1024 * 1 <? 0) with false
      by (symmetry; apply Z.ltb_ge; lia).
    unfold bind, in_range, modify, ret.
    destruct (_stashUsed s >? 0) eqn:Eu.
    - unfold Uint8Array_new.
      replace ((0 <? 0) || (0 >? ab_byteLength (_stashBuffer s))) with false
        by (symmetry; apply orb_false_iff; split;
            [reflexivity|rewrite Z.gtb_ltb; apply Z.ltb_ge; lia]).
      replace ((_stashUsed s <? 0)
               || (0 + _stashUsed s >? ab_byteLength (_stashBuffer s)))
        with false
        by (symmetry; apply orb_false_iff; split;
            [apply Z.ltb_ge; lia|rewrite Z.gtb_ltb; apply Z.ltb_ge; lia]).
      unfold Uint8Array_set. cbn [u8_length u8_get].
      replace ((0 <? 0)
               || (0 + _stashUsed s
                   >? _stashSize s * 2 ^ k + 1024 * 1024 * 1))
        with false
        by (symmetry; apply orb_false_iff; split;
            [reflexivity|rewrite Z.gtb_ltb; apply Z.ltb_ge; lia]).
      eexists. split; [reflexivity|]. split; [reflexivity|].
      intros i Hi. cbn.
      replace ((0 <=? i) && (i <? _stashUsed s)) with true
        by (symmetry; apply andb_true_iff; split;
            [apply Z.leb_le; lia|apply Z.ltb_lt; lia]).
      now rewrite Z.sub_0_r.
    - eexists. split; [reflexivity|]. split; [reflexivity|].
      intros i Hi. rewrite Z.gtb_ltb in Eu. apply Z.ltb_ge in Eu. lia. }
  split; [exact Hsame|]. split; [exact Hnew|].
  intros s' Hs' Hfit.
  destruct (Z.eq_dec (_stashSize s * 2 ^ k + MiB) (_bufferSize s)) as [Heq|Hne].
  - rewrite (Hsame Heq) in Hs'. injection Hs' as <-.
    repeat split; auto.
  - destruct (Hnew Hne Hfit) as (b & Hb & _ & _).
    rewrite Hb in Hs'. injection Hs' as <-. cbn.
    repeat split; auto.
Qed.

(** C5. [_expandBuffer(expectedBytes)] doubles [_stashSize] while the
    size plus 1 MiB is below [expectedBytes] and adds 1 MiB.  If that
    equals [_bufferSize] nothing changes; otherwise the buffer is
    replaced by one of the new size that starts with the same [used]
    bytes, [_bufferSize] becomes the new size, and nothing else changes.
    On return [_bufferSize >= expectedBytes]. *)
Theorem C5_expandBuffer (s : t) (expectedBytes : Z) :
  0 < _stashSize s ->
  0 <= _stashUsed s <= ab_byteLength (_stashBuffer s) ->
  expandBuffer_post s expectedBytes.
Proof. exact (expandBuffer_correct s expectedBytes). Qed.

(** [_adjustStashSize] on a controller whose stash is well formed. *)
Lemma adjustStashSize_correct (s : t) (normalized : Z) :
  0 < _stashSize s ->
  0 <= _stashUsed s <= ab_byteLength (_stashBuffer s) ->
  _stashUsed s <= _bufferSize s ->
  adjustStashSize_post s normalized.
Proof.
  intros Hsize Hused Hfit. unfold adjustStashSize_post. cbv zeta.
  set (kb := stashSizeKB_for (isLive (_config s)) normalized).
  unfold _adjustStashSize, bind, gets, when. fold kb.
  destruct (_bufferSize s <? kb * 1024 + 1024 * 1024 * 1) eqn:E.
  - apply Z.ltb_lt in E.
    destruct (expandBuffer_correct s (kb * 1024 + 1024 * 1024 * 1) Hsize Hused)
      as (k & Hk & Hj & He & Hsame & Hnew & _).
    cbv zeta in *. unfold MiB in *.
    destruct (Hnew ltac:(lia) ltac:(lia)) as (b & Hb & Hlen & Hcell).
    rewrite Hb. unfold modify, ret. eexists. split; [reflexivity|].
    cbn. repeat split; try lia.
    exists k. repeat split; auto.
  - apply Z.ltb_ge in E. unfold ret, modify. eexists.
    split; [reflexivity|]. cbn. unfold MiB. repeat split; try lia.
Qed.

Lemma stashSizeKB_table (live : bool) (normalized : Z) :
  let kb := stashSizeKB_for live normalized in
  (live = true -> kb = Z.min normalized 8192) /\
  (live = false -> normalized < 512 -> kb = normalized) /\
  (live = false -> 512 <= normalized <= 1024 -> kb = (normalized * 3) / 2) /\
  (live = false -> 1024 < normalized -> kb = Z.min (normalized * 2) 8192) /\
  kb <= 8192.
Proof.
  unfold stashSizeKB_for.
  assert (Hclamp : forall x, (if x >? 8192 then 8192 else x) = Z.min x 8192).
  { intro x. destruct (x >? 8192) eqn:E; rewrite Z.gtb_ltb in E;
      [apply Z.ltb_lt in E|apply Z.ltb_ge in E]; lia. }
  rewrite Hclamp. cbv zeta.
  repeat split.
  - intros ->. reflexivity.
  - intros -> H. replace (normalized <? 512) with true
      by (symmetry; apply Z.ltb_lt; lia). lia.
  - intros -> H. replace (normalized <? 512) with false
      by (symmetry; apply Z.ltb_ge; lia).
    replace ((normalized >=? 512) && (normalized <=? 1024)) with true
      by (symmetry; apply andb_true_iff; split;
          [rewrite Z.geb_leb; apply Z.leb_le; lia|apply Z.leb_le; lia]).
    assert (normalized * 3 / 2 <= 1536)
      by (apply Z.div_le_upper_bound; lia).
    lia.
  - intros -> H. replace (normalized <? 512) with false
      by (symmetry; apply Z.ltb_ge; lia).
    replace ((normalized >=? 512) && (normalized <=? 1024)) with false
      by (symmetry; apply andb_false_iff; right; apply Z.leb_gt; lia).
    reflexivity.
  - lia.
Qed.

Lemma C5_expandBuffer_witness :
  0 < _stashSize controller_holding_ABC /\
  0 <= _stashUsed controller_holding_ABC
    <= ab_byteLength (_stashBuffer controller_holding_ABC) /\
  expandBuffer_post controller_holding_ABC (4 * MiB).
Proof.
  assert (H1 : 0 < _stashSize controller_holding_ABC) by reflexivity.
  assert (H2 : 0 <= _stashUsed controller_holding_ABC
               <= ab_byteLength (_stashBuffer controller_holding_ABC))
    by (split; vm_compute; discriminate).
  split; [exact H1|]. split; [exact H2|].
  exact (C5_expandBuffer controller_holding_ABC (4 * MiB) H1 H2).
Defined.

(** C6 (as amended). [_adjustStashSize(normalized)] sets the stash
    target in KiB by the table (live: [normalized]; on demand:
    [normalized] below 512, [floor(normalized * 1.5)] from 512 to 1024,
    [normalized * 2] above), clamped at 8192, and
    [_stashSize = stash_size_kb * 1024].  A buffer smaller than
    [stash_size_kb * 1024 + 1 MiB] grows through [_expandBuffer]: to the
    old stash size doubled until it reaches the new target, plus 1 MiB,
    which is at least, and not always exactly, the target plus 1 MiB.
    On a freshly constructed on-demand controller a normalized speed of
    2048 gives [stash_size_kb = 4096] and a buffer of 7 MiB. *)
Theorem C6_adjustStashSize (s : t) (normalized : Z) :
  0 < _stashSize s ->
  0 <= _stashUsed s <= ab_byteLength (_stashBuffer s) ->
  _stashUsed s <= _bufferSize s ->
  (let kb := stashSizeKB_for (isLive (_config s)) normalized in
   (isLive (_config s) = true -> kb = Z.min normalized 8192) /\
   (isLive (_config s) = false -> normalized < 512 -> kb = normalized) /\
   (isLive (_config s) = false -> 512 <= normalized <= 1024 ->
    kb = (normalized * 3) / 2) /\
   (isLive (_config s) = false -> 1024 < normalized ->
    kb = Z.min (normalized * 2) 8192) /\
   kb <= 8192) /\
  adjustStashSize_post s normalized /\
  (exists s',
      _adjustStashSize 2048 default_controller = Ret tt s' /\
      _stashSize s' = 4096 * 1024 /\ _bufferSize s' = 7 * MiB).
Proof.
  intros Hsize Hused Hfit.
  split; [apply stashSizeKB_table|].
  split; [apply adjustStashSize_correct; assumption|].
  eexists. split; [vm_compute; reflexivity|]. split; reflexivity.
Qed.

Lemma C6_adjustStashSize_witness :
  0 < _stashSize controller_holding_ABC /\
  0 <= _stashUsed controller_holding_ABC
    <= ab_byteLength (_stashBuffer controller_holding_ABC) /\
  _stashUsed controller_holding_ABC <= _bufferSize controller_holding_ABC /\
  adjustStashSize_post controller_holding_ABC 1024.
Proof.
  assert (H1 : 0 < _stashSize controller_holding_ABC) by reflexivity.
  assert (H2 : 0 <= _stashUsed controller_holding_ABC
               <= ab_byteLength (_stashBuffer controller_holding_ABC))
    by (split; vm_compute; discriminate).
  assert (H3 : _stashUsed controller_holding_ABC
               <= _bufferSize controller_holding_ABC)
    by (vm_compute; discriminate).
  split; [exact H1|]. split; [exact H2|]. split; [exact H3|].
  exact (proj1 (proj2 (C6_adjustStashSize controller_holding_ABC 1024
                                          H1 H2 H3))).
Defined.

(** C6 as stated fails on a freshly constructed controller: with a
    normalized speed of 2048 the buffer grows to 7 MiB, not to
    [4096 KiB + 1 MiB = 5 MiB]. *)
Lemma C6_counterexample :
  isLive (_config default_controller) = false /\
  exists s',
    _adjustStashSize 2048 default_controller = Ret tt s' /\
    _stashSize s' = 4096 * 1024 /\
    _bufferSize s' = 7340032 /\
    _bufferSize s' <> 4096 * 1024 + MiB.
Proof.
  split; [reflexivity|].
  eexists. split; [vm_compute; reflexivity|].
  split; [reflexivity|]. split; [reflexivity|]. discriminate.
Qed.
(** ** pause and resume *)




(** ** Running the controller's methods *)

Ltac record_simpl :=
  cbn [_config _stashInitialSize _stashUsed _stashSize _bufferSize
       _stashBuffer _stashByteStart _enableStash _loader _loaderClass
       _dataSource _totalLength _fullRequestFlag _currentRange
       _redirectedURL _speedNormalized _speedSampler
       _isEarlyEofReconnecting _paused _resumeFrom _onDataArrival _onSeeked
       _onError _onComplete _onRedirect _onRecoveredEarlyEof trace
       set_stashUsed set_stashSize set_bufferSize set_stashBuffer
       set_stashByteStart set_enableStash set_loader set_totalLength
       set_fullRequestFlag set_currentRange set_redirectedURL
       set_speedNormalized set_speedSampler set_isEarlyEofReconnecting
       set_paused set_resumeFrom set_onDataArrival set_onSeeked set_onError
       set_onComplete set_onRedirect set_onRecoveredEarlyEof set_trace].

Ltac record_simpl_in H :=
  cbn [_config _stashInitialSize _stashUsed _stashSize _bufferSize
       _stashBuffer _stashByteStart _enableStash _loader _loaderClass
       _dataSource _totalLength _fullRequestFlag _currentRange
       _redirectedURL _speedNormalized _speedSampler
       _isEarlyEofReconnecting _paused _resumeFrom _onDataArrival _onSeeked
       _onError _onComplete _onRedirect _onRecoveredEarlyEof trace
       set_stashUsed set_stashSize set_bufferSize set_stashBuffer
       set_stashByteStart set_enableStash set_loader set_totalLength
       set_fullRequestFlag set_currentRange set_redirectedURL
       set_speedNormalized set_speedSampler set_isEarlyEofReconnecting
       set_paused set_resumeFrom set_onDataArrival set_onSeeked set_onError
       set_onComplete set_onRedirect set_onRecoveredEarlyEof set_trace] in H.

(** One layer of the monad: the combinators are unfolded and the
    administrative redexes reduced; the methods stay folded. *)
Ltac monad_step :=
  unfold when, emit;
  unfold bind, gets, modify, non_null, in_range, throw, ret;
  cbv beta iota.

Lemma flush_empty (dropUnconsumed : bool) (s : t) :
  _stashUsed s <= 0 -> _flushStashBuffer dropUnconsumed s = Ret 0 s.
Proof.
  intro H. unfold _flushStashBuffer. monad_step.
  replace (_stashUsed s >? 0) with false; [reflexivity|].
  symmetry. rewrite Z.gtb_ltb. apply Z.ltb_ge. exact H.
Qed.

(** [_dispatchChunks] returns exactly when the controller has been
    opened and a consumer is bound; it then records the end of the chunk
    in [_currentRange.to] and one [onDataArrival] call. *)
Lemma dispatchChunks_eq (chunks : list Byte.byte) (byteStart : Z) (s : t) :
  _dispatchChunks chunks byteStart s =
  match _currentRange s with
  | None => Throw TypeError s
  | Some r =>
    let s1 :=
      set_currentRange
        (Some (mkRange (from r) (byteStart + byteLength chunks - 1))) s in
    match _onDataArrival s with
    | None => Throw TypeError s1
    | Some consumer =>
      Ret (consumer (trace s) chunks byteStart)
          (set_trace (trace s ++ [ev_onDataArrival chunks byteStart
                                    (consumer (trace s) chunks byteStart)])
                     s1)
    end
  end.
Proof.
  unfold _dispatchChunks. monad_step.
  destruct (_currentRange s); [|reflexivity]. record_simpl.
  destruct (_onDataArrival s); reflexivity.
Qed.

Ltac monad_step_in H :=
  unfold when, emit in H;
  unfold bind, gets, modify, non_null, in_range, throw, ret in H;
  cbv beta iota in H.

Ltac break_in H :=
  match type of H with
  | context [if ?c then _ else _] => destruct c eqn:?
  | context [match ?c with Some _ => _ | None => _ end] => destruct c eqn:?
  end; cbv beta iota in H.

Lemma same_outside_stash_refl (s : t) : same_outside_stash s s.
Proof. unfold same_outside_stash. repeat split. Qed.

Lemma flush_frame (dropUnconsumed : bool) (s : t) (o : Outcome Z) :
  _flushStashBuffer dropUnconsumed s = o ->
  match o with
  | Ret _ s' | Throw _ s' => same_outside_stash s s'
  | Diverge => False
  end.
Proof.
  intro H. unfold _flushStashBuffer, stash_slice in H. monad_step_in H.
  destruct (_stashUsed s >? 0);
    [|subst o; apply same_outside_stash_refl].
  rewrite dispatchChunks_eq in H.
  destruct (_currentRange s) as [r|];
    [|subst o; apply same_outside_stash_refl].
  cbv zeta in H.
  destruct (_onDataArrival s) as [consumer|] eqn:Ec;
    [|subst o; unfold same_outside_stash; record_simpl; repeat split; auto].
  cbv beta iota in H.
  unfold stashArray_new, stashArray_set in H. record_simpl_in H.
  repeat break_in H; subst o;
    unfold same_outside_stash; record_simpl; repeat split; auto.
Qed.

(** *** Opening a loader *)

Lemma open_loader_eq (WebSocket_ctor : string -> option ErrorInfo)
    (h : LoaderErrors -> ErrorInfo -> M unit) (range : Range) (s : t) :
  open_loader WebSocket_ctor h range s =
  match _loader s with
  | None => Throw TypeError s
  | Some l =>
    run_open_callbacks h
      (snd (loader_open WebSocket_ctor (_dataSource s) range l))
      (set_loader
         (Some (fst (loader_open WebSocket_ctor (_dataSource s) range l))) s)
  end.
Proof.
  unfold open_loader. monad_step.
  destruct (_loader s) as [l|]; [|reflexivity].
  destruct (loader_open WebSocket_ctor (_dataSource s) range l).
  reflexivity.
Qed.

(** [open()] reports nothing before it returns, except a WebSocket
    loader whose socket cannot be constructed. *)
Lemma loader_open_callbacks (WebSocket_ctor : string -> option ErrorInfo)
    (dataSource : DataSource) (range : Range) (l : Loader) :
  (snd (loader_open WebSocket_ctor dataSource range l) = [] /\
   loader_status (fst (loader_open WebSocket_ctor dataSource range l))
   = kConnecting /\
   (forall w, l = WebSocket w -> WebSocket_ctor (url dataSource) = None)) \/
  (exists w info,
      l = WebSocket w /\ WebSocket_ctor (url dataSource) = Some info /\
      loader_open WebSocket_ctor dataSource range l
      = (WebSocket (WebSocketLoader.set_status kError w),
         [onError EXCEPTION info])).
Proof.
  destruct l as [l|l|l|l].
  - left. repeat split; try reflexivity. intros w [=].
  - left. repeat split; try reflexivity. intros w [=].
  - left. split; [reflexivity|]. split; [|intros w [=]].
    cbn. unfold RangeLoader.open, RangeLoader._openSubRange,
      RangeLoader._internalOpen.
    repeat break_if; reflexivity.
  - cbn. unfold WebSocketLoader.open.
    destruct (WebSocket_ctor (url dataSource)) as [info|] eqn:E.
    + right. exists l, info. auto.
    + left. repeat split; auto.
Qed.

Lemma set_loader_twice (a b : option Loader) (s : t) :
  set_loader a (set_loader b s) = set_loader a s.
Proof. reflexivity. Qed.

(** [_internalSeek] step by step. *)
Lemma internalSeek_with_eq (WebSocket_ctor : string -> option ErrorInfo)
    (h : LoaderErrors -> ErrorInfo -> M unit) (bytes : Z)
    (dropUnconsumed : bool) (s : t) :
  _internalSeek_with WebSocket_ctor h bytes dropUnconsumed s =
  match _loader s with
  | None => Throw TypeError s
  | Some l =>
    match _flushStashBuffer dropUnconsumed
            (if loader_isWorking l
             then set_loader (Some (loader_abort l)) s else s) with
    | Ret _ s1 =>
      match open_loader WebSocket_ctor h (mkRange bytes (-1))
                        (seek_prepared bytes s1) with
      | Ret _ s2 =>
        if _onSeeked s2
        then Ret tt (set_trace (trace s2 ++ [ev_onSeeked]) s2)
        else Ret tt s2
      | Throw e s' => Throw e s'
      | Diverge => Diverge
      end
    | Throw e s' => Throw e s'
    | Diverge => Diverge
    end
  end.
Proof.
  unfold _internalSeek_with. monad_step.
  destruct (_loader s) as [l|] eqn:El; [|reflexivity].
  destruct (loader_isWorking l); cbv beta iota;
    match goal with
    | |- match _flushStashBuffer _ ?s0 with _ => _ end = _ =>
      assert (Hl0 : exists l0, _loader s0 = Some l0)
        by (record_simpl; eauto);
      pose proof (flush_frame dropUnconsumed s0 _ eq_refl) as Hfr;
      destruct (_flushStashBuffer dropUnconsumed s0) as [z s1|e s1|];
      [|reflexivity|reflexivity]
    end;
    destruct Hl0 as [l0 Hl0];
    destruct Hfr as (_ & _ & _ & _ & _ & Hl1 & _);
    rewrite Hl1, Hl0; record_simpl;
    change (_createLoader _) with (seek_prepared bytes s1);
    (destruct (open_loader _ _ _ _) as [u s2|e s2|]; try reflexivity);
    destruct (_onSeeked s2); reflexivity.
Qed.

(** *** The error handler *)

(** [_onLoaderError] step by step. *)
Lemma onLoaderError_with_eq (k : Z -> bool -> M unit) (type : LoaderErrors)
    (data : ErrorInfo) (s : t) :
  _onLoaderError_with k type data s =
  match _flushStashBuffer false (error_logged data s) with
  | Ret _ s1 =>
    if _isEarlyEofReconnecting s1 then
      report_error UNRECOVERABLE_EARLY_EOF data
                   (set_isEarlyEofReconnecting false s1)
    else
      match type with
      | EARLY_EOF =>
        match isLive (_config s1), _totalLength s1 with
        | false, Some n =>
          if n =? 0 then report_error UNRECOVERABLE_EARLY_EOF data s1
          else match _currentRange s1 with
               | None => Throw TypeError s1
               | Some r =>
                 if to r + 1 <? n
                 then k (to r + 1) false (reconnecting_from s1)
                 else Ret tt s1
               end
        | _, _ => report_error UNRECOVERABLE_EARLY_EOF data s1
        end
      | _ => report_error type data s1
      end
  | Throw e s' => Throw e s'
  | Diverge => Diverge
  end.
Proof.
  unfold _onLoaderError_with. monad_step. fold (error_logged data s).
  destruct (_flushStashBuffer false (error_logged data s)) as [z s1|e s1|];
    try reflexivity.
  unfold report_error.
  destruct (_isEarlyEofReconnecting s1) eqn:Er; record_simpl.
  - destruct (_onError s1); reflexivity.
  - destruct type; try (destruct (_onError s1); reflexivity).
    destruct (isLive (_config s1)); [destruct (_onError s1); reflexivity|].
    destruct (_totalLength s1) as [n|];
      [|destruct (_onError s1); reflexivity].
    destruct (n =? 0); [destruct (_onError s1); reflexivity|].
    destruct (_currentRange s1) as [r|]; [|reflexivity].
    destruct (to r + 1 <? n); [|reflexivity].
    unfold reconnecting_from.
    destruct (k (to r + 1) false _); reflexivity.
Qed.

(** Errors other than an early EOF never reach [_internalSeek], so the
    handler bound to a loader never nests deeper. *)
Lemma onLoaderError_depth_other (WebSocket_ctor : string -> option ErrorInfo)
    (n : nat) (type : LoaderErrors) (data : ErrorInfo) (s : t) :
  type <> EARLY_EOF ->
  _onLoaderError_depth WebSocket_ctor (S n) type data s
  = _onLoaderError_depth WebSocket_ctor 1 type data s.
Proof.
  intro Ht. cbn [_onLoaderError_depth]. rewrite !onLoaderError_with_eq.
  destruct (_flushStashBuffer false (error_logged data s)) as [z s0|e s0|];
    [|reflexivity|reflexivity].
  destruct (_isEarlyEofReconnecting s0); [reflexivity|].
  destruct type; try congruence; reflexivity.
Qed.

Lemma open_loader_depth (WebSocket_ctor : string -> option ErrorInfo)
    (n : nat) (range : Range) (s : t) :
  open_loader WebSocket_ctor (_onLoaderError_depth WebSocket_ctor (S n))
              range s
  = open_loader WebSocket_ctor (_onLoaderError_depth WebSocket_ctor 1)
                range s.
Proof.
  rewrite !open_loader_eq. destruct (_loader s) as [l|]; [|reflexivity].
  destruct (loader_open_callbacks WebSocket_ctor (_dataSource s) range l)
    as [(-> & _)|(w & info & _ & _ & ->)]; [reflexivity|].
  cbn [snd fst run_open_callbacks]. unfold bind.
  rewrite onLoaderError_depth_other by discriminate. reflexivity.
Qed.

Lemma internalSeek_depth (WebSocket_ctor : string -> option ErrorInfo)
    (n : nat) (bytes : Z) (dropUnconsumed : bool) (s : t) :
  _internalSeek_with WebSocket_ctor
    (_onLoaderError_depth WebSocket_ctor (S n)) bytes dropUnconsumed s
  = _internalSeek WebSocket_ctor bytes dropUnconsumed s.
Proof.
  unfold _internalSeek. rewrite !internalSeek_with_eq.
  destruct (_loader s) as [l|]; [|reflexivity].
  destruct (_flushStashBuffer _ _) as [z s1|e s1|];
    [|reflexivity|reflexivity].
  now rewrite open_loader_depth.
Qed.

(** The handler is the one of the source: it reconnects through
    [_internalSeek]. *)
Lemma onLoaderError_eq (WebSocket_ctor : string -> option ErrorInfo)
    (type : LoaderErrors) (data : ErrorInfo) (s : t) :
  _onLoaderError WebSocket_ctor type data s
  = _onLoaderError_with (_internalSeek WebSocket_ctor) type data s.
Proof. reflexivity. Qed.

(** Two levels of nesting are never exceeded: any deeper unrolling of
    [_onLoaderError] is the same function. *)
Lemma onLoaderError_depth_enough (WebSocket_ctor : string -> option ErrorInfo)
    (n : nat) (type : LoaderErrors) (data : ErrorInfo) (s : t) :
  IOController._onLoaderError_depth WebSocket_ctor (S (S n)) type data s
  = _onLoaderError WebSocket_ctor type data s.
Proof.
  rewrite onLoaderError_eq.
  change (IOController._onLoaderError_depth WebSocket_ctor (S (S n))
                                            type data s)
    with (_onLoaderError_with
            (_internalSeek_with WebSocket_ctor
               (IOController._onLoaderError_depth WebSocket_ctor (S n)))
            type data s).
  rewrite !onLoaderError_with_eq.
  destruct (_flushStashBuffer false (error_logged data s)) as [z s0|e s0|];
    [|reflexivity|reflexivity].
  destruct (_isEarlyEofReconnecting s0); [reflexivity|].
  destruct type;
    [reflexivity|reflexivity|reflexivity|reflexivity| |reflexivity].
  destruct (isLive (_config s0)); [reflexivity|].
  destruct (_totalLength s0) as [m|]; [|reflexivity].
  destruct (m =? 0); [reflexivity|].
  destruct (_currentRange s0) as [r|]; [|reflexivity].
  destruct (to r + 1 <? m); [|reflexivity].
  apply internalSeek_depth.
Qed.

(** ** seek *)

Lemma dispatches_app (a b : list Event) :
  dispatches (a ++ b) = dispatches a ++ dispatches b.
Proof.
  induction a as [|e a IH]; [reflexivity|].
  destruct e; cbn [app dispatches]; rewrite IH; reflexivity.
Qed.

Lemma seek_events_no_dispatch (evs : list Event) :
  Forall seek_event evs ->
  dispatches evs = [] /\
  forall remain, ~ In (ev_Log_w (msg_unconsumed_dropped remain)) evs.
Proof.
  induction 1 as [|e evs He _ [IH1 IH2]].
  - split; [reflexivity|]. intros remain [].
  - destruct He as [->|[(ty & info & ->)|(c & m & ->)]];
      (split; [exact IH1|]); intros remain [Heq|Hin];
      try discriminate; eapply IH2; eauto.
Qed.

(** [seek] with a loader in place runs [_internalSeek] on an emptied
    stash, so its flush does nothing. *)
Lemma seek_eq (WebSocket_ctor : string -> option ErrorInfo) (bytes : Z)
    (s : t) (l : Loader) :
  _loader s = Some l ->
  let s0 := set_stashByteStart 0 (set_stashUsed 0 (set_paused false s)) in
  let s1 := if loader_isWorking l
            then set_loader (Some (loader_abort l)) s0 else s0 in
  seek WebSocket_ctor bytes s =
  match open_loader WebSocket_ctor (_onLoaderError_depth WebSocket_ctor 1)
                    (mkRange bytes (-1)) (seek_prepared bytes s1) with
  | Ret _ s2 =>
    if _onSeeked s2
    then Ret tt (set_trace (trace s2 ++ [ev_onSeeked]) s2)
    else Ret tt s2
  | Throw e s' => Throw e s'
  | Diverge => Diverge
  end.
Proof.
  intros Hl s0 s1.
  assert (Hseek : seek WebSocket_ctor bytes s
                  = _internalSeek WebSocket_ctor bytes true s0)
    by reflexivity.
  rewrite Hseek. unfold _internalSeek. rewrite internalSeek_with_eq.
  unfold s0 at 1. record_simpl. rewrite Hl. fold s0. fold s1.
  rewrite flush_empty; [reflexivity|].
  unfold s1, s0. destruct (loader_isWorking l); record_simpl; lia.
Qed.

(** The nested error handler on an empty stash, for an error that is not
    an early EOF. *)
Lemma onLoaderError_empty_stash (k : Z -> bool -> M unit)
    (type : LoaderErrors) (data : ErrorInfo) (s : t) :
  type <> EARLY_EOF -> _stashUsed s <= 0 ->
  _onLoaderError_with k type data s =
  report_error
    (if _isEarlyEofReconnecting s then UNRECOVERABLE_EARLY_EOF else type)
    data
    (if _isEarlyEofReconnecting s
     then set_isEarlyEofReconnecting false (error_logged data s)
     else error_logged data s).
Proof.
  intros Ht Hu. rewrite onLoaderError_with_eq.
  rewrite flush_empty by (unfold error_logged; record_simpl; exact Hu).
  unfold error_logged at 1. record_simpl.
  destruct (_isEarlyEofReconnecting s); [reflexivity|].
  destruct type; try congruence; reflexivity.
Qed.

Lemma seek_prepared_fields (bytes : Z) (s : t) :
  let p := seek_prepared bytes s in
  _loader p = Some (loader_new (_loaderClass s)) /\
  _dataSource p = _dataSource s /\
  trace p = trace s /\
  _onSeeked p = _onSeeked s /\
  _onError p = _onError s /\
  _isEarlyEofReconnecting p = _isEarlyEofReconnecting s /\
  _stashUsed p = _stashUsed s /\
  _stashByteStart p = _stashByteStart s /\
  _paused p = _paused s /\
  _currentRange p = Some (mkRange bytes (-1)) /\
  _stashSize p = _stashInitialSize s.
Proof.
  unfold seek_prepared, _createLoader. record_simpl.
  destruct (negb (loader_needStashBuffer _)); record_simpl;
    repeat split; reflexivity.
Qed.

(** What [open_loader] leaves behind when nothing is reported. *)
Lemma open_loader_quiet (WebSocket_ctor : string -> option ErrorInfo)
    (h : LoaderErrors -> ErrorInfo -> M unit) (range : Range) (s : t)
    (l : Loader) :
  _loader s = Some l ->
  (forall w, l = WebSocket w ->
             WebSocket_ctor (url (_dataSource s)) = None) ->
  exists l',
    open_loader WebSocket_ctor h range s = Ret tt (set_loader (Some l') s) /\
    loader_status l' = kConnecting.
Proof.
  intros Hl Hws. rewrite open_loader_eq, Hl.
  destruct (loader_open_callbacks WebSocket_ctor (_dataSource s) range l)
    as [(Hcb & Hst & _)|(w & info & -> & Hc & _)].
  - rewrite Hcb. eexists. split; [reflexivity|exact Hst].
  - rewrite (Hws w eq_refl) in Hc. discriminate.
Qed.

Lemma loader_new_WebSocket (c : LoaderClass) (w : WebSocketLoader.t) :
  loader_new c = WebSocket w -> c = class_WebSocketLoader.
Proof. destruct c; intros [=]; reflexivity. Qed.

Ltac seek_event_tac :=
  unfold seek_event;
  first [ left; reflexivity
        | right; left; do 2 eexists; reflexivity
        | right; right; do 2 eexists; reflexivity ].

Lemma seek_trace (WebSocket_ctor : string -> option ErrorInfo)
    (bytes : Z) (s : t) :
  seek WebSocket_ctor bytes s <> Diverge /\
  exists evs,
    trace (final_state (seek WebSocket_ctor bytes s) s) = trace s ++ evs /\
    Forall seek_event evs.
Proof.
  destruct (_loader s) as [l|] eqn:Hl.
  2:{ assert (Hseek : seek WebSocket_ctor bytes s
                      = _internalSeek WebSocket_ctor bytes true
                          (set_stashByteStart 0
                             (set_stashUsed 0 (set_paused false s))))
        by reflexivity.
      rewrite Hseek. unfold _internalSeek. rewrite internalSeek_with_eq.
      record_simpl. rewrite Hl. split; [discriminate|].
      exists []. split; [cbn; now rewrite app_nil_r|constructor]. }
  rewrite (seek_eq WebSocket_ctor bytes s l Hl). cbv zeta.
  set (s1 := if loader_isWorking l then _ else _).
  assert (Hs1 : trace s1 = trace s /\ _onSeeked s1 = _onSeeked s /\
                _onError s1 = _onError s /\ _stashUsed s1 = 0)
    by (unfold s1; destruct (loader_isWorking l); record_simpl; auto).
  destruct Hs1 as (Ht1 & Hk1 & He1 & Hu1).
  destruct (seek_prepared_fields bytes s1)
    as (Hpl & Hpd & Hpt & Hpk & Hpe & Hpr & Hpu & _).
  set (p := seek_prepared bytes s1) in *.
  rewrite open_loader_eq, Hpl.
  destruct (loader_open_callbacks WebSocket_ctor (_dataSource p)
              (mkRange bytes (-1)) (loader_new (_loaderClass s1)))
    as [(Hcb & _)|(w & info & _ & _ & Ho)].
  - rewrite Hcb. cbn [run_open_callbacks]. unfold ret. record_simpl.
    rewrite Hpk, Hk1.
    destruct (_onSeeked s); (split; [discriminate|]); cbn [final_state];
      record_simpl; rewrite Hpt, Ht1.
    + exists [ev_onSeeked]. split; [reflexivity|].
      repeat (apply Forall_cons; [seek_event_tac|]); apply Forall_nil.
    + exists []. split; [now rewrite app_nil_r|constructor].
  - rewrite Ho. cbn [fst snd run_open_callbacks]. unfold bind.
    cbn [IOController._onLoaderError_depth].
    rewrite onLoaderError_empty_stash
      by (try discriminate; record_simpl; lia).
    unfold report_error, error_logged, ret. record_simpl. rewrite Hpr.
    destruct (_isEarlyEofReconnecting s1); record_simpl;
      rewrite Hpe, He1; destruct (_onError s); record_simpl;
      rewrite ?Hpk, ?Hk1; try destruct (_onSeeked s);
      (split; [discriminate|]); cbn [final_state]; record_simpl;
      rewrite ?Hpt, ?Ht1; eexists;
      (split; [repeat rewrite <- app_assoc; cbn [app]; reflexivity|]);
      repeat (apply Forall_cons; [seek_event_tac|]); apply Forall_nil.
Qed.

Lemma seek_quiet (WebSocket_ctor : string -> option ErrorInfo)
    (bytes : Z) (s : t) (l : Loader) :
  _loader s = Some l ->
  _loaderClass s <> class_WebSocketLoader \/
  WebSocket_ctor (url (_dataSource s)) = None ->
  exists s',
    seek WebSocket_ctor bytes s = Ret tt s' /\
    trace s' = trace s ++ (if _onSeeked s then [ev_onSeeked] else []) /\
    _stashUsed s' = 0 /\ _stashByteStart s' = 0 /\ _paused s' = false /\
    _currentRange s' = Some (mkRange bytes (-1)) /\
    exists l', _loader s' = Some l' /\ loader_status l' = kConnecting.
Proof.
  intros Hl Hq. rewrite (seek_eq WebSocket_ctor bytes s l Hl). cbv zeta.
  set (s1 := if loader_isWorking l then _ else _).
  assert (Hs1 : trace s1 = trace s /\ _onSeeked s1 = _onSeeked s /\
                _stashUsed s1 = 0 /\ _stashByteStart s1 = 0 /\
                _paused s1 = false /\ _loaderClass s1 = _loaderClass s /\
                _dataSource s1 = _dataSource s)
    by (unfold s1; destruct (loader_isWorking l); record_simpl;
        repeat split; reflexivity).
  destruct Hs1 as (Ht1 & Hk1 & Hu1 & Hb1 & Hp1 & Hc1 & Hd1).
  destruct (seek_prepared_fields bytes s1)
    as (Hpl & Hpd & Hpt & Hpk & Hpe & Hpr & Hpu & Hpb & Hpp & Hpc & _).
  set (p := seek_prepared bytes s1) in *.
  destruct (open_loader_quiet WebSocket_ctor
              (_onLoaderError_depth WebSocket_ctor 1) (mkRange bytes (-1))
              p _ Hpl) as (l' & Ho & Hst).
  { intros w Hw. apply loader_new_WebSocket in Hw.
    rewrite Hpd, Hd1. destruct Hq as [Hq|Hq]; [congruence|exact Hq]. }
  rewrite Ho. record_simpl. rewrite Hpk, Hk1.
  destruct (_onSeeked s); eexists; (split; [reflexivity|]); record_simpl;
    rewrite Hpt, Ht1, Hpu, Hu1, Hpb, Hb1, Hpp, Hp1, Hpc;
    rewrite ?app_nil_r; repeat split; eauto.
Qed.

(** C10 (as amended). [seek(bytes)] never invokes [onDataArrival], in
    any controller state: it empties the stash before [_internalSeek],
    whose flush then dispatches nothing and logs no dropped bytes.  The
    callbacks it may invoke before returning are [onSeeked] and, when
    the new loader is a WebSocket loader whose socket cannot be
    constructed, [onError]; with any other loader, or when the socket is
    constructed, [onSeeked] is the only one. *)
Theorem C10_seek_never_dispatches
    (WebSocket_ctor : string -> option ErrorInfo) (bytes : Z) (s : t) :
  seek WebSocket_ctor bytes s <> Diverge /\
  (exists evs,
      trace (final_state (seek WebSocket_ctor bytes s) s) = trace s ++ evs /\
      Forall seek_event evs /\
      dispatches evs = [] /\
      forall remain, ~ In (ev_Log_w (msg_unconsumed_dropped remain)) evs) /\
  (forall l,
      _loader s = Some l ->
      _loaderClass s <> class_WebSocketLoader \/
      WebSocket_ctor (url (_dataSource s)) = None ->
      exists s',
        seek WebSocket_ctor bytes s = Ret tt s' /\
        trace s' = trace s ++ (if _onSeeked s then [ev_onSeeked] else []) /\
        _stashUsed s' = 0 /\ _stashByteStart s' = 0 /\ _paused s' = false /\
        _currentRange s' = Some (mkRange bytes (-1)) /\
        exists l', _loader s' = Some l' /\ loader_status l' = kConnecting).
Proof.
  destruct (seek_trace WebSocket_ctor bytes s) as (Hd & evs & Ht & Hev).
  split; [exact Hd|]. split.
  - exists evs. split; [exact Ht|]. split; [exact Hev|].
    apply seek_events_no_dispatch. exact Hev.
  - intros l Hl Hq. exact (seek_quiet WebSocket_ctor bytes s l Hl Hq).
Qed.

Lemma C10_seek_never_dispatches_witness :
  exists l s',
    _loader default_controller = Some l /\
    seek host_ok 1000 default_controller = Ret tt s' /\
    _stashUsed s' = 0 /\
    _currentRange s' = Some (mkRange 1000 (-1)).
Proof.
  exists (FetchStream FetchStreamLoader.new).
  assert (Hl : _loader default_controller
               = Some (FetchStream FetchStreamLoader.new))
    by (vm_compute; reflexivity).
  assert (Hc : _loaderClass default_controller <> class_WebSocketLoader)
    by (vm_compute; discriminate).
  destruct (proj2 (proj2 (C10_seek_never_dispatches
                            host_ok 1000 default_controller))
              _ Hl (or_introl Hc))
    as (s' & Hs & _ & Hu & _ & _ & Hr & _).
  exists s'. split; [exact Hl|]. split; [exact Hs|].
  split; [exact Hu|exact Hr].
Defined.

(** C10 as stated fails in its last clause: on a host that refuses the
    socket, [seek] on a WebSocket controller invokes [onError] before it
    returns (and still dispatches nothing). *)
Lemma C10_counterexample :
  let s := set_onError true
             (new (mkDataSource "ws://host/live.flv" None)
                  (mkConfig None None true) class_WebSocketLoader) in
  exists s',
    seek host_refusing_sockets 0 s = Ret tt s' /\
    trace s' = [ev_Log_e (msg_loader_error 12 "SyntaxError");
                ev_onError EXCEPTION (mkInfo 12 "SyntaxError")] /\
    dispatches (trace s') = [].
Proof.
  eexists. split; [vm_compute; reflexivity|]. split; reflexivity.
Qed.

(** ** Early EOF *)

Lemma internalSeek_quiet (WebSocket_ctor : string -> option ErrorInfo)
    (bytes : Z) (dropUnconsumed : bool) (s : t) (l : Loader) (z : Z)
    (s1 : t) :
  _loader s = Some l ->
  _flushStashBuffer dropUnconsumed
    (if loader_isWorking l then set_loader (Some (loader_abort l)) s else s)
  = Ret z s1 ->
  _loaderClass s <> class_WebSocketLoader \/
  WebSocket_ctor (url (_dataSource s)) = None ->
  exists s',
    _internalSeek WebSocket_ctor bytes dropUnconsumed s = Ret tt s' /\
    _currentRange s' = Some (mkRange bytes (-1)) /\
    _isEarlyEofReconnecting s' = _isEarlyEofReconnecting s /\
    (exists l', _loader s' = Some l' /\ loader_status l' = kConnecting) /\
    trace s' = trace s1 ++ (if _onSeeked s then [ev_onSeeked] else []) /\
    _stashUsed s' = _stashUsed s1 /\
    _stashByteStart s' = _stashByteStart s1 /\
    _stashSize s' = _stashInitialSize s.
Proof.
  intros Hl Hf Hq. unfold _internalSeek. rewrite internalSeek_with_eq, Hl, Hf.
  pose proof (flush_frame _ _ _ Hf) as Hfr. cbv beta iota in Hfr.
  set (s0 := if loader_isWorking l then _ else _) in *.
  assert (Hs0 : _isEarlyEofReconnecting s0 = _isEarlyEofReconnecting s /\
                _onSeeked s0 = _onSeeked s /\
                _loaderClass s0 = _loaderClass s /\
                _dataSource s0 = _dataSource s /\
                _stashInitialSize s0 = _stashInitialSize s)
    by (unfold s0; destruct (loader_isWorking l); record_simpl;
        repeat split; reflexivity).
  destruct Hs0 as (Hr0 & Hk0 & Hc0 & Hd0 & Hi0).
  destruct Hfr as (_ & Hi1 & _ & _ & _ & _ & Hc1 & Hd1 & _ & _ & _ & _ & Hr1
                   & _ & _ & _ & Hk1 & _).
  destruct (seek_prepared_fields bytes s1)
    as (Hpl & Hpd & Hpt & Hpk & Hpe & Hpr & Hpu & Hpb & Hpp & Hpc & Hps).
  set (p := seek_prepared bytes s1) in *.
  destruct (open_loader_quiet WebSocket_ctor
              (_onLoaderError_depth WebSocket_ctor 1) (mkRange bytes (-1))
              p _ Hpl) as (l' & Ho & Hst).
  { intros w Hw. apply loader_new_WebSocket in Hw.
    rewrite Hpd, Hd1, Hd0. destruct Hq as [Hq|Hq]; [congruence|exact Hq]. }
  rewrite Ho. record_simpl. rewrite Hpk, Hk1, Hk0.
  destruct (_onSeeked s); eexists; (split; [reflexivity|]); record_simpl;
    rewrite Hpt, Hpu, Hpb, Hpc, Hpr, Hr1, Hr0, Hps, Hi1, Hi0;
    rewrite ?app_nil_r; repeat split; eauto.
Qed.

(** C1 (as amended). On an [EarlyEof] error the controller first logs
    the error and flushes the stash without dropping unconsumed bytes.
    Then, if no early-EOF reconnection is already pending, the stream is
    not live, the total length is known and
    [current_range.to + 1 < total_length] (with [current_range.to] as
    the flush left it), it sets [early_eof_reconnecting = true] and
    performs [internal_seek(current_range.to + 1, false)].  If a
    reconnection was pending, or the stream is live, or the total length
    is unknown, the error is escalated to [UnrecoverableEarlyEof] and
    reported via [on_error], or thrown as an IOException when no handler
    is bound.  In the remaining case, [current_range.to + 1 >=
    total_length], the handler returns without reconnecting and without
    reporting. *)
Theorem C1_early_eof_policy (WebSocket_ctor : string -> option ErrorInfo)
    (data : ErrorInfo) (s : t) (z : Z) (s1 : t) :
  _flushStashBuffer false (error_logged data s) = Ret z s1 ->
  (forall n r,
      _isEarlyEofReconnecting s = false -> isLive (_config s) = false ->
      _totalLength s = Some n -> n <> 0 ->
      _currentRange s1 = Some r -> to r + 1 < n ->
      _isEarlyEofReconnecting (reconnecting_from s1) = true /\
      _onLoaderError WebSocket_ctor EARLY_EOF data s
      = _internalSeek WebSocket_ctor (to r + 1) false (reconnecting_from s1))
  /\
  (forall bytes s2 l z' s3,
      _loader s2 = Some l ->
      _flushStashBuffer false
        (if loader_isWorking l
         then set_loader (Some (loader_abort l)) s2 else s2) = Ret z' s3 ->
      _loaderClass s2 <> class_WebSocketLoader \/
      WebSocket_ctor (url (_dataSource s2)) = None ->
      exists s4,
        _internalSeek WebSocket_ctor bytes false s2 = Ret tt s4 /\
        _currentRange s4 = Some (mkRange bytes (-1)) /\
        _isEarlyEofReconnecting s4 = _isEarlyEofReconnecting s2 /\
        (exists l', _loader s4 = Some l' /\ loader_status l' = kConnecting) /\
        trace s4 = trace s3 ++ (if _onSeeked s2 then [ev_onSeeked] else []) /\
        _stashUsed s4 = _stashUsed s3) /\
  (_isEarlyEofReconnecting s = true ->
   _onLoaderError WebSocket_ctor EARLY_EOF data s
   = report_error UNRECOVERABLE_EARLY_EOF data
                  (set_isEarlyEofReconnecting false s1)) /\
  (_isEarlyEofReconnecting s = false ->
   isLive (_config s) = true \/ _totalLength s = None \/
   _totalLength s = Some 0 ->
   _onLoaderError WebSocket_ctor EARLY_EOF data s
   = report_error UNRECOVERABLE_EARLY_EOF data s1) /\
  (forall n r,
      _isEarlyEofReconnecting s = false -> isLive (_config s) = false ->
      _totalLength s = Some n -> n <> 0 ->
      _currentRange s1 = Some r -> n <= to r + 1 ->
      _onLoaderError WebSocket_ctor EARLY_EOF data s = Ret tt s1) /\
  (forall type s',
      (_onError s' = true ->
       report_error type data s'
       = Ret tt (set_trace (trace s' ++ [ev_onError type data]) s')) /\
      (_onError s' = false ->
       report_error type data s'
       = Throw (RuntimeException ("IOException: " ++ msg data)) s')).
Proof.
  intro Hf.
  pose proof (flush_frame _ _ _ Hf) as Hfr. cbv beta iota in Hfr.
  destruct Hfr as (Hc1 & _ & _ & _ & _ & _ & _ & _ & Ht1 & _ & _ & _ & Hr1
                   & _).
  unfold error_logged in Hc1, Ht1, Hr1. record_simpl_in Hc1.
  record_simpl_in Ht1. record_simpl_in Hr1.
  assert (Heq := onLoaderError_with_eq (_internalSeek WebSocket_ctor)
                   EARLY_EOF data s).
  rewrite <- onLoaderError_eq in Heq. rewrite Hf, Hr1, Hc1, Ht1 in Heq.
  split; [|split; [|split; [|split; [|split]]]].
  - intros n r Hr Hl Ht Hn Hc Hlt. split; [reflexivity|].
    rewrite Heq, Hr, Hl, Ht, Hc.
    replace (n =? 0) with false by (symmetry; apply Z.eqb_neq; exact Hn).
    replace (to r + 1 <? n) with true by (symmetry; apply Z.ltb_lt; lia).
    reflexivity.
  - intros bytes s2 l z' s3 Hl Hf' Hq.
    destruct (internalSeek_quiet WebSocket_ctor bytes false s2 l z' s3
                                 Hl Hf' Hq)
      as (s4 & H1 & H2 & H3 & H4 & H5 & H6 & _).
    exists s4. repeat split; assumption.
  - intros Hr. rewrite Heq, Hr. reflexivity.
  - intros Hr Hcase. rewrite Heq, Hr.
    destruct Hcase as [Hl|[Ht|Ht]]; rewrite ?Hl, ?Ht.
    + reflexivity.
    + destruct (isLive (_config s)); reflexivity.
    + destruct (isLive (_config s)); reflexivity.
  - intros n r Hr Hl Ht Hn Hc Hge. rewrite Heq, Hr, Hl, Ht, Hc.
    replace (n =? 0) with false by (symmetry; apply Z.eqb_neq; exact Hn).
    replace (to r + 1 <? n) with false by (symmetry; apply Z.ltb_ge; lia).
    reflexivity.
  - intros type s'. unfold report_error.
    split; intros ->; reflexivity.
Qed.

Lemma C1_early_eof_policy_witness :
  let s := controller_S3 in
  let s1 :=
    final_state (_flushStashBuffer false (error_logged early_eof_info s)) s in
  _flushStashBuffer false (error_logged early_eof_info s) = Ret 0 s1 /\
  _isEarlyEofReconnecting (reconnecting_from s1) = true /\
  _onLoaderError host_ok EARLY_EOF early_eof_info s
  = _internalSeek host_ok 600 false (reconnecting_from s1).
Proof.
  intros s s1.
  assert (Hf : _flushStashBuffer false (error_logged early_eof_info s)
               = Ret 0 s1) by (vm_compute; reflexivity).
  split; [exact Hf|].
  exact (proj1 (C1_early_eof_policy host_ok early_eof_info s 0 s1 Hf)
               1000 (mkRange 0 599) eq_refl eq_refl eq_refl
               ltac:(discriminate) eq_refl eq_refl).
Defined.

(** Scenario S3 end to end: the stream ends after 600 of 1000 bytes.
    The stash is flushed to the consumer, a new loader is opened from
    600 with the reconnection pending, and the next chunk announces the
    recovery and lands in the stash at offset 600. *)
Example S3_early_eof_reconnect :
  exists s' s'',
    fetch_read host_ok 6 FetchStreamLoader.Done controller_S3 = Ret tt s' /\
    dispatches (trace s') = [(0, 600, 600)] /\
    _isEarlyEofReconnecting s' = true /\
    _currentRange s' = Some (mkRange 600 (-1)) /\
    _loader s'
    = Some (FetchStream
              (FetchStreamLoader.open on_demand_source (mkRange 600 (-1))
                                      FetchStreamLoader.new)) /\
    fetch_read host_ok 7 (FetchStreamLoader.Value (repeat Byte.x42 10)) s'
    = Ret tt s'' /\
    trace s'' = trace s' ++ [ev_onRecoveredEarlyEof] /\
    _isEarlyEofReconnecting s'' = false /\
    _stashUsed s'' = 10 /\ _stashByteStart s'' = 600.
Proof.
  eexists. eexists. split; [vm_compute; reflexivity|].
  split; [reflexivity|]. split; [reflexivity|]. split; [reflexivity|].
  split; [reflexivity|]. split; [vm_compute; reflexivity|].
  split; [reflexivity|]. split; [reflexivity|]. split; reflexivity.
Qed.

(** C1 as stated fails in its last case.  With
    [current_range.to + 1 >= total_length] an early EOF is neither
    escalated nor reported: the handler returns, [on_error] is not
    invoked although it is bound, and nothing is thrown. *)
Lemma C1_counterexample :
  let s := controller_past_filesize in
  isLive (_config s) = false /\ _totalLength s = Some 1000 /\
  _currentRange s = Some (mkRange 100 1049) /\ _onError s = true /\
  _isEarlyEofReconnecting s = false /\
  exists s',
    fetch_read host_ok 6 FetchStreamLoader.Done s = Ret tt s' /\
    option_map loader_status (_loader s') = Some kError /\
    trace s'
    = trace s
      ++ [ev_Log_e (msg_loader_error (-1) "Fetch stream meet Early-EOF")] /\
    (forall type info, ~ In (ev_onError type info) (trace s')).
Proof.
  intro s. repeat (split; [reflexivity|]).
  eexists. split; [vm_compute; reflexivity|].
  split; [reflexivity|]. split; [reflexivity|].
  intros type info Hin. cbn in Hin.
  repeat (destruct Hin as [Hin|Hin]; [discriminate|]). exact Hin.
Qed.

(** * Consumption accounting across chunk arrivals and flushes (C2) *)


Lemma sampler_first_chunk (now bytes : Z) :
  SpeedSampler.lastSecondKBps now
    (SpeedSampler.addBytes now bytes SpeedSampler.new)
  = (0%Q, SpeedSampler.mk now now bytes bytes 0).
Proof.
  unfold SpeedSampler.lastSecondKBps, SpeedSampler.addBytes.
  cbn -[Z.sub Z.add Z.ltb Z.geb Z.eqb].
  replace (0 =? 0) with true by reflexivity. cbv iota.
  cbn -[Z.sub Z.add Z.ltb Z.geb Z.eqb].
  destruct (now =? 0) eqn:E; cbn -[Z.sub Z.add Z.ltb Z.geb Z.eqb];
    rewrite ?Z.sub_diag, ?Z.add_0_r, ?Z.add_0_l; reflexivity.
Qed.

Lemma first_chunk_fully_consumed (now : Z) (chunk : list Byte.byte)
    (byteStart receivedLength : Z) (s : t) (consumer : Consumer) (r : Range) :
  _onDataArrival s = Some consumer -> _paused s = false ->
  _isEarlyEofReconnecting s = false ->
  _speedSampler s = SpeedSampler.new ->
  _enableStash s = true -> _stashUsed s = 0 -> _stashByteStart s = 0 ->
  _currentRange s = Some r ->
  _stashSize s < byteLength chunk ->
  0 <= _bufferSize s <= ab_byteLength (_stashBuffer s) ->
  consumer (trace s) chunk byteStart = byteLength chunk ->
  exists s',
    _onLoaderChunkArrival now chunk byteStart receivedLength s = Ret tt s' /\
    _stashUsed s' = 0 /\ _stashByteStart s' = byteStart /\
    trace s' = trace s ++ [ev_onDataArrival chunk byteStart (byteLength chunk)] /\
    same_outside_stash
      (set_speedSampler
         (SpeedSampler.mk now now (byteLength chunk) (byteLength chunk) 0) s)
      s' /\
    _currentRange s'
    = Some (mkRange (from r) (byteStart + byteLength chunk - 1)) /\
    _stashBuffer s' = _stashBuffer s.
Proof.
  intros Hc Hp Hr Hs He Hu Hb Hcr Hlen Hbuf Hall.
  unfold _onLoaderChunkArrival. monad_step.
  rewrite Hc, Hp, Hr. record_simpl. rewrite Hs, sampler_first_chunk.
  cbv beta iota. record_simpl.
  change (negb (Qeq_bool 0 0)) with false. cbv beta iota. record_simpl.
  rewrite He. cbn [negb]. cbv beta iota. record_simpl.
  rewrite Hu, Hb. change ((0 =? 0) && (0 =? 0)) with true.
  cbv beta iota. record_simpl.
  replace (0 + byteLength chunk <=? _stashSize s) with false
    by (symmetry; apply Z.leb_gt; lia).
  cbv beta iota. unfold stashArray_new, Uint8Array_new. record_simpl.
  replace ((0 <? 0) || (0 >? ab_byteLength (_stashBuffer s))) with false
    by (symmetry; apply orb_false_iff; split;
        [reflexivity|rewrite Z.gtb_ltb; apply Z.ltb_ge; lia]).
  replace ((_bufferSize s <? 0)
           || (0 + _bufferSize s >? ab_byteLength (_stashBuffer s)))
    with false
    by (symmetry; apply orb_false_iff; split;
        [apply Z.ltb_ge; lia|rewrite Z.gtb_ltb; apply Z.ltb_ge; lia]).
  cbv beta iota. change (0 >? 0) with false. cbv beta iota.
  rewrite dispatchChunks_eq. record_simpl. rewrite Hcr, Hc. cbv zeta.
  record_simpl. rewrite Hall. rewrite Z.ltb_irrefl.
  eexists. split; [reflexivity|]. record_simpl.
  unfold same_outside_stash. record_simpl. repeat split; auto.
Qed.

Lemma sampler_second_chunk (now now2 first second : Z) :
  now2 - now < 500 ->
  fst (SpeedSampler.lastSecondKBps now2
         (SpeedSampler.addBytes now2 second
            (SpeedSampler.mk now now first first 0)))
  = 0%Q.
Proof.
  intros Hnow.
  unfold SpeedSampler.lastSecondKBps, SpeedSampler.addBytes.
  cbn [SpeedSampler._firstCheckpoint SpeedSampler._lastCheckpoint
       SpeedSampler._intervalBytes SpeedSampler._totalBytes
       SpeedSampler._lastSecondBytes].
  destruct (now =? 0) eqn:E0;
    cbn [SpeedSampler._firstCheckpoint SpeedSampler._lastCheckpoint
         SpeedSampler._intervalBytes SpeedSampler._totalBytes
         SpeedSampler._lastSecondBytes].
  - destruct (now2 =? 0);
      cbn [SpeedSampler._firstCheckpoint SpeedSampler._lastCheckpoint
           SpeedSampler._intervalBytes SpeedSampler._totalBytes
           SpeedSampler._lastSecondBytes];
      rewrite ?Z.sub_diag; reflexivity.
  - replace (now2 - now <? 1000) with true
      by (symmetry; apply Z.ltb_lt; lia).
    cbn [SpeedSampler._firstCheckpoint SpeedSampler._lastCheckpoint
         SpeedSampler._intervalBytes SpeedSampler._totalBytes
         SpeedSampler._lastSecondBytes].
    rewrite E0.
    replace (now2 - now <? 1000) with true
      by (symmetry; apply Z.ltb_lt; lia).
    cbn [SpeedSampler._firstCheckpoint SpeedSampler._lastCheckpoint
         SpeedSampler._intervalBytes SpeedSampler._totalBytes
         SpeedSampler._lastSecondBytes negb Z.eqb].
    replace (now2 - now >=? 500) with false
      by (symmetry; rewrite Z.geb_leb; apply Z.leb_gt; lia).
    reflexivity.
Qed.

Lemma slice_prefix_length (b : ArrayBuffer) (n : Z) :
  0 <= n <= ab_byteLength b -> byteLength (ArrayBuffer_slice b 0 n) = n.
Proof.
  intros Hn. unfold byteLength, ArrayBuffer_slice, slice_index.
  rewrite length_map, length_seq.
  replace (0 <? 0) with false by reflexivity.
  replace (n <? 0) with false by (symmetry; apply Z.ltb_ge; lia).
  lia.
Qed.

Lemma run_cons (m : M unit) (ms : list (M unit)) (s s' : t) :
  m s = Ret tt s' -> run (m :: ms) s = run ms s'.
Proof. intros H. cbn [run]. unfold bind. rewrite H. reflexivity. Qed.


Ltac sym_step := repeat (progress (cbv beta iota; record_simpl)).

(** A chunk that fits the stash window is appended without a dispatch;
    an empty stash whose start offset is 0 takes the chunk's offset, any
    other start offset is kept. *)
Lemma chunk_just_stashed (now : Z) (chunk : list Byte.byte)
    (byteStart receivedLength : Z) (s : t) (consumer : Consumer) :
  _onDataArrival s = Some consumer -> _paused s = false ->
  _isEarlyEofReconnecting s = false ->
  Qeq_bool (fst (SpeedSampler.lastSecondKBps now
                   (SpeedSampler.addBytes now (byteLength chunk)
                                          (_speedSampler s)))) 0 = true ->
  _enableStash s = true ->
  0 <= _stashUsed s ->
  _stashUsed s + byteLength chunk <= _stashSize s ->
  _stashSize s <= ab_byteLength (_stashBuffer s) ->
  exists s',
    _onLoaderChunkArrival now chunk byteStart receivedLength s = Ret tt s' /\
    _stashUsed s' = _stashUsed s + byteLength chunk /\
    _stashByteStart s'
    = (if (_stashUsed s =? 0) && (_stashByteStart s =? 0)
       then byteStart else _stashByteStart s) /\
    trace s' = trace s /\
    same_outside_stash
      (set_speedSampler
         (snd (SpeedSampler.lastSecondKBps now
                 (SpeedSampler.addBytes now (byteLength chunk)
                                        (_speedSampler s)))) s) s' /\
    _currentRange s' = _currentRange s /\
    ab_byteLength (_stashBuffer s') = ab_byteLength (_stashBuffer s).
Proof.
  intros Hc Hp Hr Hk He Hu Hfit Hbuf.
  unfold _onLoaderChunkArrival. monad_step.
  rewrite Hc, Hp, Hr. record_simpl.
  destruct (SpeedSampler.lastSecondKBps now _) as [KBps sampler] eqn:Es.
  cbn [fst snd] in *. sym_step. rewrite Hk. cbn [negb].
  sym_step. rewrite He. cbn [negb]. sym_step.
  assert (Hlen : 0 <= byteLength chunk) by (unfold byteLength; lia).
  destruct ((_stashUsed s =? 0) && (_stashByteStart s =? 0));
    sym_step;
    (replace (_stashUsed s + byteLength chunk <=? _stashSize s) with true
      by (symmetry; apply Z.leb_le; lia));
    sym_step; unfold stashArray_new, Uint8Array_new; sym_step;
    (replace ((0 <? 0) || (0 >? ab_byteLength (_stashBuffer s))) with false
      by (symmetry; apply orb_false_iff; split;
          [reflexivity|rewrite Z.gtb_ltb; apply Z.ltb_ge; lia]));
    (replace ((_stashSize s <? 0)
              || (0 + _stashSize s >? ab_byteLength (_stashBuffer s)))
      with false
      by (symmetry; apply orb_false_iff; split;
          [apply Z.ltb_ge; lia|rewrite Z.gtb_ltb; apply Z.ltb_ge; lia]));
    sym_step; unfold Uint8Array_of_chunk, in_range, Uint8Array_new;
    cbn [ab_byteLength ab_cell ArrayBuffer_of_list];
    (replace ((0 <? 0) || (0 >? byteLength chunk)) with false
      by (symmetry; apply orb_false_iff; split;
          [reflexivity|rewrite Z.gtb_ltb; apply Z.ltb_ge; lia]));
    sym_step; unfold stashArray_set, Uint8Array_set;
    cbn [u8_length u8_get]; sym_step;
    (replace ((_stashUsed s <? 0)
              || (_stashUsed s + (byteLength chunk - 0) >? _stashSize s))
      with false
      by (symmetry; apply orb_false_iff; split;
          [apply Z.ltb_ge; lia|rewrite Z.gtb_ltb; apply Z.ltb_ge; lia]));
    sym_step;
    eexists; (split; [reflexivity|]); record_simpl;
    unfold same_outside_stash; record_simpl; repeat split; reflexivity.
Qed.


(** Flushing a non-empty stash on completion dispatches it at
    [_stashByteStart] and empties it. *)
Lemma flush_drop_dispatch (s : t) (consumer : Consumer) (r : Range) :
  0 < _stashUsed s -> _currentRange s = Some r ->
  _onDataArrival s = Some consumer ->
  let buffer := ArrayBuffer_slice (_stashBuffer s) 0 (_stashUsed s) in
  let consumed := consumer (trace s) buffer (_stashByteStart s) in
  exists s',
    _flushStashBuffer true s = Ret (byteLength buffer - consumed) s' /\
    dispatches (trace s')
    = dispatches (trace s)
      ++ [(_stashByteStart s, byteLength buffer, consumed)] /\
    _stashUsed s' = 0 /\ _stashByteStart s' = 0 /\
    _onComplete s' = _onComplete s.
Proof.
  intros Hu Hcr Hc buffer consumed.
  unfold _flushStashBuffer, stash_slice. monad_step.
  replace (_stashUsed s >? 0) with true
    by (symmetry; rewrite Z.gtb_ltb; apply Z.ltb_lt; exact Hu).
  rewrite dispatchChunks_eq, Hcr, Hc. cbv zeta. sym_step.
  fold buffer. fold consumed.
  destruct (consumed <? byteLength buffer); sym_step;
    eexists; (split; [reflexivity|]); record_simpl;
    rewrite ?dispatches_app; cbn [dispatches app];
    rewrite ?app_nil_r; repeat split; reflexivity.
Qed.

(** The defect behind C2.  Take a controller right after [open] or
    [seek] at a non-zero offset with the stash enabled.  If the first
    chunk is larger than the stash window and the consumer takes all of
    it, the stash start offset stays at the chunk's own offset; a next
    chunk that fits the window is stashed under that stale offset, and
    the flush on completion dispatches it at the offset of the FIRST
    chunk instead of that offset plus what was consumed. *)
Lemma stale_byte_start (now now2 : Z) (chunk chunk2 : list Byte.byte)
    (byteStart : Z) (s : t) (consumer : Consumer) (r : Range) :
  _onDataArrival s = Some consumer -> _paused s = false ->
  _isEarlyEofReconnecting s = false ->
  _speedSampler s = SpeedSampler.new ->
  _enableStash s = true -> _stashUsed s = 0 -> _stashByteStart s = 0 ->
  _currentRange s = Some r ->
  byteStart <> 0 ->
  _stashSize s < byteLength chunk ->
  0 <= _bufferSize s <= ab_byteLength (_stashBuffer s) ->
  _stashSize s <= ab_byteLength (_stashBuffer s) ->
  consumer (trace s) chunk byteStart = byteLength chunk ->
  now2 - now < 500 ->
  0 < byteLength chunk2 <= _stashSize s ->
  exists s' consumed,
    run [_onLoaderChunkArrival now chunk byteStart (byteLength chunk);
         _onLoaderChunkArrival now2 chunk2 (byteStart + byteLength chunk)
                               (byteLength chunk + byteLength chunk2);
         _onLoaderComplete byteStart
           (byteStart + byteLength chunk + byteLength chunk2 - 1)] s
    = Ret tt s' /\
    dispatches (trace s')
    = dispatches (trace s)
      ++ [(byteStart, byteLength chunk, byteLength chunk);
          (byteStart, byteLength chunk2, consumed)] /\
    ~ consumption_accounting
        [(byteStart, byteLength chunk, byteLength chunk);
         (byteStart, byteLength chunk2, consumed)].
Proof.
  intros Hc Hp Hr Hs He Hu Hb Hcr Hne Hlen Hbuf Hsz Hall Hnow Hlen2.
  destruct (first_chunk_fully_consumed now chunk byteStart (byteLength chunk)
              s consumer r Hc Hp Hr Hs He Hu Hb Hcr Hlen Hbuf Hall)
    as (s1 & H1 & Hu1 & Hb1 & Ht1 & Hfr1 & Hcr1 & Hbf1).
  destruct Hfr1 as (_ & _ & Hz1 & _ & He1 & _ & _ & _ & _ & _ & _ & Hs1 & Hr1
                    & Hp1 & _ & Hc1 & _ & _ & Hk1 & _).
  revert Hz1 He1 Hs1 Hr1 Hp1 Hc1 Hk1. record_simpl.
  intros Hz1 He1 Hs1 Hr1 Hp1 Hc1 Hk1.
  assert (Hk : Qeq_bool
                 (fst (SpeedSampler.lastSecondKBps now2
                         (SpeedSampler.addBytes now2 (byteLength chunk2)
                            (_speedSampler s1)))) 0 = true)
    by (rewrite Hs1, sampler_second_chunk by exact Hnow; reflexivity).
  rewrite <- Hbf1, <- Hz1 in Hsz. rewrite <- Hz1 in Hlen2.
  destruct (chunk_just_stashed now2 chunk2 (byteStart + byteLength chunk)
              (byteLength chunk + byteLength chunk2) s1 consumer)
    as (s2 & H2 & Hu2 & Hb2 & Ht2 & Hfr2 & Hcr2 & Hbf2);
    [congruence|congruence|congruence|exact Hk|congruence|lia|lia|lia|].
  destruct Hfr2 as (_ & _ & Hz2 & _ & _ & _ & _ & _ & _ & _ & _ & _ & _
                    & _ & _ & Hc2 & _ & _ & Hk2 & _).
  revert Hz2 Hc2 Hk2. record_simpl. intros Hz2 Hc2 Hk2.
  rewrite Hu1, Hb1 in Hb2. rewrite Hu1 in Hu2.
  replace ((0 =? 0) && (byteStart =? 0)) with false in Hb2
    by (symmetry; apply andb_false_iff; right; apply Z.eqb_neq; exact Hne).
  destruct (flush_drop_dispatch s2 consumer
              (mkRange (from r) (byteStart + byteLength chunk - 1)))
    as (s3 & H3 & Hd3 & _ & _ & Hk3);
    [lia|congruence|congruence|].
  assert (Hsl : byteLength (ArrayBuffer_slice (_stashBuffer s2) 0 (_stashUsed s2))
                = byteLength chunk2)
    by (rewrite slice_prefix_length; lia).
  rewrite Hsl, Hb2 in Hd3.
  set (consumed := consumer (trace s2)
                     (ArrayBuffer_slice (_stashBuffer s2) 0 (_stashUsed s2))
                     byteStart) in *.
  rewrite Hb2 in H3. fold consumed in H3.
  exists (if _onComplete s then set_trace (trace s3 ++ [ev_onComplete]) s3
          else s3), consumed.
  split; [|split].
  - rewrite (run_cons _ _ _ _ H1), (run_cons _ _ _ _ H2). cbn [run].
    unfold _onLoaderComplete. monad_step. rewrite H3. sym_step.
    rewrite Hk3, Hk2, Hk1. destruct (_onComplete s); reflexivity.
  - assert (Hd : dispatches (trace s3)
                 = dispatches (trace s)
                   ++ [(byteStart, byteLength chunk, byteLength chunk);
                       (byteStart, byteLength chunk2, consumed)]).
    { rewrite Hd3, Ht2, Ht1, dispatches_app. cbn [dispatches].
      rewrite <- app_assoc. reflexivity. }
    destruct (_onComplete s); [|exact Hd].
    record_simpl. rewrite dispatches_app, Hd. cbn [dispatches].
    apply app_nil_r.
  - cbn [consumption_accounting]. intros [Hbad _].
    unfold byteLength in *. lia.
Qed.

(** The same chunks on a controller opened at offset 0 are accounted
    for: there the stale start offset is 0 and the stash takes the
    second chunk's own offset. *)
Example accounting_from_offset_0 :
  returned_dispatches (session_open_at None (Some 4) 10 2)
  = Some [(0, 10, 10); (10, 2, 2)] /\
  consumption_accounting [(0, 10, 10); (10, 2, 2)].
Proof.
  split; [vm_compute; reflexivity|]. cbn. repeat split; reflexivity.
Qed.

(** C2 (fails on the code). Consumption accounting requires every
    dispatch to start at the previous dispatch's byte_start plus what
    was consumed.  With the stash enabled and a stash size of 4 bytes,
    a controller opened at offset 100 receives a 10-byte chunk at 100,
    which bypasses the empty stash and is consumed whole, then a 2-byte
    chunk at 110, which is stashed; the flush on completion dispatches
    those 2 bytes at byte_start 100 instead of 110.  The same happens
    with the default 384 KiB stash and a first chunk of 393217 bytes. *)
Theorem C2_consumption_accounting_violated :
  returned_dispatches (session_open_at (Some 100) (Some 4) 10 2)
  = Some [(100, 10, 10); (100, 2, 2)] /\
  ~ consumption_accounting [(100, 10, 10); (100, 2, 2)] /\
  returned_dispatches (session_open_at (Some 100) None 393217 2)
  = Some [(100, 393217, 393217); (100, 2, 2)] /\
  ~ consumption_accounting [(100, 393217, 393217); (100, 2, 2)].
Proof.
  split; [vm_compute; reflexivity|].
  split; [intros [H _]; discriminate H|].
  split; [vm_compute; reflexivity|].
  intros [H _]; discriminate H.
Qed.

(** * Further properties of the loaders, the sampler and the controller *)

(** ** The fetch loader *)

Lemma total_length_nonneg (chunks : list (list Byte.byte)) :
  0 <= total_length chunks.
Proof.
  unfold total_length.
  induction chunks as [|c cs IH]; cbn [fold_right]; [lia|].
  assert (0 <= byteLength c) by (unfold byteLength; lia). lia.
Qed.

Lemma total_length_cons (chunk : list Byte.byte)
    (chunks : list (list Byte.byte)) :
  total_length (chunk :: chunks) = byteLength chunk + total_length chunks.
Proof. reflexivity. Qed.

Lemma pump_value (chunk : list Byte.byte) (l : FetchStreamLoader.t) :
  FetchStreamLoader._requestAbort l = false ->
  FetchStreamLoader._pump (FetchStreamLoader.Value chunk) l
  = (FetchStreamLoader.mk kBuffering false
       (FetchStreamLoader._contentLength l)
       (FetchStreamLoader._receivedLength l + byteLength chunk)
       (FetchStreamLoader._range l),
     [onDataArrival chunk
        (from (FetchStreamLoader._range l)
         + FetchStreamLoader._receivedLength l)
        (FetchStreamLoader._receivedLength l + byteLength chunk)],
     true).
Proof.
  intros Ha. destruct l as [st ab cl rl rg]. cbn in *. subst ab. reflexivity.
Qed.

(** X1. A fetch loader that is not aborted hands over the chunks it
    reads back to back, starting right after the bytes it had received,
    and reports the running count.  When the stream ends it reports
    [EARLY_EOF] (status [kError]) if a content length is known and
    fewer bytes arrived, and otherwise completes (status [kComplete])
    with the range [from .. from + received - 1]. *)
Theorem X1_fetch_stream_session (chunks : list (list Byte.byte))
    (l : FetchStreamLoader.t) :
  FetchStreamLoader._requestAbort l = false ->
  let rangeFrom := from (FetchStreamLoader._range l) in
  let received := FetchStreamLoader._receivedLength l in
  let total := received + total_length chunks in
  let early :=
    match FetchStreamLoader._contentLength l with
    | Some n => total <? n
    | None => false
    end in
  FetchStreamLoader._pump_stream
    (map FetchStreamLoader.Value chunks ++ [FetchStreamLoader.Done]) l
  = (FetchStreamLoader.mk (if early then kError else kComplete) false
       (FetchStreamLoader._contentLength l) total
       (FetchStreamLoader._range l),
     data_callbacks rangeFrom received chunks
     ++ [if early
         then onError EARLY_EOF (mkInfo (-1) "Fetch stream meet Early-EOF")
         else onComplete rangeFrom (rangeFrom + total - 1)]).
Proof.
  revert l. induction chunks as [|chunk chunks IH]; intros l Ha.
  - destruct l as [st ab cl rl rg]. cbn in *. subst ab.
    rewrite Z.add_0_r.
    destruct cl as [n|]; [destruct (rl <? n)|]; reflexivity.
  - cbn [map app FetchStreamLoader._pump_stream].
    rewrite (pump_value chunk l Ha).
    specialize (IH (FetchStreamLoader.mk kBuffering false
                      (FetchStreamLoader._contentLength l)
                      (FetchStreamLoader._receivedLength l + byteLength chunk)
                      (FetchStreamLoader._range l)) eq_refl).
    cbv zeta in IH.
    cbn [FetchStreamLoader._requestAbort FetchStreamLoader._contentLength
         FetchStreamLoader._receivedLength FetchStreamLoader._range] in IH.
    rewrite IH. cbv zeta. rewrite total_length_cons, !Z.add_assoc.
    reflexivity.
Qed.

Lemma X1_fetch_stream_session_witness :
  FetchStreamLoader._pump_stream
    (map FetchStreamLoader.Value [[Byte.x46; Byte.x4c]; [Byte.x56]]
     ++ [FetchStreamLoader.Done])
    (FetchStreamLoader.set_contentLength (Some 9)
       (FetchStreamLoader.open (mkDataSource "http://host/video.flv" None)
                               (mkRange 100 (-1)) FetchStreamLoader.new))
  = (FetchStreamLoader.mk kError false (Some 9) 3 (mkRange 100 (-1)),
     [onDataArrival [Byte.x46; Byte.x4c] 100 2;
      onDataArrival [Byte.x56] 102 3;
      onError EARLY_EOF (mkInfo (-1) "Fetch stream meet Early-EOF")]).
Proof.
  exact (X1_fetch_stream_session
           [[Byte.x46; Byte.x4c]; [Byte.x56]]
           (FetchStreamLoader.set_contentLength (Some 9)
              (FetchStreamLoader.open
                 (mkDataSource "http://host/video.flv" None)
                 (mkRange 100 (-1)) FetchStreamLoader.new))
           eq_refl).
Defined.
(** X2. Once [abort()] was called on a fetch loader, the response and
    the chunks that arrive later are discarded: the [fetch] callback
    makes no callback, starts no read and leaves the loader idle; a
    chunk read makes no callback, counts no byte, stops reading and
    leaves the loader complete.  Only the end of the stream is still
    reported, as a completion or as [EARLY_EOF], with the abort request
    left pending. *)
Theorem X2_fetch_abort_discards (l : FetchStreamLoader.t) :
  (forall res,
      FetchStreamLoader.fetch_then res (FetchStreamLoader.abort l)
      = (FetchStreamLoader.mk kIdle false
           (FetchStreamLoader._contentLength l)
           (FetchStreamLoader._receivedLength l)
           (FetchStreamLoader._range l), [], false)) /\
  (forall chunk results,
      FetchStreamLoader._pump_stream
        (FetchStreamLoader.Value chunk :: results)
        (FetchStreamLoader.abort l)
      = (FetchStreamLoader.mk kComplete false
           (FetchStreamLoader._contentLength l)
           (FetchStreamLoader._receivedLength l)
           (FetchStreamLoader._range l), [])) /\
  (forall results,
      let rangeFrom := from (FetchStreamLoader._range l) in
      let received := FetchStreamLoader._receivedLength l in
      let early :=
        match FetchStreamLoader._contentLength l with
        | Some n => received <? n
        | None => false
        end in
      FetchStreamLoader._pump_stream (FetchStreamLoader.Done :: results)
                                     (FetchStreamLoader.abort l)
      = (FetchStreamLoader.mk (if early then kError else kComplete) true
           (FetchStreamLoader._contentLength l) received
           (FetchStreamLoader._range l),
         [if early
          then onError EARLY_EOF (mkInfo (-1) "Fetch stream meet Early-EOF")
          else onComplete rangeFrom (rangeFrom + received - 1)])).
Proof.
  destruct l as [st ab cl rl rg].
  split; [|split]; [reflexivity|reflexivity|].
  intros results. cbn.
  destruct cl as [n|]; [destruct (rl <? n)|]; reflexivity.
Qed.

(** ** The chunked-XHR loader *)

Lemma handle_all_cons {L} (h : L -> L * list LoaderCallback)
    (hs : list (L -> L * list LoaderCallback)) (l : L) :
  handle_all (h :: hs) l
  = (fst (handle_all hs (fst (h l))),
     snd (h l) ++ snd (handle_all hs (fst (h l)))).
Proof.
  cbn [handle_all]. destruct (h l) as [l1 c1]. cbn [fst snd].
  destruct (handle_all hs l1) as [l2 c2]. reflexivity.
Qed.

Lemma data_arrivals_app (a b : list LoaderCallback) :
  data_arrivals (a ++ b) = data_arrivals a ++ data_arrivals b.
Proof. apply filter_app. Qed.

Lemma length_announcements_app (a b : list LoaderCallback) :
  length_announcements (a ++ b)
  = length_announcements a ++ length_announcements b.
Proof. apply filter_app. Qed.

(** One progress event on a loader that has not failed. *)
Lemma moz_progress_step (total : option Z) (chunk : list Byte.byte)
    (l : MozChunkedLoader.t) :
  MozChunkedLoader._status l <> kError ->
  let announced :=
    match MozChunkedLoader._contentLength l with
    | Some _ => None
    | None => first_total [(total, chunk)]
    end in
  MozChunkedLoader._onProgress total chunk l
  = (MozChunkedLoader.mk (MozChunkedLoader._status l)
       (MozChunkedLoader._xhr l) (MozChunkedLoader._requestAbort l)
       (match announced with
        | Some n => Some n
        | None => MozChunkedLoader._contentLength l
        end)
       (MozChunkedLoader._receivedLength l + byteLength chunk)
       (MozChunkedLoader._range l),
     match announced with
     | Some n => [onContentLengthKnown n]
     | None => []
     end
     ++ [onDataArrival chunk
           (from (MozChunkedLoader._range l)
            + MozChunkedLoader._receivedLength l)
           (MozChunkedLoader._receivedLength l + byteLength chunk)]).
Proof.
  intros Hst. destruct l as [st xhr ab cl rl rg]. cbn in Hst.
  unfold MozChunkedLoader._onProgress.
  cbn [MozChunkedLoader._status MozChunkedLoader._contentLength
       MozChunkedLoader._xhr MozChunkedLoader._requestAbort
       MozChunkedLoader._receivedLength MozChunkedLoader._range first_total].
  destruct cl as [c|]; [|destruct total as [n|]; [destruct (n =? 0)|]];
    cbn [negb]; destruct st; try congruence; reflexivity.
Qed.

Lemma moz_session_data (rangeFrom received : Z) (contentLength : option Z)
    (events : list (option Z * list Byte.byte)) :
  data_arrivals (moz_session_callbacks rangeFrom received contentLength
                                       events)
  = data_callbacks rangeFrom received (map snd events).
Proof.
  revert received contentLength.
  induction events as [|[total chunk] events IH];
    intros received contentLength; [reflexivity|].
  cbn [moz_session_callbacks map snd data_callbacks].
  rewrite data_arrivals_app.
  change (data_arrivals (onDataArrival ?c ?b ?r :: ?rest))
    with (onDataArrival c b r :: data_arrivals rest).
  cbn [data_arrivals filter].
  rewrite <- (IH (received + byteLength chunk)
                 (match match contentLength with
                        | Some _ => None
                        | None => first_total [(total, chunk)]
                        end with
                  | Some n => Some n
                  | None => contentLength
                  end)).
  destruct (match contentLength with
            | Some _ => None
            | None => first_total [(total, chunk)]
            end); reflexivity.
Qed.

Lemma moz_session_announcements (rangeFrom received : Z)
    (contentLength : option Z)
    (events : list (option Z * list Byte.byte)) :
  length_announcements (moz_session_callbacks rangeFrom received
                                              contentLength events)
  = match contentLength, first_total events with
    | None, Some n => [onContentLengthKnown n]
    | _, _ => []
    end.
Proof.
  revert received contentLength.
  induction events as [|[total chunk] events IH];
    intros received contentLength.
  - destruct contentLength; reflexivity.
  - cbn [moz_session_callbacks]. rewrite length_announcements_app.
    cbn [length_announcements filter app]. fold length_announcements.
    rewrite IH.
    destruct contentLength as [c|]; [reflexivity|].
    cbn [first_total].
    destruct total as [n|]; [destruct (n =? 0)|]; reflexivity.
Qed.

Lemma moz_session_length (rangeFrom received : Z)
    (contentLength : option Z)
    (events : list (option Z * list Byte.byte)) :
  List.length (moz_session_callbacks rangeFrom received contentLength events)
  = (List.length (match contentLength, first_total events with
                  | None, Some n => [onContentLengthKnown n]
                  | _, _ => []
                  end)
     + List.length events)%nat.
Proof.
  revert received contentLength.
  induction events as [|[total chunk] events IH]; intros received cl.
  - destruct cl; reflexivity.
  - cbn [moz_session_callbacks first_total]. rewrite length_app.
    cbn [List.length]. rewrite IH.
    destruct cl as [c|]; [cbn; lia|].
    destruct total as [n|]; [destruct (n =? 0)|]; cbn;
      destruct (first_total events); cbn; lia.
Qed.

Lemma moz_session_known (rangeFrom received c : Z)
    (events : list (option Z * list Byte.byte)) :
  moz_session_callbacks rangeFrom received (Some c) events
  = data_callbacks rangeFrom received (map snd events).
Proof.
  revert received. induction events as [|[total chunk] events IH];
    intros received; [reflexivity|].
  cbn [moz_session_callbacks map snd data_callbacks app]. rewrite IH.
  reflexivity.
Qed.

(** X3. A chunked-XHR loader that is neither failed nor aborted hands
    over the chunks of its progress events back to back, starting right
    after the bytes it had received.  Besides these it makes one more
    callback at most: while it knows no content length, the first event
    that reports a total (neither null nor zero) announces it, just
    before its chunk, and the loader then knows it; a loader that knows
    the content length announces nothing.  The load-end event then
    completes it with the range [from .. from + received - 1]. *)
Theorem X3_moz_chunked_session (events : list (option Z * list Byte.byte))
    (l : MozChunkedLoader.t) :
  MozChunkedLoader._status l <> kError ->
  MozChunkedLoader._requestAbort l = false ->
  let rangeFrom := from (MozChunkedLoader._range l) in
  let received := MozChunkedLoader._receivedLength l in
  let known := MozChunkedLoader._contentLength l in
  let chunks := map snd events in
  let total := received + total_length chunks in
  exists l' cbs,
    handle_all (moz_progress_handlers events ++ [MozChunkedLoader._onLoadEnd])
               l
    = (l', cbs ++ [onComplete rangeFrom (rangeFrom + total - 1)]) /\
    cbs = moz_session_callbacks rangeFrom received known events /\
    data_arrivals cbs = data_callbacks rangeFrom received chunks /\
    length_announcements cbs
    = match known, first_total events with
      | None, Some n => [onContentLengthKnown n]
      | _, _ => []
      end /\
    List.length cbs
    = (List.length (length_announcements cbs) + List.length events)%nat /\
    (known <> None -> cbs = data_callbacks rangeFrom received chunks) /\
    MozChunkedLoader._contentLength l'
    = match known with
      | Some c => Some c
      | None => first_total events
      end /\
    MozChunkedLoader._status l' = kComplete /\
    MozChunkedLoader._receivedLength l' = total.
Proof.
  intros Hst Ha. cbv zeta.
  assert (Hrun : forall l : MozChunkedLoader.t,
    MozChunkedLoader._status l <> kError ->
    MozChunkedLoader._requestAbort l = false ->
    handle_all (moz_progress_handlers events ++ [MozChunkedLoader._onLoadEnd])
               l
    = (MozChunkedLoader.mk kComplete (MozChunkedLoader._xhr l) false
         (match MozChunkedLoader._contentLength l with
          | Some c => Some c
          | None => first_total events
          end)
         (MozChunkedLoader._receivedLength l
          + total_length (map snd events))
         (MozChunkedLoader._range l),
       moz_session_callbacks (from (MozChunkedLoader._range l))
         (MozChunkedLoader._receivedLength l)
         (MozChunkedLoader._contentLength l) events
       ++ [onComplete (from (MozChunkedLoader._range l))
             (from (MozChunkedLoader._range l)
              + (MozChunkedLoader._receivedLength l
                 + total_length (map snd events)) - 1)])).
  { clear l Hst Ha.
    induction events as [|[total chunk] events IH]; intros l Hst Ha.
    - destruct l as [st xhr ab cl rl rg]. cbn in Hst, Ha. subst ab.
      cbn [map moz_progress_handlers app handle_all].
      unfold MozChunkedLoader._onLoadEnd.
      cbn [MozChunkedLoader._requestAbort MozChunkedLoader._status
           MozChunkedLoader._range MozChunkedLoader._receivedLength
           MozChunkedLoader._contentLength MozChunkedLoader._xhr
           moz_session_callbacks first_total total_length fold_right app].
      rewrite Z.add_0_r.
      destruct st; try congruence; destruct cl; reflexivity.
    - unfold moz_progress_handlers in *. cbn [map app fst snd].
      rewrite handle_all_cons, (moz_progress_step total chunk l Hst).
      cbv zeta. cbn [fst snd].
      rewrite IH by assumption.
      cbn [MozChunkedLoader._range MozChunkedLoader._receivedLength
           MozChunkedLoader._contentLength MozChunkedLoader._xhr
           moz_session_callbacks].
      rewrite total_length_cons, !Z.add_assoc, <- !app_assoc.
      cbn [app first_total].
      destruct (MozChunkedLoader._contentLength l) as [c|];
        [reflexivity|].
      destruct total as [n|]; [destruct (n =? 0)|]; reflexivity. }
  eexists _, _. split; [apply Hrun; assumption|].
  split; [reflexivity|].
  split; [apply moz_session_data|].
  split; [apply moz_session_announcements|].
  split.
  { rewrite moz_session_announcements. apply moz_session_length. }
  split.
  { destruct (MozChunkedLoader._contentLength l) as [c|];
      [intros _; apply moz_session_known|congruence]. }
  repeat split.
Qed.

Lemma X3_moz_chunked_session_witness :
  let l := fst (MozChunkedLoader._onReadyStateChange None 200 "OK"
                  (MozChunkedLoader.open
                     (mkDataSource "http://host/video.flv" None)
                     (mkRange 7 (-1)) MozChunkedLoader.new)) in
  exists l',
    handle_all
      (moz_progress_handlers [(Some 3, [Byte.x46]); (Some 3, [Byte.x4c])]
       ++ [MozChunkedLoader._onLoadEnd]) l
    = (l', [onContentLengthKnown 3;
            onDataArrival [Byte.x46] 7 1; onDataArrival [Byte.x4c] 8 2;
            onComplete 7 8]).
Proof.
  intros l.
  destruct (X3_moz_chunked_session
              [(Some 3, [Byte.x46]); (Some 3, [Byte.x4c])] l
              ltac:(discriminate) eq_refl)
    as (l' & cbs & Hrun & Hcbs & _).
  exists l'. rewrite Hrun, Hcbs. reflexivity.
Defined.

(** ** The WebSocket loader *)

(** X4. A WebSocket loader hands over the binary messages it receives
    back to back from offset 0, after the bytes it had received.  When
    the socket closes it completes with the range [0 .. received - 1]
    and its socket is CLOSED, so that an [abort()] after it requests no
    abort; unless the close answers an [abort()]: then it only clears
    the abort request and makes no callback. *)
Theorem X4_websocket_session (chunks : list (list Byte.byte))
    (l : WebSocketLoader.t) :
  let received := WebSocketLoader._receivedLength l in
  let total := received + total_length chunks in
  let closed := match WebSocketLoader._ws l with
                | Some _ => Some 3 | None => None end in
  let l' := fst (handle_all (map WebSocketLoader._dispatchArrayBuffer chunks
                             ++ [WebSocketLoader._onWebSocketClose]) l) in
  handle_all (map WebSocketLoader._dispatchArrayBuffer chunks
              ++ [WebSocketLoader._onWebSocketClose]) l
  = (if WebSocketLoader._requestAbort l
     then WebSocketLoader.mk (WebSocketLoader._status l)
                             (WebSocketLoader._ws l) false total
     else WebSocketLoader.mk kComplete closed false total,
     data_callbacks 0 received chunks
     ++ (if WebSocketLoader._requestAbort l then []
         else [onComplete 0 (total - 1)])) /\
  (WebSocketLoader._requestAbort l = false ->
   WebSocketLoader.abort l' = WebSocketLoader.mk kComplete None false total).
Proof.
  assert (Hrun : forall l : WebSocketLoader.t,
    handle_all (map WebSocketLoader._dispatchArrayBuffer chunks
                ++ [WebSocketLoader._onWebSocketClose]) l
    = (if WebSocketLoader._requestAbort l
       then WebSocketLoader.mk (WebSocketLoader._status l)
              (WebSocketLoader._ws l) false
              (WebSocketLoader._receivedLength l + total_length chunks)
       else WebSocketLoader.mk kComplete
              (match WebSocketLoader._ws l with
               | Some _ => Some 3 | None => None end) false
              (WebSocketLoader._receivedLength l + total_length chunks),
       data_callbacks 0 (WebSocketLoader._receivedLength l) chunks
       ++ (if WebSocketLoader._requestAbort l then []
           else [onComplete 0 (WebSocketLoader._receivedLength l
                               + total_length chunks - 1)]))).
  { induction chunks as [|chunk chunks IH]; intros l0.
    - destruct l0 as [st ws ab rl]. cbn. rewrite Z.add_0_r.
      destruct ab; [reflexivity|]. destruct ws; reflexivity.
    - destruct l0 as [st ws ab rl].
      cbn [map app]. rewrite handle_all_cons, IH.
      rewrite total_length_cons.
      cbn -[total_length Z.add Z.sub byteLength].
      rewrite !Z.add_assoc, !Z.add_0_l. reflexivity. }
  cbv zeta. rewrite Hrun. split; [reflexivity|].
  intros Ha. rewrite Ha. cbn [fst].
  destruct (WebSocketLoader._ws l); reflexivity.
Qed.
(** ** The ranged loader *)

(** X7. [RangeLoader._normalizeSpeed] returns, for every input, the
    greatest entry of the chunk-size ladder [128, ..., 8192] that is not
    above the input, and 128 for an input below 128. *)
Theorem X7_range_normalizeSpeed_ladder (kbps : Q) :
  exists v,
    RangeLoader._normalizeSpeed kbps = Some v /\
    ladder_floor
      [128; 256; 384; 512; 768; 1024; 1536; 2048; 3072; 4096; 5120; 6144;
       7168; 8192] 128 kbps v.
Proof.
  apply (normalizeSpeed_ladder_floor _ kbps 128 chunkSizeKBList_sorted
                                     eq_refl).
Qed.





Ltac range_fields :=
  cbn [RangeLoader._status RangeLoader._currentChunkSizeKB
       RangeLoader._currentSpeedNormalized RangeLoader._zeroSpeedChunkCount
       RangeLoader._xhr RangeLoader._speedSampler RangeLoader._requestAbort
       RangeLoader._waitForTotalLength RangeLoader._totalLengthReceived
       RangeLoader._currentRequestRange RangeLoader._totalLength
       RangeLoader._contentLength RangeLoader._receivedLength
       RangeLoader._lastTimeLoaded RangeLoader._range RangeLoader.requests
       RangeLoader.set_status RangeLoader.set_currentChunkSizeKB
       RangeLoader.set_currentSpeedNormalized
       RangeLoader.set_zeroSpeedChunkCount RangeLoader.set_xhr
       RangeLoader.set_speedSampler RangeLoader.set_requestAbort
       RangeLoader.set_waitForTotalLength RangeLoader.set_totalLengthReceived
       RangeLoader.set_currentRequestRange RangeLoader.set_totalLength
       RangeLoader.set_contentLength RangeLoader.set_receivedLength
       RangeLoader.set_lastTimeLoaded RangeLoader.set_range
       RangeLoader.set_requests].

(** The speed adaptation at the head of [_onLoad] touches only the
    sampler, the zero-speed count, the normalized speed and the chunk
    size. *)
Lemma onLoad_adapted (now : Z) (chunk : list Byte.byte) (l : RangeLoader.t) :
  RangeLoader._status l <> kError ->
  RangeLoader._waitForTotalLength l = false ->
  exists size speed count sampler,
    let l1 :=
      RangeLoader.mk (RangeLoader._status l) size speed count
        (RangeLoader._xhr l) sampler (RangeLoader._requestAbort l) false
        (RangeLoader._totalLengthReceived l)
        (RangeLoader._currentRequestRange l) (RangeLoader._totalLength l)
        (RangeLoader._contentLength l)
        (RangeLoader._receivedLength l + byteLength chunk) 0
        (RangeLoader._range l) (RangeLoader.requests l) in
    let complete :=
      match RangeLoader._contentLength l with
      | Some n => negb (RangeLoader._receivedLength l + byteLength chunk <? n)
      | None => true
      end in
    let data :=
      onDataArrival chunk
        (from (RangeLoader._range l) + RangeLoader._receivedLength l)
        (RangeLoader._receivedLength l + byteLength chunk) in
    RangeLoader._onLoad now chunk l
    = if complete
      then (RangeLoader.set_status kComplete l1,
            [data;
             onComplete (from (RangeLoader._range l))
                        (from (RangeLoader._range l)
                         + (RangeLoader._receivedLength l + byteLength chunk)
                         - 1)])
      else (RangeLoader._openSubRange l1, [data]).
Proof.
  intros Hst Hw. destruct l as [st size speed count xhr sampler ab w tr cr tl
                                   cl rl ll rg rq].
  cbn in Hst, Hw. subst w.
  assert (Hst' : match st with kError => False | _ => True end)
    by (destruct st; auto).
  set (tail := fun l0 : RangeLoader.t =>
    let byteStart := from (RangeLoader._range l0)
                     + RangeLoader._receivedLength l0 in
    let l2 := RangeLoader.set_receivedLength
                (RangeLoader._receivedLength l0 + byteLength chunk) l0 in
    let reportComplete :=
      match RangeLoader._contentLength l2 with
      | Some n => negb (RangeLoader._receivedLength l2 <? n)
      | None => true
      end in
    let l3 := if reportComplete then l2 else RangeLoader._openSubRange l2 in
    let cb := [onDataArrival chunk byteStart
                             (RangeLoader._receivedLength l3)] in
    if reportComplete
    then (RangeLoader.set_status kComplete l3,
          cb ++ [onComplete (from (RangeLoader._range l3))
                   (from (RangeLoader._range l3)
                    + RangeLoader._receivedLength l3 - 1)])
    else (l3, cb)).
  assert (Htail : forall size' speed' count' sampler',
    tail (RangeLoader.mk st size' speed' count' xhr sampler' ab false tr
            cr tl cl rl 0 rg rq)
    = (if match cl with
          | Some n => negb (rl + byteLength chunk <? n)
          | None => true
          end
       then (RangeLoader.set_status kComplete
               (RangeLoader.mk st size' speed' count' xhr sampler' ab false
                  tr cr tl cl (rl + byteLength chunk) 0 rg rq),
             [onDataArrival chunk (from rg + rl) (rl + byteLength chunk);
              onComplete (from rg) (from rg + (rl + byteLength chunk) - 1)])
       else (RangeLoader._openSubRange
               (RangeLoader.mk st size' speed' count' xhr sampler' ab false
                  tr cr tl cl (rl + byteLength chunk) 0 rg rq),
             [onDataArrival chunk (from rg + rl) (rl + byteLength chunk)]))).
  { intros. unfold tail. cbv zeta. range_fields.
    destruct cl as [n|]; [destruct (rl + byteLength chunk <? n)|];
      reflexivity. }
  assert (Hshape : exists size' speed' count' sampler',
    RangeLoader._onLoad now chunk
      (RangeLoader.mk st size speed count xhr sampler ab false tr cr tl cl
                      rl ll rg rq)
    = tail (RangeLoader.mk st size' speed' count' xhr sampler' ab false tr
                           cr tl cl rl 0 rg rq)).
  { unfold RangeLoader._onLoad. range_fields.
    destruct (SpeedSampler.lastSecondKBps now sampler) as [KBps sampler1].
    destruct (Qeq_bool KBps 0) eqn:EK.
    - range_fields. destruct (count + 1 >=? 3) eqn:E3.
      + destruct (SpeedSampler.currentKBps now sampler1)
          as [KBps' sampler2] eqn:EC.
        destruct (Qeq_bool KBps' 0) eqn:EK'.
        * exists size, speed, (count + 1), sampler2.
          destruct st; try contradiction; reflexivity.
        * destruct (RangeLoader._normalizeSpeed KBps') as [v|] eqn:EN.
          -- range_fields. destruct (speed =? v) eqn:EV.
             ++ exists size, speed, (count + 1), sampler2.
                destruct st; try contradiction; reflexivity.
             ++ exists v, v, (count + 1), sampler2.
                destruct st; try contradiction; reflexivity.
          -- exists size, speed, (count + 1), sampler2.
             destruct st; try contradiction; reflexivity.
      + exists size, speed, (count + 1), sampler1.
        destruct st; try contradiction; rewrite EK; reflexivity.
    - range_fields. rewrite EK. cbn [negb].
      destruct (RangeLoader._normalizeSpeed KBps) as [v|] eqn:EN.
      + range_fields. destruct (speed =? v) eqn:EV.
        * exists size, speed, count, sampler1.
          destruct st; try contradiction; reflexivity.
        * exists v, v, count, sampler1.
          destruct st; try contradiction; reflexivity.
      + exists size, speed, count, sampler1.
        destruct st; try contradiction; reflexivity. }
  destruct Hshape as (size' & speed' & count' & sampler' & Hshape).
  exists size', speed', count', sampler'. cbv zeta. range_fields.
  rewrite Hshape. apply Htail.
Qed.

(** X6. When a sub-range has loaded, a RangeLoader that is neither
    failed nor probing hands over the chunk at the offset right after
    the bytes received so far.  If the content length is known and not
    yet reached, it keeps its status and issues exactly one new request,
    which starts right after the last byte received and never extends
    past the last byte of the range.  Otherwise it completes with the
    range [from .. from + received - 1] and issues no request. *)
Theorem X6_range_onLoad (now : Z) (chunk : list Byte.byte)
    (l : RangeLoader.t) :
  RangeLoader._status l <> kError ->
  RangeLoader._waitForTotalLength l = false ->
  let out := RangeLoader._onLoad now chunk l in
  let rangeFrom := from (RangeLoader._range l) in
  let received := RangeLoader._receivedLength l + byteLength chunk in
  let data := onDataArrival chunk
                (rangeFrom + RangeLoader._receivedLength l) received in
  RangeLoader._receivedLength (fst out) = received /\
  (forall n,
      RangeLoader._contentLength l = Some n -> received < n ->
      snd out = [data] /\
      RangeLoader._status (fst out) = RangeLoader._status l /\
      exists r,
        RangeLoader.requests (fst out) = RangeLoader.requests l ++ [r] /\
        RangeLoader._currentRequestRange (fst out) = Some r /\
        from r = rangeFrom + received /\
        from r <= rangeFrom + n - 1 /\ to r <= rangeFrom + n - 1) /\
  (RangeLoader._contentLength l = None \/
   (exists n, RangeLoader._contentLength l = Some n /\ n <= received) ->
   snd out = [data; onComplete rangeFrom (rangeFrom + received - 1)] /\
   RangeLoader._status (fst out) = kComplete /\
   RangeLoader.requests (fst out) = RangeLoader.requests l).
Proof.
  intros Hst Hw out rangeFrom received data.
  destruct (onLoad_adapted now chunk l Hst Hw)
    as (size & speed & count & sampler & Heq).
  cbv zeta in Heq. subst out. rewrite Heq. clear Heq.
  fold rangeFrom. fold received.
  split; [|split].
  - destruct (RangeLoader._contentLength l) as [n|];
      [destruct (received <? n)|]; reflexivity.
  - intros n Hn Hlt. rewrite Hn.
    replace (received <? n) with true by (symmetry; apply Z.ltb_lt; exact Hlt).
    cbn [negb fst snd]. split; [reflexivity|]. split; [reflexivity|].
    unfold RangeLoader._openSubRange, RangeLoader._internalOpen.
    range_fields. eexists. split; [reflexivity|]. split; [reflexivity|].
    cbn [from to]. fold rangeFrom.
    split; [reflexivity|]. split; [lia|].
    destruct (rangeFrom + received + size * 1024 - rangeFrom >=? n) eqn:E;
      [lia|].
    rewrite Z.geb_leb in E. apply Z.leb_gt in E. lia.
  - intros Hdone.
    assert (Hc : match RangeLoader._contentLength l with
                 | Some n => negb (received <? n)
                 | None => true
                 end = true).
    { destruct Hdone as [-> | (n & -> & Hle)]; [reflexivity|].
      apply negb_true_iff, Z.ltb_ge. exact Hle. }
    rewrite Hc. cbn [fst snd]. repeat split.
Qed.

Lemma X6_range_onLoad_witness :
  let l := RangeLoader.set_contentLength (Some 10)
             (RangeLoader.set_status kBuffering
                (RangeLoader.set_range (mkRange 50 (-1)) RangeLoader.new)) in
  snd (RangeLoader._onLoad 5 [Byte.x46; Byte.x4c; Byte.x56] l)
  = [onDataArrival [Byte.x46; Byte.x4c; Byte.x56] 50 3] /\
  exists r,
    RangeLoader.requests (fst (RangeLoader._onLoad 5
                                 [Byte.x46; Byte.x4c; Byte.x56] l))
    = [r] /\ from r = 53 /\ to r <= 59.
Proof.
  intros l.
  destruct (proj1 (proj2 (X6_range_onLoad 5 [Byte.x46; Byte.x4c; Byte.x56] l
                            ltac:(discriminate) eq_refl))
              10 eq_refl ltac:(reflexivity))
    as (Hcb & _ & r & Hr & _ & Hfrom & _ & Hto).
  split; [exact Hcb|]. exists r. split; [exact Hr|].
  split; [exact Hfrom|exact Hto].
Defined.

Lemma handle_all_nil {L} (l : L) : handle_all [] l = (l, []).
Proof. reflexivity. Qed.

(** X8. The XHR loaders never hand over data or report completion once
    they have failed: a response whose HTTP status is outside 200..299
    puts the loader in [kError] and is reported as
    [HTTP_STATUS_CODE_INVALID]; in [kError] a RangeLoader ignores every
    progress and load event, and a chunked-XHR loader makes no callback
    on any progress or load-end event and stays in [kError]. *)
Theorem X8_xhr_loaders_stay_failed :
  (forall redirected httpStatus statusText (l : RangeLoader.t),
      ~ 200 <= httpStatus <= 299 ->
      let out := RangeLoader._onReadyStateChange redirected httpStatus
                                                 statusText l in
      RangeLoader._status (fst out) = kError /\
      exists cbs,
        snd out = cbs ++ [onError HTTP_STATUS_CODE_INVALID
                                  (mkInfo httpStatus statusText)]) /\
  (forall redirected httpStatus statusText (l : MozChunkedLoader.t),
      httpStatus <> 0 -> ~ 200 <= httpStatus <= 299 ->
      let out := MozChunkedLoader._onReadyStateChange redirected httpStatus
                                                      statusText l in
      MozChunkedLoader._status (fst out) = kError /\
      exists cbs,
        snd out = cbs ++ [onError HTTP_STATUS_CODE_INVALID
                                  (mkInfo httpStatus statusText)]) /\
  (forall (l : RangeLoader.t) handlers,
      RangeLoader._status l = kError ->
      Forall range_body_event handlers ->
      handle_all handlers l = (l, [])) /\
  (forall (l : MozChunkedLoader.t) handlers,
      MozChunkedLoader._status l = kError ->
      Forall moz_body_event handlers ->
      snd (handle_all handlers l) = [] /\
      MozChunkedLoader._status (fst (handle_all handlers l)) = kError).
Proof.
  split; [|split; [|split]].
  - intros redirected httpStatus statusText l Hbad out. subst out.
    unfold RangeLoader._onReadyStateChange.
    replace ((httpStatus >=? 200) && (httpStatus <=? 299)) with false
      by (symmetry; apply andb_false_iff; rewrite Z.geb_leb;
          destruct (Z.leb_spec 200 httpStatus); [right|left; reflexivity];
          apply Z.leb_gt; lia).
    split; [reflexivity|]. eexists. reflexivity.
  - intros redirected httpStatus statusText l Hnz Hbad out. subst out.
    unfold MozChunkedLoader._onReadyStateChange.
    replace (negb (httpStatus =? 0)
             && ((httpStatus <? 200) || (httpStatus >? 299))) with true
      by (symmetry; apply andb_true_iff; split;
          [apply negb_true_iff, Z.eqb_neq; exact Hnz|];
          apply orb_true_iff; rewrite Z.gtb_ltb;
          destruct (Z.ltb_spec httpStatus 200); [left; reflexivity|right];
          apply Z.ltb_lt; lia).
    split; [reflexivity|]. eexists. reflexivity.
  - intros l handlers Hst Hall. induction Hall as [|h hs Hh _ IH];
      [reflexivity|].
    rewrite handle_all_cons.
    assert (Hid : h l = (l, []))
      by (destruct Hh; [unfold RangeLoader._onProgress
                       |unfold RangeLoader._onLoad]; rewrite Hst; reflexivity).
    rewrite Hid. cbn [fst snd]. rewrite IH. reflexivity.
  - intros l handlers Hst Hall. revert l Hst.
    induction Hall as [|h hs Hh _ IH]; intros l Hst; [split; [reflexivity|exact Hst]|].
    rewrite handle_all_cons.
    assert (Hid : snd (h l) = [] /\ MozChunkedLoader._status (fst (h l)) = kError).
    { destruct Hh; [unfold MozChunkedLoader._onProgress
                   |unfold MozChunkedLoader._onLoadEnd].
      - rewrite Hst. split; [reflexivity|exact Hst].
      - destruct (MozChunkedLoader._requestAbort l); [split; [reflexivity|exact Hst]|].
        rewrite Hst. split; [reflexivity|exact Hst]. }
    destruct Hid as [Hcb Hst1]. cbn [fst snd]. rewrite Hcb.
    destruct (IH _ Hst1) as [IH1 IH2]. rewrite IH1. split; [reflexivity|exact IH2].
Qed.
(** ** SpeedSampler under a monotone clock *)





(** ** The controller: guards, error reports and content length *)

(** X10. A chunk that arrives while no consumer is bound makes
    [_onLoaderChunkArrival] throw an IllegalStateException before it
    changes anything; a chunk that arrives while the controller is
    paused is ignored altogether: it is neither dispatched, nor stashed,
    nor counted by the speed sampler. *)
Theorem X10_chunk_arrival_guards (now : Z) (chunk : list Byte.byte)
    (byteStart receivedLength : Z) (s : t) :
  (_onDataArrival s = None ->
   _onLoaderChunkArrival now chunk byteStart receivedLength s
   = Throw (IllegalStateException
              "IOController: No existing consumer (onDataArrival) callback!")
           s) /\
  (_onDataArrival s <> None -> _paused s = true ->
   _onLoaderChunkArrival now chunk byteStart receivedLength s = Ret tt s).
Proof.
  split.
  - intros Hc. unfold _onLoaderChunkArrival. monad_step. rewrite Hc.
    reflexivity.
  - intros Hc Hp. unfold _onLoaderChunkArrival. monad_step.
    destruct (_onDataArrival s) as [consumer|]; [|congruence].
    rewrite Hp. reflexivity.
Qed.

(** X11. [_onContentLengthKnown] records the total length only while
    the request in flight is the full one ([_fullRequestFlag], set by
    [open] without an offset) and only for a non-zero length; it then
    clears the flag, so that every later announcement, such as the
    content length of a request that starts at an offset, changes
    nothing. *)
Theorem X11_content_length_known (contentLength : Z) (s : t) :
  (_fullRequestFlag s = true -> contentLength <> 0 ->
   forall later,
     run (_onContentLengthKnown contentLength
          :: map _onContentLengthKnown later) s
     = Ret tt (set_fullRequestFlag false
                 (set_totalLength (Some contentLength) s))) /\
  (_fullRequestFlag s = false \/ contentLength = 0 ->
   _onContentLengthKnown contentLength s = Ret tt s).
Proof.
  split.
  - intros Hf Hn later.
    assert (H1 : _onContentLengthKnown contentLength s
                 = Ret tt (set_fullRequestFlag false
                             (set_totalLength (Some contentLength) s))).
    { unfold _onContentLengthKnown. monad_step. rewrite Hf.
      replace (contentLength =? 0) with false
        by (symmetry; apply Z.eqb_neq; exact Hn).
      reflexivity. }
    cbn [run]. unfold bind at 1. rewrite H1.
    induction later as [|n later IH]; [reflexivity|].
    cbn [map run]. unfold bind at 1.
    replace (_onContentLengthKnown n
               (set_fullRequestFlag false
                  (set_totalLength (Some contentLength) s)))
      with (Ret tt (set_fullRequestFlag false
                      (set_totalLength (Some contentLength) s))).
    + exact IH.
    + unfold _onContentLengthKnown. monad_step. record_simpl.
      rewrite andb_false_r. reflexivity.
  - intros Hcase. unfold _onContentLengthKnown. monad_step.
    destruct Hcase as [-> | ->]; [rewrite andb_false_r|]; reflexivity.
Qed.

Lemma X11_content_length_known_witness :
  exists s',
    run [open host_ok None; _onContentLengthKnown 1000;
         _onContentLengthKnown 400] default_controller = Ret tt s' /\
    _totalLength s' = Some 1000.
Proof.
  assert (Ho : exists s, open host_ok None default_controller = Ret tt s /\
                         _fullRequestFlag s = true)
    by (eexists; split; [vm_compute; reflexivity|reflexivity]).
  destruct Ho as (s & Ho & Hf).
  exists (set_fullRequestFlag false (set_totalLength (Some 1000) s)).
  split; [|reflexivity].
  cbn [run]. unfold bind at 1. rewrite Ho.
  exact (proj1 (X11_content_length_known 1000 s) Hf ltac:(discriminate)
               [400]).
Defined.
(** X12. [abort()] aborts the loader and cancels a pause: afterwards
    the controller is not paused, nothing is left to resume and
    [resume()] does nothing; the stash and the current range are not
    touched.  With a chunked-XHR, ranged or WebSocket loader the
    controller is then not working; a fetch loader only notes the abort
    request, so a controller whose fetch loader was working still
    reports [isWorking()]. *)
Theorem X12_abort_cancels_pause
    (WebSocket_ctor : string -> option ErrorInfo) (s : t) (l : Loader) :
  _loader s = Some l ->
  exists s',
    abort s = Ret tt s' /\
    s' = (let s1 := set_loader (Some (loader_abort l)) s in
          if _paused s then set_resumeFrom 0 (set_paused false s1) else s1) /\
    _paused s' = false /\
    (_paused s = true -> _resumeFrom s' = 0) /\
    resume WebSocket_ctor s' = Ret tt s' /\
    _stashUsed s' = _stashUsed s /\
    _stashByteStart s' = _stashByteStart s /\
    _currentRange s' = _currentRange s /\
    trace s' = trace s /\
    isWorking s' = match l with
                   | FetchStream _ => loader_isWorking l
                   | _ => false
                   end.
Proof.
  intros Hl.
  exists (let s1 := set_loader (Some (loader_abort l)) s in
          if _paused s then set_resumeFrom 0 (set_paused false s1) else s1).
  cbv zeta. split.
  - unfold abort. monad_step. rewrite Hl. record_simpl.
    destruct (_paused s); reflexivity.
  - split; [reflexivity|].
    destruct (_paused s) eqn:Hp; record_simpl.
    + split; [reflexivity|]. split; [reflexivity|].
      split; [unfold resume; monad_step; record_simpl; reflexivity|].
      repeat (split; [reflexivity|]).
      unfold isWorking. record_simpl. rewrite andb_true_r.
      destruct l; reflexivity.
    + split; [exact Hp|]. split; [discriminate|].
      split; [unfold resume; monad_step; record_simpl; rewrite Hp;
              reflexivity|].
      repeat (split; [reflexivity|]).
      unfold isWorking. record_simpl. rewrite Hp, andb_true_r.
      destruct l; reflexivity.
Qed.

Lemma X12_abort_cancels_pause_witness :
  exists s1 s2,
    pause controller_holding_ABC = Ret tt s1 /\ _paused s1 = true /\
    abort s1 = Ret tt s2 /\ _paused s2 = false /\
    resume host_ok s2 = Ret tt s2.
Proof.
  assert (Hp : exists s1 l, pause controller_holding_ABC = Ret tt s1 /\
                            _paused s1 = true /\ _loader s1 = Some l)
    by (do 2 eexists; split; [vm_compute; reflexivity|];
        split; reflexivity).
  destruct Hp as (s1 & l & Hp & Hpaused & Hl).
  destruct (X12_abort_cancels_pause host_ok s1 l Hl)
    as (s2 & Ha & _ & Hp2 & _ & Hr & _).
  exists s1, s2. repeat split; assumption.
Defined.






(** X14. A loader error of any kind but [EarlyEof] is logged, the stash
    is flushed without dropping unconsumed bytes, and the error is
    reported once through [onError], or thrown as an IOException when no
    handler is bound, under its own kind, or as [UnrecoverableEarlyEof]
    when it interrupts an early-EOF reconnection, whose flag it clears.
    The controller never reconnects on such an error: the loader and
    the current range are those the flush left. *)
Theorem X14_other_loader_errors
    (WebSocket_ctor : string -> option ErrorInfo) (type : LoaderErrors)
    (data : ErrorInfo) (s : t) (z : Z) (s1 : t) :
  type <> EARLY_EOF ->
  _flushStashBuffer false (error_logged data s) = Ret z s1 ->
  let reported :=
    if _isEarlyEofReconnecting s then UNRECOVERABLE_EARLY_EOF else type in
  (_onError s = true ->
   exists s',
     _onLoaderError WebSocket_ctor type data s = Ret tt s' /\
     trace s' = trace s1 ++ [ev_onError reported data] /\
     _isEarlyEofReconnecting s' = false /\
     _loader s' = _loader s /\
     _currentRange s' = _currentRange s1 /\
     _stashUsed s' = _stashUsed s1 /\
     _stashByteStart s' = _stashByteStart s1) /\
  (_onError s = false ->
   exists s',
     _onLoaderError WebSocket_ctor type data s
     = Throw (RuntimeException ("IOException: " ++ msg data)) s' /\
     trace s' = trace s1 /\ _loader s' = _loader s).
Proof.
  intros Htype Hf reported.
  pose proof (flush_frame _ _ _ Hf) as Hfr. cbv beta iota in Hfr.
  destruct Hfr as (_ & _ & _ & _ & _ & Hl1 & _ & _ & _ & _ & _ & _ & Hr1
                   & _ & _ & _ & _ & He1 & _).
  unfold error_logged in Hl1, Hr1, He1. record_simpl_in Hl1.
  record_simpl_in Hr1. record_simpl_in He1.
  assert (Heq : _onLoaderError WebSocket_ctor type data s
                = report_error reported data
                    (if _isEarlyEofReconnecting s
                     then set_isEarlyEofReconnecting false s1 else s1)).
  { rewrite onLoaderError_eq, onLoaderError_with_eq, Hf, Hr1.
    unfold reported.
    destruct (_isEarlyEofReconnecting s); [reflexivity|].
    destruct type; try reflexivity. congruence. }
  split; intros Hbound; rewrite Heq; unfold report_error.
  - destruct (_isEarlyEofReconnecting s) eqn:Er; record_simpl;
      rewrite He1, Hbound; eexists; (split; [reflexivity|]); record_simpl;
      rewrite ?Hr1, ?Er; repeat split; auto.
  - destruct (_isEarlyEofReconnecting s) eqn:Er; record_simpl;
      rewrite He1, Hbound; eexists; (split; [reflexivity|]); record_simpl;
      split; auto.
Qed.

Lemma X14_other_loader_errors_witness :
  exists s',
    _onLoaderError host_ok HTTP_STATUS_CODE_INVALID (mkInfo 404 "Not Found")
                   controller_past_filesize = Ret tt s' /\
    trace s'
    = trace controller_past_filesize
      ++ [ev_Log_e (msg_loader_error 404 "Not Found");
          ev_onError HTTP_STATUS_CODE_INVALID (mkInfo 404 "Not Found")].
Proof.
  set (data := mkInfo 404 "Not Found").
  assert (Hu : _stashUsed (error_logged data controller_past_filesize) <= 0)
    by (vm_compute; discriminate).
  pose proof (flush_empty false _ Hu) as Hf.
  assert (Hb : _onError controller_past_filesize = true)
    by (vm_compute; reflexivity).
  assert (Hr : _isEarlyEofReconnecting controller_past_filesize = false)
    by (vm_compute; reflexivity).
  destruct (proj1 (X14_other_loader_errors host_ok HTTP_STATUS_CODE_INVALID
                     data controller_past_filesize 0 _
                     ltac:(discriminate) Hf) Hb)
    as (s' & Hs & Ht & _).
  exists s'. split; [exact Hs|]. rewrite Ht, Hr.
  unfold error_logged. record_simpl. rewrite <- app_assoc. reflexivity.
Defined.
(** ** Flushing the stash *)

Lemma map_nth_seq_all {A} (l : list A) (d : A) :
  map (fun k => nth k l d) (seq 0 (List.length l)) = l.
Proof.
  induction l as [|x l IH]; [reflexivity|].
  cbn [List.length seq map nth]. f_equal.
  rewrite <- seq_shift, map_map. exact IH.
Qed.

Lemma map_nth_seq_skipn {A} (c : nat) :
  forall (l : list A) (d : A),
    map (fun k => nth (c + k) l d) (seq 0 (List.length l - c)) = skipn c l.
Proof.
  induction c as [|c IH]; intros l d.
  - rewrite Nat.sub_0_r. cbn [Nat.add skipn]. apply map_nth_seq_all.
  - destruct l as [|x l]; [reflexivity|].
    cbn [List.length Nat.sub skipn]. rewrite <- (IH l d).
    apply map_ext. intros k. reflexivity.
Qed.

(** The bytes of a list read back through a view that starts at
    [offset]. *)
Lemma slice_of_suffix (buffer : list Byte.byte) (offset : Z)
    (old : ArrayBuffer) :
  0 <= offset <= byteLength buffer ->
  byteLength buffer - offset <= ab_byteLength old ->
  ArrayBuffer_slice
    (mkBuffer (ab_byteLength old)
       (fun i => if (0 <=? i) && (i <? 0 + (byteLength buffer - offset))
                 then nth (Z.to_nat (offset + (i - 0))) buffer Byte.x00
                 else ab_cell old i))
    0 (byteLength buffer - offset)
  = skipn (Z.to_nat offset) buffer.
Proof.
  intros Ho Hfit. unfold ArrayBuffer_slice, slice_index.
  cbn [ab_byteLength ab_cell].
  replace (0 <? 0) with false by reflexivity.
  replace (byteLength buffer - offset <? 0) with false
    by (symmetry; apply Z.ltb_ge; lia).
  rewrite Z.min_l by lia. rewrite Z.min_l by lia.
  rewrite Z.sub_0_r, Z.max_l by lia.
  replace (Z.to_nat (byteLength buffer - offset))
    with (List.length buffer - Z.to_nat offset)%nat
    by (unfold byteLength in *; lia).
  rewrite <- (map_nth_seq_skipn (Z.to_nat offset) buffer Byte.x00).
  apply map_ext_in. intros k Hk. apply in_seq in Hk.
  replace ((0 <=? 0 + Z.of_nat k)
           && (0 + Z.of_nat k <? 0 + (byteLength buffer - offset)))
    with true
    by (symmetry; apply andb_true_iff; split;
        [apply Z.leb_le|apply Z.ltb_lt]; unfold byteLength in *; lia).
  f_equal. lia.
Qed.
(** X16. [_flushStashBuffer] on a non-empty stash offers all stashed
    bytes to the consumer in one dispatch at [_stashByteStart].  If the
    consumer takes all of them the stash is emptied.  If it takes only
    some: with [dropUnconsumed] the rest is discarded with a warning and
    the number of discarded bytes is returned; without it the rest stays
    in the stash, moved to its front, and [_stashByteStart] advances by
    what was consumed (when nothing is consumed the stash stays as it
    is), and 0 is returned. *)
Theorem X16_flush_stash (dropUnconsumed : bool) (s : t)
    (consumer : Consumer) (r : Range) :
  _onDataArrival s = Some consumer -> _currentRange s = Some r ->
  0 < _stashUsed s <= _bufferSize s ->
  _bufferSize s <= ab_byteLength (_stashBuffer s) ->
  let buffer := ArrayBuffer_slice (_stashBuffer s) 0 (_stashUsed s) in
  let consumed := consumer (trace s) buffer (_stashByteStart s) in
  let dispatch := ev_onDataArrival buffer (_stashByteStart s) consumed in
  byteLength buffer = _stashUsed s /\
  exists remain s',
    _flushStashBuffer dropUnconsumed s = Ret remain s' /\
    _currentRange s'
    = Some (mkRange (from r) (_stashByteStart s + _stashUsed s - 1)) /\
    (_stashUsed s <= consumed ->
     remain = _stashUsed s - consumed /\
     trace s' = trace s ++ [dispatch] /\
     _stashUsed s' = 0 /\ _stashByteStart s' = 0) /\
    (consumed < _stashUsed s -> dropUnconsumed = true ->
     remain = _stashUsed s - consumed /\
     trace s' = trace s ++ [dispatch;
                            ev_Log_w (msg_unconsumed_dropped remain)] /\
     _stashUsed s' = 0 /\ _stashByteStart s' = 0) /\
    (0 < consumed < _stashUsed s -> dropUnconsumed = false ->
     remain = 0 /\
     trace s' = trace s ++ [dispatch] /\
     _stashUsed s' = _stashUsed s - consumed /\
     _stashByteStart s' = _stashByteStart s + consumed /\
     ArrayBuffer_slice (_stashBuffer s') 0 (_stashUsed s')
     = skipn (Z.to_nat consumed) buffer) /\
    (consumed <= 0 -> dropUnconsumed = false ->
     remain = 0 /\
     trace s' = trace s ++ [dispatch] /\
     _stashUsed s' = _stashUsed s /\
     _stashByteStart s' = _stashByteStart s /\
     _stashBuffer s' = _stashBuffer s).
Proof.
  intros Hc Hcr Hu Hbuf buffer consumed dispatch.
  assert (Hlen : byteLength buffer = _stashUsed s)
    by (apply slice_prefix_length; lia).
  split; [exact Hlen|].
  unfold _flushStashBuffer, stash_slice. monad_step.
  replace (_stashUsed s >? 0) with true
    by (symmetry; rewrite Z.gtb_ltb; apply Z.ltb_lt; lia).
  rewrite dispatchChunks_eq, Hcr, Hc. cbv zeta. sym_step.
  fold buffer. fold consumed. fold dispatch. rewrite Hlen.
  destruct (consumed <? _stashUsed s) eqn:Elt;
    [apply Z.ltb_lt in Elt|apply Z.ltb_ge in Elt].
  - destruct dropUnconsumed.
    + sym_step. do 2 eexists. split; [reflexivity|]. record_simpl.
      split; [reflexivity|].
      split; [lia|]. split; [intros _ _; rewrite <- app_assoc; auto|].
      split; intros ? [=].
    + destruct (consumed >? 0) eqn:Egt; rewrite Z.gtb_ltb in Egt;
        [apply Z.ltb_lt in Egt|apply Z.ltb_ge in Egt].
      * sym_step. unfold stashArray_new, Uint8Array_new. sym_step.
        replace ((0 <? 0) || (0 >? ab_byteLength (_stashBuffer s)))
          with false
          by (symmetry; apply orb_false_iff; split;
              [reflexivity|rewrite Z.gtb_ltb; apply Z.ltb_ge; lia]).
        replace ((_bufferSize s <? 0)
                 || (0 + _bufferSize s >? ab_byteLength (_stashBuffer s)))
          with false
          by (symmetry; apply orb_false_iff; split;
              [apply Z.ltb_ge; lia|rewrite Z.gtb_ltb; apply Z.ltb_ge; lia]).
        sym_step. cbn [ab_byteLength ab_cell ArrayBuffer_of_list].
        rewrite Hlen.
        replace ((consumed <? 0) || (consumed >? _stashUsed s)) with false
          by (symmetry; apply orb_false_iff; split;
              [apply Z.ltb_ge; lia|rewrite Z.gtb_ltb; apply Z.ltb_ge; lia]).
        sym_step. unfold stashArray_set, Uint8Array_set.
        cbn [u8_length u8_get]. sym_step.
        replace ((0 <? 0)
                 || (0 + (_stashUsed s - consumed) >? _bufferSize s))
          with false
          by (symmetry; apply orb_false_iff; split;
              [reflexivity|rewrite Z.gtb_ltb; apply Z.ltb_ge; lia]).
        sym_step. do 2 eexists. split; [reflexivity|]. record_simpl.
        split; [reflexivity|].
        split; [lia|]. split; [intros _ [=]|].
        split; [|lia].
        intros _ _. repeat (split; [reflexivity|]).
        rewrite <- Hlen. apply slice_of_suffix; lia.
      * sym_step. do 2 eexists. split; [reflexivity|]. record_simpl.
        split; [reflexivity|].
        split; [lia|]. split; [intros _ [=]|].
        split; [lia|]. intros _ _. repeat split.
  - sym_step. do 2 eexists. split; [reflexivity|]. record_simpl.
    split; [reflexivity|].
    split; [intros _; repeat split|].
    split; [lia|]. split; lia.
Qed.

Lemma X16_flush_stash_witness :
  let s := set_onDataArrival (Some (consumer_accepting 2))
                             controller_holding_ABC in
  exists s',
    _flushStashBuffer false s = Ret 0 s' /\
    _stashUsed s' = 1 /\ _stashByteStart s' = 2 /\
    ArrayBuffer_slice (_stashBuffer s') 0 (_stashUsed s') = [Byte.x43].
Proof.
  intros s.
  assert (Hr : _currentRange s = Some (mkRange 0 2))
    by (vm_compute; reflexivity).
  assert (Hu : _stashUsed s = 3) by (vm_compute; reflexivity).
  assert (Hb : _bufferSize s = 3145728) by (vm_compute; reflexivity).
  assert (Hl : ab_byteLength (_stashBuffer s) = 3145728)
    by (vm_compute; reflexivity).
  assert (Hs : _stashByteStart s = 0) by (vm_compute; reflexivity).
  assert (Hbuf : ArrayBuffer_slice (_stashBuffer s) 0 (_stashUsed s)
                 = [Byte.x41; Byte.x42; Byte.x43])
    by (vm_compute; reflexivity).
  destruct (X16_flush_stash false s (consumer_accepting 2) (mkRange 0 2)
              eq_refl Hr ltac:(lia) ltac:(lia))
    as (_ & remain & s' & Hf & _ & _ & _ & H3 & _).
  change (consumer_accepting 2 (trace s)
            (ArrayBuffer_slice (_stashBuffer s) 0 (_stashUsed s))
            (_stashByteStart s)) with 2 in H3.
  destruct (H3 ltac:(lia) eq_refl) as (Hrem & _ & Hu' & Hb' & Hslice).
  exists s'. subst remain. split; [exact Hf|].
  rewrite Hslice, Hbuf, Hu', Hb', Hu, Hs. repeat split.
Defined.
(** ** Chunk arrival, part by part *)

Lemma chunk_arrival_parts (now : Z) (chunk : list Byte.byte)
    (byteStart receivedLength : Z) (s : t) (consumer : Consumer) :
  _onDataArrival s = Some consumer -> _paused s = false ->
  _onLoaderChunkArrival now chunk byteStart receivedLength s
  = (arrival_prefix now chunk ;;
     enableStash <- gets _enableStash ;;
     if negb enableStash then arrival_without_stash chunk byteStart
     else arrival_with_stash chunk byteStart) s.
Proof.
  intros Hc Hp.
  unfold _onLoaderChunkArrival, arrival_prefix, arrival_without_stash,
    arrival_with_stash.
  monad_step. rewrite Hc, Hp.
  destruct (_isEarlyEofReconnecting s);
    [destruct (_onRecoveredEarlyEof (set_isEarlyEofReconnecting false s))|];
    cbv beta iota;
    (destruct (SpeedSampler.lastSecondKBps now _) as [KBps sampler]);
    cbv beta iota;
    (destruct (negb (Qeq_bool KBps 0)); [|reflexivity]);
    (destruct (_normalizeSpeed KBps) as [v|]; [|reflexivity]);
    cbv beta iota;
    (destruct (negb (_ =? v)); [|reflexivity]);
    cbv beta iota;
    (destruct (_adjustStashSize v _)); reflexivity.
Qed.

Lemma set_buffer_same (s : t) :
  set_bufferSize (ab_byteLength (_stashBuffer s))
                 (set_stashBuffer (_stashBuffer s) s)
  = set_bufferSize (ab_byteLength (_stashBuffer s)) s.
Proof. destruct s; reflexivity. Qed.

Lemma set_bufferSize_same (s : t) : set_bufferSize (_bufferSize s) s = s.
Proof. destruct s; reflexivity. Qed.

Lemma buffer_grown_refl (s : t) :
  _bufferSize s = ab_byteLength (_stashBuffer s) -> buffer_grown s s.
Proof.
  intros Hb. exists (_stashBuffer s).
  rewrite set_buffer_same, <- Hb, set_bufferSize_same.
  split; [reflexivity|]. split; [lia|]. reflexivity.
Qed.

(** [_expandBuffer] asked for more than the buffer holds. *)
Lemma expand_grows (expectedBytes : Z) (s : t) :
  stash_ok s -> _bufferSize s < expectedBytes ->
  exists s',
    _expandBuffer expectedBytes s = Ret tt s' /\
    buffer_grown s s' /\ expectedBytes <= _bufferSize s'.
Proof.
  intros (Hsize & Hused & Hlen) Hmore.
  destruct (expandBuffer_correct s expectedBytes Hsize ltac:(lia))
    as (k & Hk & _ & Hge & _ & Hnew & _).
  destruct Hnew as (newBuffer & Heq & Hnl & Hcells); [lia|lia|].
  eexists. split; [exact Heq|]. split.
  - exists newBuffer. rewrite Hnl. split; [reflexivity|]. split; [lia|].
    exact Hcells.
  - record_simpl. exact Hge.
Qed.

(** [if (expectedBytes > this._bufferSize) this._expandBuffer(...)] *)
Lemma ensure_capacity (expectedBytes : Z) (s : t) :
  stash_ok s ->
  exists s',
    when (expectedBytes >? _bufferSize s) (_expandBuffer expectedBytes) s
    = Ret tt s' /\
    buffer_grown s s' /\ expectedBytes <= _bufferSize s'.
Proof.
  intros Hok. unfold when.
  destruct (expectedBytes >? _bufferSize s) eqn:E; rewrite Z.gtb_ltb in E.
  - apply Z.ltb_lt in E. apply expand_grows; assumption.
  - apply Z.ltb_ge in E. exists s. split; [reflexivity|].
    split; [|exact E]. apply buffer_grown_refl. apply Hok.
Qed.

Lemma buffer_grown_fields (s s' : t) :
  buffer_grown s s' ->
  _onDataArrival s' = _onDataArrival s /\
  _enableStash s' = _enableStash s /\
  _paused s' = _paused s /\
  _currentRange s' = _currentRange s /\
  _stashUsed s' = _stashUsed s /\
  _stashByteStart s' = _stashByteStart s /\
  _loader s' = _loader s /\
  _isEarlyEofReconnecting s' = _isEarlyEofReconnecting s /\
  trace s' = trace s /\
  _stashSize s' = _stashSize s /\
  _bufferSize s' = ab_byteLength (_stashBuffer s') /\
  _bufferSize s <= _bufferSize s' /\
  (forall i, 0 <= i < _stashUsed s ->
             ab_cell (_stashBuffer s') i = ab_cell (_stashBuffer s) i).
Proof.
  intros (buffer & -> & Hle & Hcells). record_simpl.
  repeat split; try reflexivity; assumption.
Qed.

Lemma slice_ext (b b' : ArrayBuffer) (n : Z) :
  0 <= n -> n <= ab_byteLength b -> n <= ab_byteLength b' ->
  (forall i, 0 <= i < n -> ab_cell b' i = ab_cell b i) ->
  ArrayBuffer_slice b' 0 n = ArrayBuffer_slice b 0 n.
Proof.
  intros Hn Hb Hb' Hcells. unfold ArrayBuffer_slice, slice_index.
  replace (0 <? 0) with false by reflexivity.
  replace (n <? 0) with false by (symmetry; apply Z.ltb_ge; exact Hn).
  rewrite !(Z.min_l n) by lia.
  rewrite !(Z.min_l 0) by lia. rewrite Z.sub_0_r.
  apply map_ext_in. intros k Hk. apply in_seq in Hk.
  apply Hcells. lia.
Qed.

Lemma adjust_grows (normalized : Z) (s : t) :
  stash_ok s ->
  exists s1,
    buffer_grown s s1 /\
    _adjustStashSize normalized s
    = Ret tt (set_stashSize
                (stashSizeKB_for (isLive (_config s)) normalized * 1024) s1)
    /\
    stashSizeKB_for (isLive (_config s)) normalized * 1024 <= _bufferSize s1.
Proof.
  intros Hok. unfold _adjustStashSize. monad_step.
  destruct (_bufferSize s
            <? stashSizeKB_for (isLive (_config s)) normalized * 1024
               + 1024 * 1024 * 1) eqn:E.
  - apply Z.ltb_lt in E.
    destruct (expand_grows _ s Hok E) as (s1 & Heq & Hg & Hge).
    exists s1. split; [exact Hg|]. rewrite Heq.
    split; [reflexivity|lia].
  - apply Z.ltb_ge in E. exists s.
    split; [apply buffer_grown_refl; apply Hok|]. split; [reflexivity|lia].
Qed.

Lemma stashSizeKB_positive (live : bool) (v : Z) :
  In v _speedNormalizeList -> 0 < stashSizeKB_for live v.
Proof.
  unfold _speedNormalizeList. cbn [In].
  intros H.
  repeat (destruct H as [<- | H]; [destruct live; reflexivity|]).
  contradiction.
Qed.

Lemma stashSizeKB_at_least (live : bool) (v : Z) :
  In v _speedNormalizeList -> 64 <= stashSizeKB_for live v.
Proof.
  unfold _speedNormalizeList. cbn [In].
  intros H.
  repeat (destruct H as [<- | H];
          [destruct live; vm_compute; discriminate|]).
  contradiction.
Qed.

Lemma stash_bytes_grown (s s' : t) :
  0 <= _stashUsed s <= _bufferSize s ->
  _bufferSize s = ab_byteLength (_stashBuffer s) ->
  buffer_grown s s' -> stash_bytes s' = stash_bytes s.
Proof.
  intros Hu Hb Hg.
  destruct (buffer_grown_fields s s' Hg)
    as (_ & _ & _ & _ & Hu' & _ & _ & _ & _ & _ & Hb' & Hle & Hcells).
  unfold stash_bytes. rewrite Hu'. apply slice_ext; try lia. exact Hcells.
Qed.

Lemma set_speedSampler_twice (a b : SpeedSampler.t) (s : t) :
  set_speedSampler a (set_speedSampler b s) = set_speedSampler a s.
Proof. reflexivity. Qed.

Lemma set_trace_id (s : t) (tr : list Event) :
  tr = trace s -> set_trace tr s = s.
Proof. intros ->. destruct s; reflexivity. Qed.

Lemma set_reconnecting_id (s : t) :
  _isEarlyEofReconnecting s = false -> set_isEarlyEofReconnecting false s = s.
Proof. destruct s; cbn; intros ->; reflexivity. Qed.

(** The first part of a chunk arrival up to the reading of the sampler:
    the recovery notice, the sample, and then the adjustment if the
    reading is not zero. *)
Lemma arrival_prefix_sampled (now : Z) (chunk : list Byte.byte) (s : t) :
  let notice := if _isEarlyEofReconnecting s && _onRecoveredEarlyEof s
                then [ev_onRecoveredEarlyEof] else [] in
  let sampled := SpeedSampler.lastSecondKBps now
                   (SpeedSampler.addBytes now (byteLength chunk)
                                          (_speedSampler s)) in
  let s1 := set_speedSampler (snd sampled)
              (set_trace (trace s ++ notice)
                 (set_isEarlyEofReconnecting false s)) in
  arrival_prefix now chunk s
  = when (negb (Qeq_bool (fst sampled) 0))
      (match _normalizeSpeed (fst sampled) with
       | Some normalized =>
         current <- gets _speedNormalized ;;
         when (negb (current =? normalized))
           (modify (set_speedNormalized normalized) ;;
            _adjustStashSize normalized)
       | None => ret tt
       end) s1.
Proof.
  intros notice sampled s1.
  unfold arrival_prefix, s1, notice, sampled. monad_step.
  destruct (_isEarlyEofReconnecting s) eqn:Er;
    [destruct (_onRecoveredEarlyEof s) eqn:Ec|];
    record_simpl; rewrite ?Ec; cbv beta iota; record_simpl;
    cbn [andb]; rewrite ?app_nil_r;
    destruct (SpeedSampler.lastSecondKBps now _) as [KBps sampler];
    cbn [fst snd]; cbv beta iota; record_simpl;
    rewrite set_speedSampler_twice.
  - reflexivity.
  - rewrite (set_trace_id (set_isEarlyEofReconnecting false s) (trace s)
                          eq_refl).
    reflexivity.
  - rewrite (set_reconnecting_id s Er), (set_trace_id s (trace s) eq_refl).
    reflexivity.
Qed.

(** The first part of a chunk arrival on a well-formed stash. *)
Lemma arrival_prefix_ok (now : Z) (chunk : list Byte.byte) (s : t) :
  stash_ok s ->
  exists s', arrival_prefix now chunk s = Ret tt s' /\
             arrival_prefix_post s s'.
Proof.
  intros Hok.
  (* the state after the recovery notice and the sampling *)
  set (notice := if _isEarlyEofReconnecting s && _onRecoveredEarlyEof s
                 then [ev_onRecoveredEarlyEof] else []).
  set (sampled := SpeedSampler.lastSecondKBps now
                    (SpeedSampler.addBytes now (byteLength chunk)
                                           (_speedSampler s))).
  set (s1 := set_speedSampler (snd sampled)
               (set_trace (trace s ++ notice)
                  (set_isEarlyEofReconnecting false s))).
  pose proof (arrival_prefix_sampled now chunk s) as Hstep.
  cbv zeta in Hstep. fold notice sampled s1 in Hstep.
  rewrite Hstep. clear Hstep.
  assert (Hok1 : stash_ok s1) by exact Hok.
  assert (Hbase : arrival_prefix_post s s1).
  { unfold arrival_prefix_post, s1. record_simpl.
    repeat (split; [reflexivity|]).
    split; [exact Hok|]. split; [lia|]. split; [reflexivity|].
    split; [intros H; exact H|left; reflexivity]. }
  unfold when.
  destruct (negb (Qeq_bool (fst sampled) 0)); [|exists s1; split; auto].
  destruct (normalizeSpeed_total (fst sampled)) as (v & Hv & Hin).
  rewrite Hv. monad_step.
  destruct (negb (_speedNormalized s1 =? v)); [|exists s1; split; auto].
  record_simpl.
  set (s2 := set_speedNormalized v s1).
  assert (Hok2 : stash_ok s2) by exact Hok.
  destruct (adjust_grows v s2 Hok2) as (s3 & Hg & Heq & Hwin).
  rewrite Heq. eexists. split; [reflexivity|].
  destruct (buffer_grown_fields s2 s3 Hg)
    as (H1 & H2 & H3 & H4 & H5 & H6 & H7 & H8 & H9 & H10 & H11 & H12 & H13).
  pose proof (stash_bytes_grown s2 s3 ltac:(apply Hok2) ltac:(apply Hok2) Hg)
    as Hbytes.
  destruct Hok as (Hsz & Hu & Hb).
  unfold arrival_prefix_post. unfold stash_bytes in *. record_simpl.
  rewrite H1, H2, H3, H4, H5, H6, H7, H8, H9.
  unfold s2, s1. record_simpl.
  repeat (split; [reflexivity|]).
  split; [|split; [|split; [|split]]].
  - unfold stash_ok. record_simpl. rewrite H5, <- H11.
    unfold s2, s1 in *. record_simpl_in H12. record_simpl.
    split; [|split; [lia|reflexivity]].
    pose proof (stashSizeKB_positive (isLive (_config s)) v Hin). 
    change (isLive (_config (set_speedNormalized v
              (set_speedSampler (snd sampled)
                 (set_trace (trace s ++ notice)
                    (set_isEarlyEofReconnecting false s))))))
      with (isLive (_config s)).
    lia.
  - unfold s2, s1 in H12. record_simpl_in H12. exact H12.
  - rewrite H5 in Hbytes. unfold s2, s1 in Hbytes.
    record_simpl_in Hbytes. exact Hbytes.
  - intros _. exact Hwin.
  - right.
    pose proof (stashSizeKB_at_least (isLive (_config s)) v Hin).
    change (isLive (_config s2)) with (isLive (_config s)). lia.
Qed.

(** *** Typed-array operations that succeed *)

Lemma stashArray_new_ok (n : Z) (s : t) :
  0 <= n <= ab_byteLength (_stashBuffer s) -> stashArray_new n s = Ret n s.
Proof.
  intros Hn. unfold stashArray_new, Uint8Array_new.
  replace ((0 <? 0) || (0 >? ab_byteLength (_stashBuffer s))) with false
    by (symmetry; apply orb_false_iff; split;
        [reflexivity|rewrite Z.gtb_ltb; apply Z.ltb_ge; lia]).
  replace ((n <? 0) || (0 + n >? ab_byteLength (_stashBuffer s))) with false
    by (symmetry; apply orb_false_iff; split;
        [apply Z.ltb_ge; lia|rewrite Z.gtb_ltb; apply Z.ltb_ge; lia]).
  reflexivity.
Qed.

Lemma Uint8Array_of_chunk_ok (chunk : list Byte.byte) (offset : Z) (s : t) :
  0 <= offset <= byteLength chunk ->
  Uint8Array_of_chunk chunk offset s
  = Ret (mkU8 (byteLength chunk - offset)
              (fun i => nth (Z.to_nat (offset + i)) chunk Byte.x00)) s.
Proof.
  intros Ho. unfold Uint8Array_of_chunk, in_range, Uint8Array_new.
  cbn [ab_byteLength ab_cell ArrayBuffer_of_list].
  replace ((offset <? 0) || (offset >? byteLength chunk)) with false
    by (symmetry; apply orb_false_iff; split;
        [apply Z.ltb_ge; lia|rewrite Z.gtb_ltb; apply Z.ltb_ge; lia]).
  reflexivity.
Qed.

Lemma Uint8Array_of_stash_ok (offset : Z) (s : t) :
  0 <= offset <= ab_byteLength (_stashBuffer s) ->
  Uint8Array_of_stash offset s
  = Ret (mkU8 (ab_byteLength (_stashBuffer s) - offset)
              (fun i => ab_cell (_stashBuffer s) (offset + i))) s.
Proof.
  intros Ho. unfold Uint8Array_of_stash, in_range, Uint8Array_new.
  replace ((offset <? 0) || (offset >? ab_byteLength (_stashBuffer s)))
    with false
    by (symmetry; apply orb_false_iff; split;
        [apply Z.ltb_ge; lia|rewrite Z.gtb_ltb; apply Z.ltb_ge; lia]).
  reflexivity.
Qed.

Lemma stashArray_set_ok (target : Z) (source : Uint8Array) (offset : Z)
    (s : t) :
  0 <= offset -> offset + u8_length source <= target ->
  stashArray_set target source offset s
  = Ret tt
      (set_stashBuffer
         (mkBuffer (ab_byteLength (_stashBuffer s))
            (fun i => if (offset <=? i) && (i <? offset + u8_length source)
                      then u8_get source (i - offset)
                      else ab_cell (_stashBuffer s) i)) s).
Proof.
  intros Ho Hfit. unfold stashArray_set, Uint8Array_set.
  replace ((offset <? 0) || (offset + u8_length source >? target)) with false
    by (symmetry; apply orb_false_iff; split;
        [apply Z.ltb_ge; lia|rewrite Z.gtb_ltb; apply Z.ltb_ge; lia]).
  reflexivity.
Qed.

(** *** Slices as lists of cells *)

Lemma slice_as_map (b : ArrayBuffer) (n : Z) :
  0 <= n <= ab_byteLength b ->
  ArrayBuffer_slice b 0 n
  = map (fun k => ab_cell b (Z.of_nat k)) (seq 0 (Z.to_nat n)).
Proof.
  intros Hn. unfold ArrayBuffer_slice, slice_index.
  replace (0 <? 0) with false by reflexivity.
  replace (n <? 0) with false by (symmetry; apply Z.ltb_ge; lia).
  rewrite (Z.min_l n), (Z.min_l 0), Z.sub_0_r, Z.max_l by lia.
  apply map_ext. intros k. reflexivity.
Qed.

Lemma slice_length (b : ArrayBuffer) (n : Z) :
  0 <= n <= ab_byteLength b -> byteLength (ArrayBuffer_slice b 0 n) = n.
Proof.
  intros Hn. rewrite slice_as_map by exact Hn.
  unfold byteLength. rewrite length_map, length_seq. lia.
Qed.

Lemma map_seq_shift {A} (f : nat -> A) (c n : nat) :
  map f (seq c n) = map (fun k => f (c + k)%nat) (seq 0 n).
Proof.
  revert f c. induction n as [|n IH]; intros f c; [reflexivity|].
  cbn [seq map]. rewrite Nat.add_0_r. f_equal.
  rewrite (IH f (S c)), (IH (fun k => f (c + k)%nat) 1%nat).
  apply map_ext. intros k. f_equal. lia.
Qed.

Lemma skipn_map_seq {A} (f : nat -> A) (c n : nat) :
  skipn c (map f (seq 0 n)) = map (fun k => f (c + k)%nat) (seq 0 (n - c)).
Proof.
  revert f n. induction c as [|c IH]; intros f n.
  - rewrite Nat.sub_0_r. reflexivity.
  - destruct n as [|n]; [reflexivity|].
    cbn [seq map skipn Nat.sub]. rewrite (map_seq_shift f 1 n).
    rewrite IH. apply map_ext. intros k. reflexivity.
Qed.

(** Appending: cells below [used] kept, the chunk written at [used]. *)
Lemma slice_appended (old b : ArrayBuffer) (used : Z)
    (chunk : list Byte.byte) :
  0 <= used <= ab_byteLength old ->
  used + byteLength chunk <= ab_byteLength b ->
  (forall i, 0 <= i < used -> ab_cell b i = ab_cell old i) ->
  (forall i, used <= i < used + byteLength chunk ->
             ab_cell b i = nth (Z.to_nat (i - used)) chunk Byte.x00) ->
  ArrayBuffer_slice b 0 (used + byteLength chunk)
  = ArrayBuffer_slice old 0 used ++ chunk.
Proof.
  intros Hu Hfit Hlow Hhigh.
  assert (Hlen : 0 <= byteLength chunk) by (unfold byteLength; lia).
  rewrite !slice_as_map by lia.
  replace (Z.to_nat (used + byteLength chunk))
    with (Z.to_nat used + List.length chunk)%nat
    by (unfold byteLength; lia).
  rewrite seq_app, map_app. f_equal.
  - apply map_ext_in. intros k Hk. apply in_seq in Hk. apply Hlow. lia.
  - cbn [Nat.add]. rewrite map_seq_shift.
    rewrite <- (map_nth_seq_all chunk Byte.x00) at 2.
    apply map_ext_in. intros k Hk. apply in_seq in Hk.
    rewrite Hhigh by (unfold byteLength; lia). f_equal. lia.
Qed.

(** Moving the rest to the front: the new cells are the old ones
    [consumed] further on. *)
Lemma slice_moved (old b : ArrayBuffer) (n consumed : Z) :
  0 <= consumed <= n -> n <= ab_byteLength old ->
  n - consumed <= ab_byteLength b ->
  (forall i, 0 <= i < n - consumed ->
             ab_cell b i = ab_cell old (consumed + i)) ->
  ArrayBuffer_slice b 0 (n - consumed)
  = skipn (Z.to_nat consumed) (ArrayBuffer_slice old 0 n).
Proof.
  intros Hc Hn Hb Hcells.
  rewrite !slice_as_map by lia. rewrite skipn_map_seq.
  replace (Z.to_nat n - Z.to_nat consumed)%nat with (Z.to_nat (n - consumed))
    by lia.
  apply map_ext_in. intros k Hk. apply in_seq in Hk.
  rewrite Hcells by lia. f_equal. lia.
Qed.

(** *** Running a method step by step *)

Lemma bind_ok {A B} (m : M A) (k : A -> M B) (s : t) (a : A) (s' : t) :
  m s = Ret a s' -> bind m k s = k a s'.
Proof. intros H. unfold bind. rewrite H. reflexivity. Qed.

Lemma gets_ok {A} (f : t -> A) (s : t) : gets f s = Ret (f s) s.
Proof. reflexivity. Qed.

Lemma modify_ok (f : t -> t) (s : t) : modify f s = Ret tt (f s).
Proof. reflexivity. Qed.

Ltac step_gets := rewrite (bind_ok (gets _) _ _ _ _ (gets_ok _ _)); cbv beta.
Ltac step_modify :=
  rewrite (bind_ok (modify _) _ _ _ _ (modify_ok _ _)); cbv beta.
Ltac step_with H := rewrite (bind_ok _ _ _ _ _ H); cbv beta.

Lemma dispatch_ok (chunks : list Byte.byte) (byteStart : Z) (s : t)
    (consumer : Consumer) (r : Range) :
  _onDataArrival s = Some consumer -> _currentRange s = Some r ->
  _dispatchChunks chunks byteStart s
  = Ret (consumer (trace s) chunks byteStart)
        (set_trace (trace s ++ [ev_onDataArrival chunks byteStart
                                  (consumer (trace s) chunks byteStart)])
           (set_currentRange
              (Some (mkRange (from r) (byteStart + byteLength chunks - 1)))
              s)).
Proof. intros Hc Hr. rewrite dispatchChunks_eq, Hr, Hc. reflexivity. Qed.

Lemma stash_bytes_empty (s : t) :
  _stashUsed s = 0 -> 0 <= ab_byteLength (_stashBuffer s) ->
  stash_bytes s = [].
Proof.
  intros Hu Hb. unfold stash_bytes. rewrite Hu, slice_as_map by lia.
  reflexivity.
Qed.

(** A chunk arrives at a disabled stash that is empty. *)
Lemma arrival_without_stash_empty (chunk : list Byte.byte) (byteStart : Z)
    (s : t) (consumer : Consumer) (r : Range) :
  stash_ok s -> _stashUsed s = 0 ->
  _onDataArrival s = Some consumer -> _currentRange s = Some r ->
  let consumed := consumer (trace s) chunk byteStart in
  0 <= consumed <= byteLength chunk ->
  exists s',
    arrival_without_stash chunk byteStart s = Ret tt s' /\
    trace s' = trace s ++ [ev_onDataArrival chunk byteStart consumed] /\
    _currentRange s'
    = Some (mkRange (from r) (byteStart + byteLength chunk - 1)) /\
    _stashUsed s' = byteLength chunk - consumed /\
    stash_bytes s' = skipn (Z.to_nat consumed) chunk /\
    (0 < _stashUsed s' -> _stashByteStart s' = byteStart + consumed) /\
    stash_ok s' /\
    _onDataArrival s' = _onDataArrival s /\
    _enableStash s' = _enableStash s /\ _paused s' = _paused s /\
    _isEarlyEofReconnecting s' = _isEarlyEofReconnecting s /\
    _loader s' = _loader s.
Proof.
  intros Hok Hu Hc Hcr consumed Hin.
  pose proof Hok as (Hsize & Hused & Hlen).
  unfold arrival_without_stash.
  step_gets. rewrite Hu. change (0 =? 0) with true. cbv iota.
  step_with (dispatch_ok chunk byteStart s consumer r Hc Hcr).
  fold consumed.
  set (s1 := set_trace _ _).
  assert (Hok1 : stash_ok s1) by exact Hok.
  pose proof Hok1 as (Hsize1 & Hused1 & Hlen1).
  unfold when at 1.
  destruct (consumed <? byteLength chunk) eqn:Elt;
    [apply Z.ltb_lt in Elt|apply Z.ltb_ge in Elt].
  - cbv zeta. step_gets.
    destruct (ensure_capacity (byteLength chunk - consumed) s1 Hok1)
      as (s2 & Hcap & Hg & Hge).
    step_with Hcap.
    destruct (buffer_grown_fields s1 s2 Hg)
      as (H1 & H2 & H3 & H4 & H5 & H6 & H7 & H8 & H9 & H10 & H11 & H12 & _).
    step_gets.
    step_with (stashArray_new_ok (_bufferSize s2) s2 ltac:(lia)).
    step_with (Uint8Array_of_chunk_ok chunk consumed s2 ltac:(lia)).
    step_with (stashArray_set_ok (_bufferSize s2)
                 (mkU8 (byteLength chunk - consumed)
                    (fun i => nth (Z.to_nat (consumed + i)) chunk Byte.x00))
                 0 s2 ltac:(lia) ltac:(cbn [u8_length]; lia)).
    step_modify. unfold modify. cbn [u8_length u8_get].
    eexists. split; [reflexivity|]. record_simpl.
    unfold s1 in H1, H2, H3, H4, H5, H6, H7, H8, H9, H10.
    record_simpl_in H1. record_simpl_in H2. record_simpl_in H3.
    record_simpl_in H4. record_simpl_in H5. record_simpl_in H6.
    record_simpl_in H7. record_simpl_in H8. record_simpl_in H9.
    record_simpl_in H10.
    assert (Hu2 : _stashUsed s2 = 0) by (rewrite H5; exact Hu).
    split; [rewrite H9; reflexivity|]. split; [rewrite H4; reflexivity|].
    split; [lia|]. split.
    + unfold stash_bytes. record_simpl. rewrite Hu2, Z.add_0_l.
      apply slice_of_suffix; lia.
    + split; [intros _; reflexivity|].
      split; [|rewrite H1, H2, H3, H7, H8; repeat split].
      unfold stash_ok. record_simpl. cbn [ab_byteLength].
      rewrite H10, Hu2. lia.
  - exists s1. split; [reflexivity|]. unfold s1. record_simpl.
    split; [reflexivity|]. split; [reflexivity|].
    split; [lia|]. split.
    + rewrite skipn_all2 by (unfold byteLength in *; lia).
      apply stash_bytes_empty; record_simpl; lia.
    + split; [lia|]. split; [exact Hok|repeat split].
Qed.

(** A chunk arrives at a disabled stash that holds bytes. *)
Lemma arrival_without_stash_holding (chunk : list Byte.byte) (byteStart : Z)
    (s : t) (consumer : Consumer) (r : Range) :
  stash_ok s -> 0 < _stashUsed s ->
  _onDataArrival s = Some consumer -> _currentRange s = Some r ->
  let buffer := stash_bytes s ++ chunk in
  let consumed := consumer (trace s) buffer (_stashByteStart s) in
  0 <= consumed <= byteLength buffer ->
  exists s',
    arrival_without_stash chunk byteStart s = Ret tt s' /\
    trace s'
    = trace s ++ [ev_onDataArrival buffer (_stashByteStart s) consumed] /\
    _currentRange s'
    = Some (mkRange (from r) (_stashByteStart s + byteLength buffer - 1)) /\
    _stashUsed s' = byteLength buffer - consumed /\
    stash_bytes s' = skipn (Z.to_nat consumed) buffer /\
    _stashByteStart s' = _stashByteStart s + consumed /\
    stash_ok s' /\
    _onDataArrival s' = _onDataArrival s /\
    _enableStash s' = _enableStash s /\ _paused s' = _paused s /\
    _isEarlyEofReconnecting s' = _isEarlyEofReconnecting s /\
    _loader s' = _loader s.
Proof.
  intros Hok Hu Hc Hcr buffer consumed Hin.
  pose proof Hok as (Hsize & Hused & Hlen).
  assert (Hcl : 0 <= byteLength chunk) by (unfold byteLength; lia).
  assert (Hbl : byteLength buffer = _stashUsed s + byteLength chunk).
  { unfold buffer, byteLength at 1. rewrite length_app, Nat2Z.inj_add.
    fold (byteLength (stash_bytes s)). fold (byteLength chunk).
    unfold stash_bytes. rewrite slice_length by lia. reflexivity. }
  unfold arrival_without_stash.
  step_gets.
  replace (_stashUsed s =? 0) with false by (symmetry; apply Z.eqb_neq; lia).
  cbv iota. step_gets.
  destruct (ensure_capacity (_stashUsed s + byteLength chunk) s Hok)
    as (s2 & Hcap & Hg & Hge).
  step_with Hcap.
  destruct (buffer_grown_fields s s2 Hg)
    as (H1 & H2 & H3 & H4 & H5 & H6 & H7 & H8 & H9 & H10 & H11 & H12 & H13).
  step_gets.
  step_with (stashArray_new_ok (_bufferSize s2) s2 ltac:(lia)).
  step_with (Uint8Array_of_chunk_ok chunk 0 s2 ltac:(lia)).
  step_with (stashArray_set_ok (_bufferSize s2)
               (mkU8 (byteLength chunk - 0)
                  (fun i => nth (Z.to_nat (0 + i)) chunk Byte.x00))
               (_stashUsed s) s2 ltac:(lia) ltac:(cbn [u8_length]; lia)).
  cbn [u8_length u8_get].
  set (B3 := mkBuffer _ _).
  step_modify. record_simpl.
  unfold stash_slice. step_gets. record_simpl. step_gets. record_simpl.
  assert (Hslice : ArrayBuffer_slice B3 0 (_stashUsed s2 + byteLength chunk)
                   = buffer).
  { rewrite H5. unfold buffer, stash_bytes.
    apply slice_appended.
    - lia.
    - unfold B3. cbn [ab_byteLength]. lia.
    - intros i Hi. unfold B3. cbn [ab_cell].
      replace ((_stashUsed s <=? i)
               && (i <? _stashUsed s + (byteLength chunk - 0))) with false
        by (symmetry; apply andb_false_iff; left; apply Z.leb_gt; lia).
      apply H13. lia.
    - intros i Hi. unfold B3. cbn [ab_cell].
      replace ((_stashUsed s <=? i)
               && (i <? _stashUsed s + (byteLength chunk - 0))) with true
        by (symmetry; apply andb_true_iff; split;
            [apply Z.leb_le|apply Z.ltb_lt]; lia).
      reflexivity. }
  rewrite Hslice, H6.
  set (s4 := set_stashUsed _ _).
  assert (Hc4 : _onDataArrival s4 = Some consumer)
    by (unfold s4; record_simpl; rewrite H1; exact Hc).
  assert (Hr4 : _currentRange s4 = Some r)
    by (unfold s4; record_simpl; rewrite H4; exact Hcr).
  step_with (dispatch_ok buffer (_stashByteStart s) s4 consumer r Hc4 Hr4).
  replace (trace s4) with (trace s) by (unfold s4; record_simpl; auto).
  fold consumed.
  set (s5 := set_trace _ _).
  step_gets. change (_bufferSize s5) with (_bufferSize s2).
  change (_stashUsed s5) with (_stashUsed s2 + byteLength chunk).
  rewrite H5, <- Hbl.
  assert (Hb5 : _stashBuffer s5 = B3) by reflexivity.
  assert (Hmove : exists B6,
    when ((consumed <? byteLength buffer) && (consumed >? 0))
      (remainArray <- Uint8Array_of_stash consumed ;;
       stashArray_set (_bufferSize s2) remainArray 0) s5
    = Ret tt (set_stashBuffer B6 s5) /\
    ab_byteLength B6 = _bufferSize s2 /\
    ArrayBuffer_slice B6 0 (byteLength buffer - consumed)
    = skipn (Z.to_nat consumed) buffer).
  { unfold when.
    destruct ((consumed <? byteLength buffer) && (consumed >? 0)) eqn:Em.
    - apply andb_true_iff in Em. destruct Em as [Em1 Em2].
      apply Z.ltb_lt in Em1. rewrite Z.gtb_ltb in Em2. apply Z.ltb_lt in Em2.
      eexists. split; [|split].
      + step_with (Uint8Array_of_stash_ok consumed s5
                     ltac:(rewrite Hb5; unfold B3; cbn [ab_byteLength]; lia)).
        rewrite (stashArray_set_ok (_bufferSize s2)
                   (mkU8 (ab_byteLength (_stashBuffer s5) - consumed)
                      (fun i => ab_cell (_stashBuffer s5) (consumed + i)))
                   0 s5 ltac:(lia)
                   ltac:(cbn [u8_length]; rewrite Hb5; unfold B3;
                         cbn [ab_byteLength]; lia)).
        reflexivity.
      + cbn [ab_byteLength]. rewrite Hb5. unfold B3. cbn [ab_byteLength].
        lia.
      + assert (Hslice' : ArrayBuffer_slice B3 0 (byteLength buffer) = buffer)
          by (rewrite Hbl, <- H5; exact Hslice).
        rewrite (slice_moved B3 _ (byteLength buffer) consumed);
          [rewrite Hslice'; reflexivity|..].
        * lia.
        * unfold B3. cbn [ab_byteLength]. lia.
        * cbn [ab_byteLength]. rewrite Hb5. unfold B3.
          cbn [ab_byteLength]. lia.
        * intros i Hi. cbn [ab_cell u8_length u8_get]. rewrite Hb5.
          replace ((0 <=? i)
                   && (i <? 0 + (ab_byteLength B3 - consumed))) with true
            by (symmetry; apply andb_true_iff; split;
                [apply Z.leb_le|apply Z.ltb_lt]; unfold B3;
                cbn [ab_byteLength]; lia).
          f_equal. lia.
    - exists B3. split; [|split].
      + f_equal. clearbody s5. rewrite <- Hb5. destruct s5; reflexivity.
      + unfold B3. cbn [ab_byteLength]. lia.
      + apply andb_false_iff in Em. destruct Em as [Em|Em].
        * apply Z.ltb_ge in Em.
          replace (byteLength buffer - consumed) with 0 by lia.
          rewrite skipn_all2 by (unfold byteLength in *; lia).
          rewrite slice_as_map by (unfold B3; cbn [ab_byteLength]; lia).
          reflexivity.
        * rewrite Z.gtb_ltb in Em. apply Z.ltb_ge in Em.
          replace consumed with 0 by lia. rewrite Z.sub_0_r.
          rewrite <- Hslice at 2. rewrite H5, <- Hbl. reflexivity. }
  destruct Hmove as (B6 & Hmove & HB6 & Hbytes).
  step_with Hmove. step_modify. unfold modify.
  eexists. split; [reflexivity|]. unfold s5, s4. record_simpl.
  rewrite ?H5, <- ?Hbl.
  split; [reflexivity|]. split; [reflexivity|].
  split; [reflexivity|].
  split; [unfold stash_bytes; record_simpl; rewrite ?H5, <- ?Hbl; exact Hbytes|].
  split; [rewrite H6; reflexivity|].
  split; [|rewrite H1, H2, H3, H7, H8; repeat split].
  unfold stash_ok. record_simpl. rewrite H10, ?H5, <- ?Hbl, HB6. lia.
Qed.

(** One chunk arriving at a controller whose stash is disabled. *)
Lemma arrival_stash_disabled (now : Z) (chunk : list Byte.byte)
    (byteStart receivedLength : Z) (s : t) (consumer : Consumer)
    (r : Range) :
  _onDataArrival s = Some consumer -> _paused s = false ->
  _enableStash s = false -> _currentRange s = Some r -> stash_ok s ->
  let notice := if _isEarlyEofReconnecting s && _onRecoveredEarlyEof s
                then [ev_onRecoveredEarlyEof] else [] in
  let buffer := stash_bytes s ++ chunk in
  let start := if _stashUsed s =? 0 then byteStart else _stashByteStart s in
  let consumed := consumer (trace s ++ notice) buffer start in
  0 <= consumed <= byteLength buffer ->
  exists s',
    _onLoaderChunkArrival now chunk byteStart receivedLength s = Ret tt s' /\
    trace s'
    = (trace s ++ notice) ++ [ev_onDataArrival buffer start consumed] /\
    stash_bytes s' = skipn (Z.to_nat consumed) buffer /\
    _stashUsed s' = byteLength buffer - consumed /\
    (0 < _stashUsed s' -> _stashByteStart s' = start + consumed) /\
    _currentRange s'
    = Some (mkRange (from r) (start + byteLength buffer - 1)) /\
    stash_ok s' /\
    _onDataArrival s' = Some consumer /\ _paused s' = false /\
    _enableStash s' = false /\ _isEarlyEofReconnecting s' = false /\
    _loader s' = _loader s.
Proof.
  intros Hc Hp He Hr Hok notice buffer start consumed Hin.
  rewrite (chunk_arrival_parts now chunk byteStart receivedLength s consumer
             Hc Hp).
  destruct (arrival_prefix_ok now chunk s Hok)
    as (s1 & Hpre & P1 & P2 & P3 & P4 & P5 & P6 & P7 & P8 & P9 & P10 & P11
        & P12 & _).
  fold notice in P9.
  step_with Hpre. step_gets. rewrite P2, He. cbn [negb].
  rewrite Hc in P1. rewrite Hr in P4.
  pose proof Hok as (_ & Hused & Hlen).
  destruct (Z.eq_dec (_stashUsed s) 0) as [Hu|Hu].
  - assert (Hb : buffer = chunk).
    { unfold buffer. rewrite (stash_bytes_empty s Hu) by lia. reflexivity. }
    assert (Hs : start = byteStart) by (unfold start; rewrite Hu; reflexivity).
    assert (Hin1 : 0 <= consumer (trace s1) chunk byteStart
                   <= byteLength chunk).
    { rewrite P9. unfold consumed in Hin. rewrite Hb, Hs in Hin.
      exact Hin. }
    destruct (arrival_without_stash_empty chunk byteStart s1 consumer r P10
                ltac:(lia) P1 P4 Hin1)
      as (s' & Hrun & Q1 & Q2 & Q3 & Q4 & Q5 & Q6 & Q7 & Q8 & Q9 & Q10 & Q11).
    exists s'. split; [exact Hrun|].
    fold consumed. rewrite Hb, Hs. unfold consumed.
    rewrite Hb, Hs, <- P9.
    repeat match goal with |- _ /\ _ => split end;
      try assumption; congruence.
  - assert (Hpos : 0 < _stashUsed s1) by lia.
    assert (Hs : start = _stashByteStart s).
    { unfold start. replace (_stashUsed s =? 0) with false
        by (symmetry; apply Z.eqb_neq; exact Hu). reflexivity. }
    assert (Hin1 : 0 <= consumer (trace s1) (stash_bytes s1 ++ chunk)
                          (_stashByteStart s1)
                   <= byteLength (stash_bytes s1 ++ chunk)).
    { rewrite P9, P12, P6, <- Hs. exact Hin. }
    destruct (arrival_without_stash_holding chunk byteStart s1 consumer r P10
                Hpos P1 P4 Hin1)
      as (s' & Hrun & Q1 & Q2 & Q3 & Q4 & Q5 & Q6 & Q7 & Q8 & Q9 & Q10 & Q11).
    exists s'. split; [exact Hrun|].
    rewrite P9, P12, P6, <- Hs in Q1, Q3, Q4, Q5.
    rewrite P12, P6, <- Hs in Q2.
    fold buffer in Q1, Q2, Q3, Q4, Q5. fold consumed in Q1, Q3, Q4, Q5.
    repeat match goal with |- _ /\ _ => split end;
      try assumption; congruence.
Qed.

(** ** Sequences of chunks with the stash disabled *)

Lemma consumed_bytes_app (a b : list Event) :
  consumed_bytes (a ++ b) = consumed_bytes a ++ consumed_bytes b.
Proof.
  induction a as [|e a IH]; [reflexivity|].
  destruct e; cbn [app consumed_bytes]; rewrite IH; try reflexivity.
  apply app_assoc.
Qed.

Lemma notice_dispatches (b : bool) :
  dispatches (if b then [ev_onRecoveredEarlyEof] else []) = [].
Proof. destruct b; reflexivity. Qed.

Lemma notice_consumed_bytes (b : bool) :
  consumed_bytes (if b then [ev_onRecoveredEarlyEof] else []) = [].
Proof. destruct b; reflexivity. Qed.

Lemma accounted_from_accounting (start : Z) (ds : list (Z * Z * Z)) :
  accounted_from start ds -> consumption_accounting ds.
Proof.
  revert start. induction ds as [|[[b l] c] ds IH]; intros start H.
  - exact I.
  - cbn [accounted_from] in H. destruct H as (Hb & _ & Hrest).
    cbn [consumption_accounting]. split; [|exact (IH _ Hrest)].
    destruct ds as [|[[b' l'] c'] ds]; [exact I|].
    cbn [accounted_from] in Hrest. destruct Hrest as (Hb' & _).
    subst. reflexivity.
Qed.

(** What a run of contiguous arrivals leaves of a controller with the
    stash disabled. *)
Lemma arrivals_stash_disabled (consumer : Consumer)
    (chunks : list (Z * list Byte.byte)) :
  consumer_in_bounds consumer ->
  forall (byteStart receivedLength : Z) (s : t) (r : Range),
    _onDataArrival s = Some consumer -> _paused s = false ->
    _enableStash s = false -> _currentRange s = Some r -> stash_ok s ->
    exists s' ds,
      run (contiguous_arrivals byteStart receivedLength chunks) s
      = Ret tt s' /\
      dispatches (trace s') = dispatches (trace s) ++ ds /\
      List.length ds = List.length chunks /\
      ((0 < _stashUsed s -> _stashByteStart s + _stashUsed s = byteStart) ->
       accounted_from (byteStart - _stashUsed s) ds) /\
      consumed_bytes (trace s') ++ stash_bytes s'
      = consumed_bytes (trace s) ++ stash_bytes s
        ++ List.concat (map snd chunks) /\
      stash_ok s' /\ _enableStash s' = false /\ _paused s' = false /\
      _onDataArrival s' = Some consumer /\ _loader s' = _loader s /\
      exists r', _currentRange s' = Some r'.
Proof.
  intros Hb.
  induction chunks as [|[now chunk] chunks IH];
    intros byteStart receivedLength s r Hc Hp He Hr Hok.
  - exists s, []. cbn [contiguous_arrivals run map List.concat accounted_from].
    rewrite !app_nil_r. repeat match goal with |- _ /\ _ => split end;
      try assumption; try reflexivity; try (intros _; exact I).
    exists r; exact Hr.
  - cbn [contiguous_arrivals run].
    set (notice := if _isEarlyEofReconnecting s && _onRecoveredEarlyEof s
                   then [ev_onRecoveredEarlyEof] else []).
    set (buffer := stash_bytes s ++ chunk).
    set (start := if _stashUsed s =? 0 then byteStart
                  else _stashByteStart s).
    pose proof (Hb (trace s ++ notice) buffer start) as Hin.
    destruct (arrival_stash_disabled now chunk byteStart
                (receivedLength + byteLength chunk) s consumer r
                Hc Hp He Hr Hok Hin)
      as (s1 & Hrun & Q1 & Q2 & Q3 & Q4 & Q5 & Q6 & Q7 & Q8 & Q9 & Q10
          & Q11).
    fold notice buffer start in Q1, Q2, Q3, Q4, Q5.
    set (consumed := consumer (trace s ++ notice) buffer start) in *.
    pose proof Hok as (_ & Hused & Hlen).
    assert (Hbl : byteLength buffer = _stashUsed s + byteLength chunk).
    { unfold buffer, byteLength at 1. rewrite length_app, Nat2Z.inj_add.
      fold (byteLength (stash_bytes s)). fold (byteLength chunk).
      unfold stash_bytes. rewrite slice_length by lia. reflexivity. }
    destruct (IH (byteStart + byteLength chunk)
                 (receivedLength + byteLength chunk) s1 _ Q7 Q8 Q9 Q5 Q6)
      as (s' & ds & Hrun' & D1 & D2 & D3 & D4 & D5 & D6 & D7 & D8 & D9
          & D10).
    exists s', ((start, byteLength buffer, consumed) :: ds).
    split; [step_with Hrun; exact Hrun'|].
    split.
    { rewrite D1, Q1, !dispatches_app. unfold notice.
      rewrite notice_dispatches, app_nil_r, <- app_assoc. reflexivity. }
    split; [cbn [List.length]; rewrite D2; reflexivity|].
    split.
    { intros Hinv.
      assert (Hs : start = byteStart - _stashUsed s).
      { unfold start. destruct (Z.eqb_spec (_stashUsed s) 0) as [E|E]; lia. }
      cbn [accounted_from]. split; [exact Hs|]. split; [exact Hin|].
      replace (byteStart - _stashUsed s + consumed)
        with (byteStart + byteLength chunk - _stashUsed s1) by lia.
      apply D3. lia. }
    split.
    { rewrite D4, Q1, Q2, !consumed_bytes_app. unfold notice.
      rewrite notice_consumed_bytes, app_nil_r.
      cbn [consumed_bytes map snd List.concat].
      rewrite app_nil_r, <- !app_assoc. f_equal.
      rewrite (app_assoc (firstn _ _)), firstn_skipn.
      unfold buffer. rewrite <- !app_assoc. reflexivity. }
    repeat match goal with |- _ /\ _ => split end;
      try assumption; congruence.
Qed.

(** X17 (chunk arrival, stash disabled): when a chunk arrives at a
    controller whose stash is disabled (consumer bound, not paused, stash
    well formed), the consumer is called exactly once, with the stashed
    bytes followed by the chunk, at the chunk's offset if the stash was
    empty and at the stash's offset otherwise.  If it answers within the
    bounds of what it was shown, the call returns, the stash holds
    exactly the bytes the consumer left, and if any are left the stash's
    offset is that of the first of them. *)
Theorem X17_chunk_arrival_stash_disabled (now : Z) (chunk : list Byte.byte)
    (byteStart receivedLength : Z) (s : t) (consumer : Consumer)
    (r : Range) :
  _onDataArrival s = Some consumer -> _paused s = false ->
  _enableStash s = false -> _currentRange s = Some r -> stash_ok s ->
  let notice := if _isEarlyEofReconnecting s && _onRecoveredEarlyEof s
                then [ev_onRecoveredEarlyEof] else [] in
  let buffer := stash_bytes s ++ chunk in
  let start := if _stashUsed s =? 0 then byteStart else _stashByteStart s in
  let consumed := consumer (trace s ++ notice) buffer start in
  0 <= consumed <= byteLength buffer ->
  exists s',
    _onLoaderChunkArrival now chunk byteStart receivedLength s = Ret tt s' /\
    trace s'
    = (trace s ++ notice) ++ [ev_onDataArrival buffer start consumed] /\
    stash_bytes s' = skipn (Z.to_nat consumed) buffer /\
    _stashUsed s' = byteLength buffer - consumed /\
    (0 < _stashUsed s' -> _stashByteStart s' = start + consumed) /\
    _currentRange s'
    = Some (mkRange (from r) (start + byteLength buffer - 1)) /\
    stash_ok s'.
Proof.
  intros Hc Hp He Hr Hok notice buffer start consumed Hin.
  destruct (arrival_stash_disabled now chunk byteStart receivedLength s
              consumer r Hc Hp He Hr Hok Hin)
    as (s' & Hrun & Q1 & Q2 & Q3 & Q4 & Q5 & Q6 & _).
  exists s'. repeat match goal with |- _ /\ _ => split end; assumption.
Qed.

Lemma X17_chunk_arrival_stash_disabled_witness :
  exists s',
    _onLoaderChunkArrival 5 [Byte.x41; Byte.x42; Byte.x43] 0 3
                          controller_without_stash = Ret tt s' /\
    dispatches (trace s') = [(0, 3, 2)] /\
    stash_bytes s' = [Byte.x43] /\ _stashByteStart s' = 2.
Proof.
  assert (Hc : _onDataArrival controller_without_stash
               = Some (consumer_taking 2)) by (vm_compute; reflexivity).
  assert (Hp : _paused controller_without_stash = false)
    by (vm_compute; reflexivity).
  assert (He : _enableStash controller_without_stash = false)
    by (vm_compute; reflexivity).
  assert (Hr : _currentRange controller_without_stash
               = Some (mkRange 0 (-1))) by (vm_compute; reflexivity).
  assert (Hss : _stashSize controller_without_stash = 393216)
    by (vm_compute; reflexivity).
  assert (Hu : _stashUsed controller_without_stash = 0)
    by (vm_compute; reflexivity).
  assert (Hbs : _bufferSize controller_without_stash = 3145728)
    by (vm_compute; reflexivity).
  assert (Hbl : ab_byteLength (_stashBuffer controller_without_stash)
                = 3145728) by (vm_compute; reflexivity).
  assert (Ht : trace controller_without_stash = [])
    by (vm_compute; reflexivity).
  assert (Hre : _isEarlyEofReconnecting controller_without_stash = false)
    by (vm_compute; reflexivity).
  assert (Hsb : stash_bytes controller_without_stash = [])
    by (vm_compute; reflexivity).
  assert (Hok : stash_ok controller_without_stash)
    by (unfold stash_ok; rewrite Hss, Hu, Hbs, Hbl; lia).
  destruct (X17_chunk_arrival_stash_disabled 5
              [Byte.x41; Byte.x42; Byte.x43] 0 3 controller_without_stash
              (consumer_taking 2) (mkRange 0 (-1)) Hc Hp He Hr Hok)
    as (s' & Hrun & Q1 & Q2 & Q3 & Q4 & _).
  { rewrite Hsb. vm_compute. split; discriminate. }
  exists s'. rewrite Hsb, Hu, Ht, Hre in *.
  split; [exact Hrun|]. split; [rewrite Q1; reflexivity|].
  split; [rewrite Q2; reflexivity|].
  rewrite Q4; [reflexivity|]. rewrite Q3. vm_compute. reflexivity.
Defined.

(** X18 (no byte lost, stash disabled): for any sequence of chunks
    arriving at a controller whose stash is disabled, with a consumer
    that answers within the bounds of what it is shown, every call
    returns, and the bytes the consumer has taken followed by the bytes
    in the stash are the bytes taken and stashed before followed by the
    chunks, in order and each exactly once. *)
Theorem X18_stash_disabled_no_byte_lost (consumer : Consumer)
    (chunks : list (Z * list Byte.byte)) (byteStart receivedLength : Z)
    (s : t) (r : Range) :
  consumer_in_bounds consumer ->
  _onDataArrival s = Some consumer -> _paused s = false ->
  _enableStash s = false -> _currentRange s = Some r -> stash_ok s ->
  exists s',
    run (contiguous_arrivals byteStart receivedLength chunks) s
    = Ret tt s' /\
    consumed_bytes (trace s') ++ stash_bytes s'
    = consumed_bytes (trace s) ++ stash_bytes s
      ++ List.concat (map snd chunks) /\
    stash_ok s'.
Proof.
  intros Hb Hc Hp He Hr Hok.
  destruct (arrivals_stash_disabled consumer chunks Hb byteStart
              receivedLength s r Hc Hp He Hr Hok)
    as (s' & ds & Hrun & _ & _ & _ & Hbytes & Hok' & _).
  exists s'. split; [exact Hrun|]. split; [exact Hbytes|exact Hok'].
Qed.

Lemma X18_stash_disabled_no_byte_lost_witness :
  exists s',
    run (contiguous_arrivals 0 0
           [(5, [Byte.x41; Byte.x42; Byte.x43]); (6, [Byte.x44; Byte.x45])])
        controller_without_stash = Ret tt s' /\
    consumed_bytes (trace s') ++ stash_bytes s'
    = [Byte.x41; Byte.x42; Byte.x43; Byte.x44; Byte.x45].
Proof.
  assert (Hc : _onDataArrival controller_without_stash
               = Some (consumer_taking 2)) by (vm_compute; reflexivity).
  assert (Hp : _paused controller_without_stash = false)
    by (vm_compute; reflexivity).
  assert (He : _enableStash controller_without_stash = false)
    by (vm_compute; reflexivity).
  assert (Hr : _currentRange controller_without_stash
               = Some (mkRange 0 (-1))) by (vm_compute; reflexivity).
  assert (Hss : _stashSize controller_without_stash = 393216)
    by (vm_compute; reflexivity).
  assert (Hu : _stashUsed controller_without_stash = 0)
    by (vm_compute; reflexivity).
  assert (Hbs : _bufferSize controller_without_stash = 3145728)
    by (vm_compute; reflexivity).
  assert (Hbl : ab_byteLength (_stashBuffer controller_without_stash)
                = 3145728) by (vm_compute; reflexivity).
  assert (Ht : trace controller_without_stash = [])
    by (vm_compute; reflexivity).
  assert (Hsb : stash_bytes controller_without_stash = [])
    by (vm_compute; reflexivity).
  assert (Hok : stash_ok controller_without_stash)
    by (unfold stash_ok; rewrite Hss, Hu, Hbs, Hbl; lia).
  assert (Hb : consumer_in_bounds (consumer_taking 2))
    by (intros h c b; unfold consumer_taking; unfold byteLength; lia).
  destruct (X18_stash_disabled_no_byte_lost (consumer_taking 2)
              [(5, [Byte.x41; Byte.x42; Byte.x43]);
               (6, [Byte.x44; Byte.x45])] 0 0 controller_without_stash
              (mkRange 0 (-1)) Hb Hc Hp He Hr Hok)
    as (s' & Hrun & Hbytes & _).
  exists s'. split; [exact Hrun|].
  rewrite Hbytes, Ht, Hsb. reflexivity.
Defined.

(** X19 (consumption accounting, stash disabled): for contiguous chunks
    arriving at a controller whose stash is disabled and whose stash, if
    it holds bytes, holds those just before the first chunk, with a
    consumer that answers within bounds, the consumer is called once per
    chunk; the first call is at the offset of the first byte not yet
    consumed, every later call is at the previous call's offset plus
    what the consumer took of it, and no call takes more than it was
    shown. *)
Theorem X19_stash_disabled_accounting (consumer : Consumer)
    (chunks : list (Z * list Byte.byte)) (byteStart receivedLength : Z)
    (s : t) (r : Range) :
  consumer_in_bounds consumer ->
  _onDataArrival s = Some consumer -> _paused s = false ->
  _enableStash s = false -> _currentRange s = Some r -> stash_ok s ->
  (0 < _stashUsed s -> _stashByteStart s + _stashUsed s = byteStart) ->
  exists s' ds,
    run (contiguous_arrivals byteStart receivedLength chunks) s
    = Ret tt s' /\
    dispatches (trace s') = dispatches (trace s) ++ ds /\
    List.length ds = List.length chunks /\
    accounted_from (byteStart - _stashUsed s) ds /\
    consumption_accounting ds.
Proof.
  intros Hb Hc Hp He Hr Hok Hinv.
  destruct (arrivals_stash_disabled consumer chunks Hb byteStart
              receivedLength s r Hc Hp He Hr Hok)
    as (s' & ds & Hrun & Hd & Hlen & Hacc & _).
  exists s', ds. split; [exact Hrun|]. split; [exact Hd|].
  split; [exact Hlen|]. split; [exact (Hacc Hinv)|].
  exact (accounted_from_accounting _ _ (Hacc Hinv)).
Qed.

Lemma X19_stash_disabled_accounting_witness :
  exists s' ds,
    run (contiguous_arrivals 0 0
           [(5, [Byte.x41; Byte.x42; Byte.x43]); (6, [Byte.x44; Byte.x45])])
        controller_without_stash = Ret tt s' /\
    dispatches (trace s') = ds /\
    List.length ds = 2%nat /\ consumption_accounting ds.
Proof.
  assert (Hc : _onDataArrival controller_without_stash
               = Some (consumer_taking 2)) by (vm_compute; reflexivity).
  assert (Hp : _paused controller_without_stash = false)
    by (vm_compute; reflexivity).
  assert (He : _enableStash controller_without_stash = false)
    by (vm_compute; reflexivity).
  assert (Hr : _currentRange controller_without_stash
               = Some (mkRange 0 (-1))) by (vm_compute; reflexivity).
  assert (Hss : _stashSize controller_without_stash = 393216)
    by (vm_compute; reflexivity).
  assert (Hu : _stashUsed controller_without_stash = 0)
    by (vm_compute; reflexivity).
  assert (Hbs : _bufferSize controller_without_stash = 3145728)
    by (vm_compute; reflexivity).
  assert (Hbl : ab_byteLength (_stashBuffer controller_without_stash)
                = 3145728) by (vm_compute; reflexivity).
  assert (Ht : trace controller_without_stash = [])
    by (vm_compute; reflexivity).
  assert (Hok : stash_ok controller_without_stash)
    by (unfold stash_ok; rewrite Hss, Hu, Hbs, Hbl; lia).
  assert (Hb : consumer_in_bounds (consumer_taking 2))
    by (intros h c b; unfold consumer_taking; unfold byteLength; lia).
  destruct (X19_stash_disabled_accounting (consumer_taking 2)
              [(5, [Byte.x41; Byte.x42; Byte.x43]);
               (6, [Byte.x44; Byte.x45])] 0 0 controller_without_stash
              (mkRange 0 (-1)) Hb Hc Hp He Hr Hok ltac:(lia))
    as (s' & ds & Hrun & Hd & Hlen & _ & Hacc).
  exists s', ds. rewrite Ht in Hd. split; [exact Hrun|].
  split; [exact Hd|]. split; [exact Hlen|exact Hacc].
Defined.

(** ** Chunk arrival with the stash enabled *)

(** [if (expected > this._bufferSize) { this._expandBuffer(expected);
    stashArray = new Uint8Array(...) }] *)
Lemma ensure_view (expected stashArray : Z) (s : t) :
  stash_ok s -> stashArray = _bufferSize s ->
  exists s',
    (if expected >? _bufferSize s
     then _expandBuffer expected ;;
          bufferSize <- gets _bufferSize ;;
          stashArray_new bufferSize
     else ret stashArray) s
    = Ret (_bufferSize s') s' /\
    buffer_grown s s' /\ expected <= _bufferSize s'.
Proof.
  intros Hok ->.
  destruct (expected >? _bufferSize s) eqn:E; rewrite Z.gtb_ltb in E.
  - apply Z.ltb_lt in E.
    destruct (expand_grows expected s Hok E) as (s' & Heq & Hg & Hge).
    exists s'. split; [|split; assumption].
    destruct (buffer_grown_fields s s' Hg)
      as (_ & _ & _ & _ & _ & _ & _ & _ & _ & _ & H11 & H12 & _).
    pose proof Hok as (_ & Hused & _).
    step_with Heq. step_gets.
    apply stashArray_new_ok. lia.
  - apply Z.ltb_ge in E. exists s. split; [reflexivity|].
    split; [|exact E]. apply buffer_grown_refl. apply Hok.
Qed.

(** The chunk is appended to what the stash holds. *)
Lemma append_chunk (chunk : list Byte.byte) (stashArray : Z) (s : t) :
  stash_ok s -> stashArray = _bufferSize s ->
  exists s',
    (used <- gets _stashUsed ;;
     bufferSize <- gets _bufferSize ;;
     stashArray <-
       (if used + byteLength chunk >? bufferSize then
          _expandBuffer (used + byteLength chunk) ;;
          bufferSize <- gets _bufferSize ;;
          stashArray_new bufferSize
        else ret stashArray) ;;
     source <- Uint8Array_of_chunk chunk 0 ;;
     stashArray_set stashArray source used ;;
     modify (fun s => set_stashUsed (_stashUsed s + byteLength chunk) s)) s
    = Ret tt s' /\
    stash_bytes s' = stash_bytes s ++ chunk /\
    stash_ok s' /\ trace s' = trace s /\
    _stashSize s' = _stashSize s /\ _bufferSize s <= _bufferSize s' /\
    _stashByteStart s' = _stashByteStart s /\
    _currentRange s' = _currentRange s /\
    _onDataArrival s' = _onDataArrival s /\
    _enableStash s' = _enableStash s /\ _paused s' = _paused s /\
    _isEarlyEofReconnecting s' = _isEarlyEofReconnecting s /\
    _loader s' = _loader s.
Proof.
  intros Hok Hview.
  pose proof Hok as (Hsize & Hused & Hlen).
  assert (Hcl : 0 <= byteLength chunk) by (unfold byteLength; lia).
  step_gets. step_gets.
  destruct (ensure_view (_stashUsed s + byteLength chunk) stashArray s Hok
              Hview) as (s2 & Hens & Hg & Hge).
  step_with Hens.
  destruct (buffer_grown_fields s s2 Hg)
    as (H1 & H2 & H3 & H4 & H5 & H6 & H7 & H8 & H9 & H10 & H11 & H12 & H13).
  step_with (Uint8Array_of_chunk_ok chunk 0 s2 ltac:(lia)).
  step_with (stashArray_set_ok (_bufferSize s2)
               (mkU8 (byteLength chunk - 0)
                  (fun i => nth (Z.to_nat (0 + i)) chunk Byte.x00))
               (_stashUsed s) s2 ltac:(lia) ltac:(cbn [u8_length]; lia)).
  cbn [u8_length u8_get].
  set (B3 := mkBuffer _ _).
  unfold modify. eexists. split; [reflexivity|]. record_simpl.
  split.
  { unfold stash_bytes. record_simpl. rewrite H5.
    apply slice_appended.
    - lia.
    - unfold B3. cbn [ab_byteLength]. lia.
    - intros i Hi. unfold B3. cbn [ab_cell].
      replace ((_stashUsed s <=? i)
               && (i <? _stashUsed s + (byteLength chunk - 0))) with false
        by (symmetry; apply andb_false_iff; left; apply Z.leb_gt; lia).
      apply H13. lia.
    - intros i Hi. unfold B3. cbn [ab_cell].
      replace ((_stashUsed s <=? i)
               && (i <? _stashUsed s + (byteLength chunk - 0))) with true
        by (symmetry; apply andb_true_iff; split;
            [apply Z.leb_le|apply Z.ltb_lt]; lia).
      reflexivity. }
  split.
  { unfold stash_ok. record_simpl. unfold B3. cbn [ab_byteLength].
    rewrite H10, H5. lia. }
  repeat match goal with |- _ /\ _ => split end; assumption.
Qed.

Lemma byteLength_nonneg (l : list Byte.byte) : 0 <= byteLength l.
Proof. unfold byteLength. lia. Qed.

Lemma byteLength_app (a b : list Byte.byte) :
  byteLength (a ++ b) = byteLength a + byteLength b.
Proof. unfold byteLength. rewrite length_app. lia. Qed.

Lemma stash_bytes_length (s : t) :
  stash_ok s -> byteLength (stash_bytes s) = _stashUsed s.
Proof.
  intros (_ & Hused & Hlen). unfold stash_bytes. apply slice_length. lia.
Qed.

(** After the consumer was shown the stash: what it left is moved to
    the front. *)
Lemma keep_rest (buffer : list Byte.byte) (consumed stashArray : Z)
    (s : t) :
  stash_ok s -> stash_bytes s = buffer -> stashArray = _bufferSize s ->
  0 <= consumed <= byteLength buffer ->
  exists s',
    (if consumed <? byteLength buffer then
       when (consumed >? 0)
         (remainArray <-
            in_range (Uint8Array_new (ArrayBuffer_of_list buffer)
                                     consumed None) ;;
          stashArray_set stashArray remainArray 0 ;;
          modify (set_stashUsed (u8_length remainArray)) ;;
          modify (fun s =>
                    set_stashByteStart (_stashByteStart s + consumed) s))
     else
       modify (set_stashUsed 0) ;;
       modify (fun s =>
                 set_stashByteStart (_stashByteStart s + consumed) s)) s
    = Ret tt s' /\
    stash_bytes s' = skipn (Z.to_nat consumed) buffer /\
    stash_ok s' /\ trace s' = trace s /\
    _stashSize s' = _stashSize s /\ _bufferSize s' = _bufferSize s /\
    _currentRange s' = _currentRange s /\
    _onDataArrival s' = _onDataArrival s /\
    _enableStash s' = _enableStash s /\ _paused s' = _paused s /\
    _isEarlyEofReconnecting s' = _isEarlyEofReconnecting s /\
    _loader s' = _loader s /\
    _stashByteStart s' + _stashUsed s' = _stashByteStart s + _stashUsed s.
Proof.
  intros Hok Hbytes -> Hin.
  pose proof Hok as (Hsize & Hused & Hlen).
  pose proof (stash_bytes_length s Hok) as Hbl. rewrite Hbytes in Hbl.
  destruct (consumed <? byteLength buffer) eqn:Elt;
    [apply Z.ltb_lt in Elt|apply Z.ltb_ge in Elt].
  - unfold when. destruct (consumed >? 0) eqn:Egt; rewrite Z.gtb_ltb in Egt.
    + apply Z.ltb_lt in Egt.
      change (in_range (Uint8Array_new (ArrayBuffer_of_list buffer)
                                       consumed None))
        with (Uint8Array_of_chunk buffer consumed).
      step_with (Uint8Array_of_chunk_ok buffer consumed s ltac:(lia)).
      step_with (stashArray_set_ok (_bufferSize s)
                   (mkU8 (byteLength buffer - consumed)
                      (fun i => nth (Z.to_nat (consumed + i)) buffer
                                    Byte.x00))
                   0 s ltac:(lia) ltac:(cbn [u8_length]; lia)).
      step_modify. unfold modify. cbn [u8_length u8_get].
      eexists. split; [reflexivity|]. record_simpl.
      split.
      { unfold stash_bytes. record_simpl.
        rewrite <- (Z.add_0_l (byteLength buffer - consumed)).
        apply slice_of_suffix; lia. }
      split.
      { unfold stash_ok. record_simpl. cbn [ab_byteLength]. lia. }
      repeat match goal with |- _ /\ _ => split end; try reflexivity.
      lia.
    + apply Z.ltb_ge in Egt. assert (E0 : consumed = 0) by lia.
      exists s. split; [reflexivity|].
      split; [rewrite E0; exact Hbytes|]. split; [exact Hok|].
      repeat match goal with |- _ /\ _ => split end; reflexivity.
  - step_modify. unfold modify.
    eexists. split; [reflexivity|]. record_simpl.
    split.
    { rewrite skipn_all2 by (unfold byteLength in *; lia).
      apply stash_bytes_empty; record_simpl; lia. }
    split.
    { unfold stash_ok. record_simpl. lia. }
    repeat match goal with |- _ /\ _ => split end; try reflexivity.
    lia.
Qed.

Lemma set_stashByteStart_same (s : t) :
  set_stashByteStart (_stashByteStart s) s = s.
Proof. destruct s; reflexivity. Qed.

(** The branch for an enabled stash, on a well-formed stash whose
    window lies within the buffer. *)
Lemma arrival_with_stash_ok (chunk : list Byte.byte) (byteStart : Z)
    (s : t) (consumer : Consumer) (r : Range) :
  consumer_in_bounds consumer ->
  stash_ok s -> _stashSize s <= _bufferSize s ->
  _onDataArrival s = Some consumer -> _currentRange s = Some r ->
  exists s',
    arrival_with_stash chunk byteStart s = Ret tt s' /\
    consumed_bytes (trace s') ++ stash_bytes s'
    = consumed_bytes (trace s) ++ stash_bytes s ++ chunk /\
    (if _stashUsed s + byteLength chunk <=? _stashSize s
     then trace s' = trace s
     else exists buffer byteStart consumed,
         trace s' = trace s ++ [ev_onDataArrival buffer byteStart consumed])
    /\
    stash_ok s' /\ _stashSize s' = _stashSize s /\
    _bufferSize s <= _bufferSize s' /\
    (exists r', _currentRange s' = Some r') /\
    _onDataArrival s' = _onDataArrival s /\
    _enableStash s' = _enableStash s /\ _paused s' = _paused s /\
    _isEarlyEofReconnecting s' = _isEarlyEofReconnecting s /\
    _loader s' = _loader s /\
    (_stashUsed s + byteLength chunk <= _stashSize s \/ 0 < _stashUsed s ->
     _stashByteStart s' + _stashUsed s'
     = (if (_stashUsed s =? 0) && (_stashByteStart s =? 0)
        then byteStart else _stashByteStart s)
       + _stashUsed s + byteLength chunk /\
     byteLength chunk <= _stashUsed s').
Proof.
  intros Hb Hok Hwin Hc Hcr.
  pose proof Hok as (Hsize & Hused & Hlen).
  pose proof (byteLength_nonneg chunk) as Hcl.
  unfold arrival_with_stash.
  step_gets. step_gets.
  set (sb := if (_stashUsed s =? 0) && (_stashByteStart s =? 0)
             then byteStart else _stashByteStart s).
  assert (Hwhen : when ((_stashUsed s =? 0) && (_stashByteStart s =? 0))
                    (modify (set_stashByteStart byteStart)) s
                  = Ret tt (set_stashByteStart sb s)).
  { unfold when, sb.
    destruct ((_stashUsed s =? 0) && (_stashByteStart s =? 0));
      [reflexivity|]. rewrite set_stashByteStart_same. reflexivity. }
  step_with Hwhen.
  set (s0 := set_stashByteStart sb s).
  assert (Hok0 : stash_ok s0) by exact Hok.
  assert (Hc0 : _onDataArrival s0 = Some consumer) by exact Hc.
  assert (Hr0 : _currentRange s0 = Some r) by exact Hcr.
  assert (Hbytes0 : stash_bytes s0 = stash_bytes s) by reflexivity.
  step_gets. change (_stashSize s0) with (_stashSize s).
  destruct (_stashUsed s + byteLength chunk <=? _stashSize s) eqn:Efit;
    [apply Z.leb_le in Efit|apply Z.leb_gt in Efit].
  - (* the chunk fits the window *)
    step_with (stashArray_new_ok (_stashSize s) s0
                 ltac:(change (_stashBuffer s0) with (_stashBuffer s); lia)).
    step_with (Uint8Array_of_chunk_ok chunk 0 s0 ltac:(lia)).
    step_with (stashArray_set_ok (_stashSize s)
                 (mkU8 (byteLength chunk - 0)
                    (fun i => nth (Z.to_nat (0 + i)) chunk Byte.x00))
                 (_stashUsed s) s0 ltac:(lia) ltac:(cbn [u8_length]; lia)).
    cbn [u8_length u8_get]. unfold modify.
    eexists. split; [reflexivity|]. unfold s0. record_simpl.
    assert (Happ : stash_bytes
                     (set_stashUsed (_stashUsed s + byteLength chunk)
                        (set_stashBuffer
                           (mkBuffer (ab_byteLength (_stashBuffer s))
                              (fun i =>
                                 if (_stashUsed s <=? i)
                                    && (i <? _stashUsed s
                                             + (byteLength chunk - 0))
                                 then nth (Z.to_nat (0 + (i - _stashUsed s)))
                                          chunk Byte.x00
                                 else ab_cell (_stashBuffer s) i))
                           (set_stashByteStart sb s)))
                   = stash_bytes s ++ chunk).
    { unfold stash_bytes. record_simpl. apply slice_appended.
      - lia.
      - cbn [ab_byteLength]. lia.
      - intros i Hi. cbn [ab_cell].
        replace ((_stashUsed s <=? i)
                 && (i <? _stashUsed s + (byteLength chunk - 0))) with false
          by (symmetry; apply andb_false_iff; left; apply Z.leb_gt; lia).
        reflexivity.
      - intros i Hi. cbn [ab_cell].
        replace ((_stashUsed s <=? i)
                 && (i <? _stashUsed s + (byteLength chunk - 0))) with true
          by (symmetry; apply andb_true_iff; split;
              [apply Z.leb_le|apply Z.ltb_lt]; lia).
        reflexivity. }
    split; [rewrite Happ; reflexivity|]. split; [reflexivity|].
    split.
    { unfold stash_ok. record_simpl. cbn [ab_byteLength]. lia. }
    split; [reflexivity|]. split; [lia|]. split; [exists r; exact Hcr|].
    repeat match goal with |- _ /\ _ => split end; try reflexivity.
    intros _. unfold sb. split; lia.
  - step_gets. change (_bufferSize s0) with (_bufferSize s).
    step_with (stashArray_new_ok (_bufferSize s) s0
                 ltac:(change (_stashBuffer s0) with (_stashBuffer s); lia)).
    destruct (_stashUsed s >? 0) eqn:Egt; rewrite Z.gtb_ltb in Egt;
      [apply Z.ltb_lt in Egt|apply Z.ltb_ge in Egt].
    + (* the stash holds bytes: they are dispatched, the chunk appended *)
      assert (Hsb : sb = _stashByteStart s).
      { unfold sb. replace (_stashUsed s =? 0) with false
          by (symmetry; apply Z.eqb_neq; lia). reflexivity. }
      unfold stash_slice. step_gets. fold (stash_bytes s0). step_gets.
      step_with (dispatch_ok (stash_bytes s0) (_stashByteStart s0) s0
                   consumer r Hc0 Hr0).
      set (consumed := consumer (trace s0) (stash_bytes s0)
                                (_stashByteStart s0)).
      pose proof (Hb (trace s0) (stash_bytes s0) (_stashByteStart s0)) as Hin.
      fold consumed in Hin.
      set (s1 := set_trace _ _).
      assert (Hok1 : stash_ok s1) by exact Hok.
      destruct (keep_rest (stash_bytes s0) consumed (_bufferSize s) s1 Hok1
                  eq_refl eq_refl Hin)
        as (s2 & Hkeep & K1 & K2 & K3 & K4 & K5 & K6 & K7 & K8 & K9 & K10
            & K11 & K12).
      step_with Hkeep.
      destruct (append_chunk chunk (_bufferSize s) s2 K2
                  ltac:(rewrite K5; reflexivity))
        as (s3 & Happ & A1 & A2 & A3 & A4 & A5 & A6 & A7 & A8 & A9 & A10
            & A11 & A12).
      exists s3. split; [exact Happ|].
      assert (Ht : trace s3 = trace s ++ [ev_onDataArrival (stash_bytes s)
                                            (_stashByteStart s0) consumed]).
      { rewrite A3, K3. reflexivity. }
      split.
      { rewrite Ht, consumed_bytes_app, A1, K1.
        cbn [consumed_bytes]. rewrite app_nil_r, <- !app_assoc. f_equal.
        rewrite (app_assoc (firstn _ _)), firstn_skipn. reflexivity. }
      split; [eexists _, _, _; exact Ht|].
      split; [exact A2|]. split; [rewrite A4, K4; reflexivity|].
      split; [change (_bufferSize s1) with (_bufferSize s) in K5; lia|].
      split; [exists (mkRange (from r)
                        (_stashByteStart s0 + byteLength (stash_bytes s0) - 1));
              rewrite A7, K6; reflexivity|].
      rewrite A8, A9, A10, A11, A12, K7, K8, K9, K10, K11.
      repeat match goal with |- _ /\ _ => split end; try reflexivity.
      intros _.
      pose proof (stash_bytes_length s3 A2) as Hu3.
      pose proof (stash_bytes_length s2 K2) as Hu2.
      rewrite A1, byteLength_app, Hu2 in Hu3.
      pose proof K2 as (_ & Hused2 & _).
      change (_stashByteStart s1) with sb in K12.
      change (_stashUsed s1) with (_stashUsed s) in K12.
      fold sb. rewrite A6. split; lia.
    + (* the stash is empty: the chunk is dispatched, the rest kept *)
      assert (Hu0 : _stashUsed s = 0) by lia.
      step_with (dispatch_ok chunk byteStart s0 consumer r Hc0 Hr0).
      set (consumed := consumer (trace s0) chunk byteStart).
      pose proof (Hb (trace s0) chunk byteStart) as Hin.
      fold consumed in Hin.
      set (s1 := set_trace _ _).
      assert (Hok1 : stash_ok s1) by exact Hok.
      assert (Hempty : stash_bytes s = []).
      { apply stash_bytes_empty; lia. }
      unfold when.
      destruct (consumed <? byteLength chunk) eqn:Elt;
        [apply Z.ltb_lt in Elt|apply Z.ltb_ge in Elt].
      * cbv zeta. step_gets.
        destruct (ensure_view (byteLength chunk - consumed) (_bufferSize s)
                    s1 Hok1 eq_refl) as (s2 & Hens & Hg & Hge).
        step_with Hens.
        destruct (buffer_grown_fields s1 s2 Hg)
          as (H1 & H2 & H3 & H4 & H5 & H6 & H7 & H8 & H9 & H10 & H11 & H12
              & _).
        step_with (Uint8Array_of_chunk_ok chunk consumed s2 ltac:(lia)).
        step_with (stashArray_set_ok (_bufferSize s2)
                     (mkU8 (byteLength chunk - consumed)
                        (fun i => nth (Z.to_nat (consumed + i)) chunk
                                      Byte.x00))
                     0 s2 ltac:(lia) ltac:(cbn [u8_length]; lia)).
        step_modify. unfold modify. cbn [u8_length u8_get].
        eexists. split; [reflexivity|]. record_simpl.
        unfold s1, s0 in H1, H2, H3, H4, H5, H6, H7, H8, H9, H10, H12.
        record_simpl_in H1. record_simpl_in H2. record_simpl_in H3.
        record_simpl_in H4. record_simpl_in H5. record_simpl_in H6.
        record_simpl_in H7. record_simpl_in H8. record_simpl_in H9.
        record_simpl_in H10. record_simpl_in H12.
        assert (Hu2 : _stashUsed s2 = 0) by (rewrite H5; exact Hu0).
        split.
        { rewrite H9, consumed_bytes_app, Hempty. cbn [consumed_bytes app].
          rewrite app_nil_r, <- app_assoc. f_equal.
          unfold stash_bytes. record_simpl. rewrite Hu2, Z.add_0_l.
          match goal with
          | |- _ ++ ?x = _ =>
            replace x with (skipn (Z.to_nat consumed) chunk)
              by (symmetry;
                  apply (slice_of_suffix chunk consumed (_stashBuffer s2));
                  lia)
          end.
          apply firstn_skipn. }
        split; [eexists _, _, _; rewrite H9; reflexivity|].
        split.
        { unfold stash_ok. record_simpl. cbn [ab_byteLength].
          rewrite H10, Hu2. lia. }
        split; [exact H10|]. split; [exact H12|].
        split; [eexists; exact H4|].
        rewrite H1, H2, H3, H7, H8.
        repeat match goal with |- _ /\ _ => split end; try reflexivity.
        intros [H|H]; lia.
      * exists s1. split; [reflexivity|]. unfold s1. record_simpl.
        split.
        { rewrite consumed_bytes_app, Hempty. cbn [consumed_bytes app].
          rewrite app_nil_r, <- app_assoc. f_equal.
          rewrite firstn_all2 by (unfold byteLength in *; lia).
          match goal with
          | |- _ ++ ?x = _ => change x with (stash_bytes s)
          end.
          rewrite Hempty. apply app_nil_r. }
        split; [eexists _, _, _; reflexivity|].
        split; [exact Hok|]. split; [reflexivity|].
        split; [apply Z.le_refl|].
        split; [eexists; reflexivity|].
        repeat match goal with |- _ /\ _ => split end; try reflexivity.
        intros [H|H]; lia.
Qed.

(** One chunk arriving at a controller whose stash is enabled. *)
Lemma arrival_stash_enabled (now : Z) (chunk : list Byte.byte)
    (byteStart receivedLength : Z) (s : t) (consumer : Consumer)
    (r : Range) :
  consumer_in_bounds consumer ->
  _onDataArrival s = Some consumer -> _paused s = false ->
  _enableStash s = true -> _currentRange s = Some r ->
  stash_ok s -> _stashSize s <= _bufferSize s ->
  exists s',
    _onLoaderChunkArrival now chunk byteStart receivedLength s = Ret tt s' /\
    consumed_bytes (trace s') ++ stash_bytes s'
    = consumed_bytes (trace s) ++ stash_bytes s ++ chunk /\
    (if _stashUsed s + byteLength chunk <=? _stashSize s'
     then dispatches (trace s') = dispatches (trace s)
     else exists d, dispatches (trace s') = dispatches (trace s) ++ [d]) /\
    stash_ok s' /\ _stashSize s' <= _bufferSize s' /\
    (exists r', _currentRange s' = Some r') /\
    _onDataArrival s' = Some consumer /\ _paused s' = false /\
    _enableStash s' = true /\ _loader s' = _loader s.
Proof.
  intros Hb Hc Hp He Hr Hok Hwin.
  rewrite (chunk_arrival_parts now chunk byteStart receivedLength s consumer
             Hc Hp).
  destruct (arrival_prefix_ok now chunk s Hok)
    as (s1 & Hpre & P1 & P2 & P3 & P4 & P5 & P6 & P7 & P8 & P9 & P10 & P11
        & P12 & P13 & P14).
  step_with Hpre. step_gets. rewrite P2, He. cbn [negb].
  rewrite Hc in P1. rewrite Hr in P4.
  destruct (arrival_with_stash_ok chunk byteStart s1 consumer r Hb P10
              (P13 Hwin) P1 P4)
    as (s' & Hrun & Q1 & Q2 & Q3 & Q4 & Q5 & Q6 & Q7 & Q8 & Q9 & Q10 & Q11
        & Q12).
  exists s'. split; [exact Hrun|].
  split.
  { rewrite Q1, P9, P12, consumed_bytes_app, notice_consumed_bytes,
      app_nil_r. reflexivity. }
  split.
  { rewrite Q4, <- P5.
    destruct (_stashUsed s1 + byteLength chunk <=? _stashSize s1).
    - rewrite Q2, P9, dispatches_app, notice_dispatches, app_nil_r.
      reflexivity.
    - destruct Q2 as (buffer & start & consumed & Q2).
      exists (start, byteLength buffer, consumed).
      rewrite Q2, P9, !dispatches_app, notice_dispatches, app_nil_r.
      reflexivity. }
  split; [exact Q3|]. split; [rewrite Q4; lia|]. split; [exact Q6|].
  repeat match goal with |- _ /\ _ => split end; congruence.
Qed.

(** What a run of arrivals leaves of a controller with the stash
    enabled. *)
Lemma arrivals_stash_enabled (consumer : Consumer)
    (chunks : list (Z * list Byte.byte)) :
  consumer_in_bounds consumer ->
  forall (byteStart receivedLength : Z) (s : t) (r : Range),
    _onDataArrival s = Some consumer -> _paused s = false ->
    _enableStash s = true -> _currentRange s = Some r ->
    stash_ok s -> _stashSize s <= _bufferSize s ->
    exists s',
      run (contiguous_arrivals byteStart receivedLength chunks) s
      = Ret tt s' /\
      consumed_bytes (trace s') ++ stash_bytes s'
      = consumed_bytes (trace s) ++ stash_bytes s
        ++ List.concat (map snd chunks) /\
      (List.length (dispatches (trace s'))
       <= List.length (dispatches (trace s)) + List.length chunks)%nat /\
      stash_ok s' /\ _stashSize s' <= _bufferSize s' /\
      (exists r', _currentRange s' = Some r') /\
      _onDataArrival s' = Some consumer /\ _paused s' = false /\
      _enableStash s' = true /\ _loader s' = _loader s.
Proof.
  intros Hb.
  induction chunks as [|[now chunk] chunks IH];
    intros byteStart receivedLength s r Hc Hp He Hr Hok Hwin.
  - exists s. cbn [contiguous_arrivals run map List.concat List.length].
    rewrite !app_nil_r, Nat.add_0_r.
    repeat match goal with |- _ /\ _ => split end;
      try assumption; try reflexivity. exists r; exact Hr.
  - cbn [contiguous_arrivals run].
    destruct (arrival_stash_enabled now chunk byteStart
                (receivedLength + byteLength chunk) s consumer r
                Hb Hc Hp He Hr Hok Hwin)
      as (s1 & Hrun & Q1 & Q2 & Q3 & Q4 & (r1 & Q5) & Q6 & Q7 & Q8 & Q9).
    destruct (IH (byteStart + byteLength chunk)
                 (receivedLength + byteLength chunk) s1 r1 Q6 Q7 Q8 Q5 Q3
                 Q4)
      as (s' & Hrun' & D1 & D2 & D3 & D4 & D5 & D6 & D7 & D8 & D9).
    exists s'. split; [step_with Hrun; exact Hrun'|].
    split.
    { rewrite D1, app_assoc, Q1. cbn [map snd List.concat].
      rewrite <- !app_assoc. reflexivity. }
    split.
    { cbn [List.length].
      destruct (_stashUsed s + byteLength chunk <=? _stashSize s1).
      - rewrite Q2 in D2. lia.
      - destruct Q2 as (d & Q2). rewrite Q2, length_app in D2.
        cbn [List.length] in D2. lia. }
    repeat match goal with |- _ /\ _ => split end;
      try assumption; congruence.
Qed.

(** ** Completion *)

Lemma run_snoc (ms : list (M unit)) (m : M unit) (s s1 : t) :
  run ms s = Ret tt s1 -> run (ms ++ [m]) s = (m ;; ret tt) s1.
Proof.
  revert s. induction ms as [|m0 ms IH]; intros s H.
  - cbn [run] in H. injection H as <-. reflexivity.
  - cbn [run app] in *. unfold bind at 1 in H. unfold bind at 1.
    destruct (m0 s) as [[] s0|e s0|]; try discriminate H.
    exact (IH s0 H).
Qed.

(** The flush at completion offers the stash to the consumer once and
    leaves it empty. *)
Lemma flush_at_completion (s : t) (consumer : Consumer) (r : Range) :
  stash_ok s ->
  _onDataArrival s = Some consumer -> _currentRange s = Some r ->
  let consumed := consumer (trace s) (stash_bytes s) (_stashByteStart s) in
  exists remain s',
    _flushStashBuffer true s = Ret remain s' /\
    consumed_bytes (trace s')
    = consumed_bytes (trace s)
      ++ firstn (Z.to_nat consumed) (stash_bytes s) /\
    _stashUsed s' = 0 /\ _onComplete s' = _onComplete s.
Proof.
  intros Hok Hc Hcr consumed.
  pose proof Hok as (Hsize & Hused & Hlen).
  unfold _flushStashBuffer.
  step_gets.
  destruct (_stashUsed s >? 0) eqn:Egt; rewrite Z.gtb_ltb in Egt;
    [apply Z.ltb_lt in Egt|apply Z.ltb_ge in Egt].
  - unfold stash_slice. step_gets. fold (stash_bytes s). step_gets.
    step_with (dispatch_ok (stash_bytes s) (_stashByteStart s) s consumer r
                 Hc Hcr).
    fold consumed. cbv zeta.
    set (s1 := set_trace _ _).
    destruct (consumed <? byteLength (stash_bytes s)).
    + unfold emit. step_modify. step_modify. step_modify.
      eexists _, _. split; [reflexivity|]. unfold s1. record_simpl.
      rewrite !consumed_bytes_app. cbn [consumed_bytes].
      rewrite !app_nil_r. repeat split.
    + step_modify. step_modify.
      eexists _, _. split; [reflexivity|]. unfold s1. record_simpl.
      rewrite !consumed_bytes_app. cbn [consumed_bytes].
      rewrite !app_nil_r. repeat split.
  - exists 0, s. split; [reflexivity|].
    rewrite (stash_bytes_empty s) by lia.
    rewrite firstn_nil, app_nil_r. repeat split. lia.
Qed.

(** [_onLoaderComplete] after the flush only announces completion. *)
Lemma complete_ok (from_ to_ : Z) (s : t) (consumer : Consumer) (r : Range) :
  stash_ok s ->
  _onDataArrival s = Some consumer -> _currentRange s = Some r ->
  let consumed := consumer (trace s) (stash_bytes s) (_stashByteStart s) in
  exists s',
    _onLoaderComplete from_ to_ s = Ret tt s' /\
    consumed_bytes (trace s')
    = consumed_bytes (trace s)
      ++ firstn (Z.to_nat consumed) (stash_bytes s) /\
    _stashUsed s' = 0.
Proof.
  intros Hok Hc Hcr consumed.
  destruct (flush_at_completion s consumer r Hok Hc Hcr)
    as (remain & s1 & Hflush & Hbytes & Hu & _).
  fold consumed in Hbytes.
  unfold _onLoaderComplete. step_with Hflush. step_gets.
  unfold when, emit, modify, ret.
  destruct (_onComplete s1).
  - eexists. split; [reflexivity|]. record_simpl.
    rewrite consumed_bytes_app, Hbytes. cbn [consumed_bytes].
    rewrite app_nil_r. split; [reflexivity|exact Hu].
  - exists s1. split; [reflexivity|]. split; [exact Hbytes|exact Hu].
Qed.

(** X20 (chunk arrival, stash enabled): when a chunk arrives at a
    controller whose stash is enabled (consumer bound and answering
    within bounds, not paused, stash well formed and its window within
    the buffer), the call returns.  The chunk is buffered without a
    dispatch exactly when it fits, with what the stash holds, into the
    stash size as adjusted by this arrival; otherwise the consumer is
    called exactly once.  Either way no byte is lost: the bytes taken
    followed by the bytes stashed are those from before followed by the
    chunk. *)
Theorem X20_chunk_arrival_stash_enabled (now : Z) (chunk : list Byte.byte)
    (byteStart receivedLength : Z) (s : t) (consumer : Consumer)
    (r : Range) :
  consumer_in_bounds consumer ->
  _onDataArrival s = Some consumer -> _paused s = false ->
  _enableStash s = true -> _currentRange s = Some r ->
  stash_ok s -> _stashSize s <= _bufferSize s ->
  exists s',
    _onLoaderChunkArrival now chunk byteStart receivedLength s = Ret tt s' /\
    consumed_bytes (trace s') ++ stash_bytes s'
    = consumed_bytes (trace s) ++ stash_bytes s ++ chunk /\
    (if _stashUsed s + byteLength chunk <=? _stashSize s'
     then dispatches (trace s') = dispatches (trace s)
     else exists d, dispatches (trace s') = dispatches (trace s) ++ [d]) /\
    stash_ok s' /\ _stashSize s' <= _bufferSize s'.
Proof.
  intros Hb Hc Hp He Hr Hok Hwin.
  destruct (arrival_stash_enabled now chunk byteStart receivedLength s
              consumer r Hb Hc Hp He Hr Hok Hwin)
    as (s' & Hrun & Q1 & Q2 & Q3 & Q4 & _).
  exists s'. repeat match goal with |- _ /\ _ => split end; assumption.
Qed.

Lemma X20_chunk_arrival_stash_enabled_witness :
  exists s',
    _onLoaderChunkArrival 5 [Byte.x41; Byte.x42; Byte.x43] 0 3
                          controller_with_stash = Ret tt s' /\
    consumed_bytes (trace s') ++ stash_bytes s'
    = [Byte.x41; Byte.x42; Byte.x43].
Proof.
  assert (Hc : _onDataArrival controller_with_stash
               = Some (consumer_taking 2)) by (vm_compute; reflexivity).
  assert (Hp : _paused controller_with_stash = false)
    by (vm_compute; reflexivity).
  assert (He : _enableStash controller_with_stash = true)
    by (vm_compute; reflexivity).
  assert (Hr : _currentRange controller_with_stash
               = Some (mkRange 0 (-1))) by (vm_compute; reflexivity).
  assert (Hss : _stashSize controller_with_stash = 393216)
    by (vm_compute; reflexivity).
  assert (Hu : _stashUsed controller_with_stash = 0)
    by (vm_compute; reflexivity).
  assert (Hbs : _bufferSize controller_with_stash = 3145728)
    by (vm_compute; reflexivity).
  assert (Hbl : ab_byteLength (_stashBuffer controller_with_stash)
                = 3145728) by (vm_compute; reflexivity).
  assert (Ht : trace controller_with_stash = [])
    by (vm_compute; reflexivity).
  assert (Hsb : stash_bytes controller_with_stash = [])
    by (vm_compute; reflexivity).
  assert (Hok : stash_ok controller_with_stash)
    by (unfold stash_ok; rewrite Hss, Hu, Hbs, Hbl; lia).
  assert (Hb : consumer_in_bounds (consumer_taking 2))
    by (intros h c b; unfold consumer_taking; unfold byteLength; lia).
  destruct (X20_chunk_arrival_stash_enabled 5
              [Byte.x41; Byte.x42; Byte.x43] 0 3 controller_with_stash
              (consumer_taking 2) (mkRange 0 (-1)) Hb Hc Hp He Hr Hok
              ltac:(rewrite Hss, Hbs; lia))
    as (s' & Hrun & Hbytes & _).
  exists s'. split; [exact Hrun|]. rewrite Hbytes, Ht, Hsb. reflexivity.
Defined.

(** X21 (no byte lost, stash enabled): for any sequence of chunks
    arriving at a controller whose stash is enabled, with a consumer
    that answers within bounds, every call returns, the consumer is
    called at most once per chunk, and the bytes it has taken followed
    by the bytes in the stash are the bytes taken and stashed before
    followed by the chunks, in order and each exactly once. *)
Theorem X21_stash_enabled_no_byte_lost (consumer : Consumer)
    (chunks : list (Z * list Byte.byte)) (byteStart receivedLength : Z)
    (s : t) (r : Range) :
  consumer_in_bounds consumer ->
  _onDataArrival s = Some consumer -> _paused s = false ->
  _enableStash s = true -> _currentRange s = Some r ->
  stash_ok s -> _stashSize s <= _bufferSize s ->
  exists s',
    run (contiguous_arrivals byteStart receivedLength chunks) s
    = Ret tt s' /\
    consumed_bytes (trace s') ++ stash_bytes s'
    = consumed_bytes (trace s) ++ stash_bytes s
      ++ List.concat (map snd chunks) /\
    (List.length (dispatches (trace s'))
     <= List.length (dispatches (trace s)) + List.length chunks)%nat /\
    stash_ok s' /\ _stashSize s' <= _bufferSize s'.
Proof.
  intros Hb Hc Hp He Hr Hok Hwin.
  destruct (arrivals_stash_enabled consumer chunks Hb byteStart
              receivedLength s r Hc Hp He Hr Hok Hwin)
    as (s' & Hrun & Q1 & Q2 & Q3 & Q4 & _).
  exists s'. repeat match goal with |- _ /\ _ => split end; assumption.
Qed.

Lemma X21_stash_enabled_no_byte_lost_witness :
  exists s',
    run (contiguous_arrivals 0 0
           [(5, [Byte.x41; Byte.x42; Byte.x43]); (6, [Byte.x44; Byte.x45])])
        controller_with_stash = Ret tt s' /\
    consumed_bytes (trace s') ++ stash_bytes s'
    = [Byte.x41; Byte.x42; Byte.x43; Byte.x44; Byte.x45].
Proof.
  assert (Hc : _onDataArrival controller_with_stash
               = Some (consumer_taking 2)) by (vm_compute; reflexivity).
  assert (Hp : _paused controller_with_stash = false)
    by (vm_compute; reflexivity).
  assert (He : _enableStash controller_with_stash = true)
    by (vm_compute; reflexivity).
  assert (Hr : _currentRange controller_with_stash
               = Some (mkRange 0 (-1))) by (vm_compute; reflexivity).
  assert (Hss : _stashSize controller_with_stash = 393216)
    by (vm_compute; reflexivity).
  assert (Hu : _stashUsed controller_with_stash = 0)
    by (vm_compute; reflexivity).
  assert (Hbs : _bufferSize controller_with_stash = 3145728)
    by (vm_compute; reflexivity).
  assert (Hbl : ab_byteLength (_stashBuffer controller_with_stash)
                = 3145728) by (vm_compute; reflexivity).
  assert (Ht : trace controller_with_stash = [])
    by (vm_compute; reflexivity).
  assert (Hsb : stash_bytes controller_with_stash = [])
    by (vm_compute; reflexivity).
  assert (Hok : stash_ok controller_with_stash)
    by (unfold stash_ok; rewrite Hss, Hu, Hbs, Hbl; lia).
  assert (Hb : consumer_in_bounds (consumer_taking 2))
    by (intros h c b; unfold consumer_taking; unfold byteLength; lia).
  destruct (X21_stash_enabled_no_byte_lost (consumer_taking 2)
              [(5, [Byte.x41; Byte.x42; Byte.x43]);
               (6, [Byte.x44; Byte.x45])] 0 0 controller_with_stash
              (mkRange 0 (-1)) Hb Hc Hp He Hr Hok
              ltac:(rewrite Hss, Hbs; lia))
    as (s' & Hrun & Hbytes & _).
  exists s'. split; [exact Hrun|]. rewrite Hbytes, Ht, Hsb. reflexivity.
Defined.

(** X22 (a greedy consumer gets every byte): when the consumer takes
    everything it is shown, then whether the stash is enabled or not,
    after any sequence of chunk arrivals followed by the loader's
    completion the consumer has been given, after what it had and what
    the stash held, exactly the arrived bytes, in order and each once,
    and the stash is empty. *)
Theorem X22_greedy_consumer_gets_all (chunks : list (Z * list Byte.byte))
    (byteStart receivedLength from_ to_ : Z) (s : t) (r : Range) :
  _onDataArrival s = Some consumer_accepting_all -> _paused s = false ->
  _currentRange s = Some r ->
  stash_ok s -> _stashSize s <= _bufferSize s ->
  exists s',
    run (contiguous_arrivals byteStart receivedLength chunks
         ++ [_onLoaderComplete from_ to_]) s = Ret tt s' /\
    consumed_bytes (trace s')
    = consumed_bytes (trace s) ++ stash_bytes s
      ++ List.concat (map snd chunks) /\
    _stashUsed s' = 0.
Proof.
  intros Hc Hp Hr Hok Hwin.
  assert (Hb : consumer_in_bounds consumer_accepting_all).
  { intros h c b. unfold consumer_accepting_all.
    pose proof (byteLength_nonneg c). lia. }
  assert (Hmid : exists s1 r1,
    run (contiguous_arrivals byteStart receivedLength chunks) s = Ret tt s1 /\
    consumed_bytes (trace s1) ++ stash_bytes s1
    = consumed_bytes (trace s) ++ stash_bytes s
      ++ List.concat (map snd chunks) /\
    stash_ok s1 /\ _onDataArrival s1 = Some consumer_accepting_all /\
    _currentRange s1 = Some r1).
  { destruct (_enableStash s) eqn:He.
    - destruct (arrivals_stash_enabled consumer_accepting_all chunks Hb
                  byteStart receivedLength s r Hc Hp He Hr Hok Hwin)
        as (s1 & Hrun & Q1 & _ & Q3 & _ & (r1 & Q5) & Q6 & _).
      exists s1, r1.
      repeat match goal with |- _ /\ _ => split end; assumption.
    - destruct (arrivals_stash_disabled consumer_accepting_all chunks Hb
                  byteStart receivedLength s r Hc Hp He Hr Hok)
        as (s1 & ds & Hrun & _ & _ & _ & Q1 & Q3 & _ & _ & Q6 & _
            & (r1 & Q5)).
      exists s1, r1.
      repeat match goal with |- _ /\ _ => split end; assumption. }
  destruct Hmid as (s1 & r1 & Hrun & Hbytes & Hok1 & Hc1 & Hr1).
  destruct (complete_ok from_ to_ s1 consumer_accepting_all r1 Hok1 Hc1 Hr1)
    as (s' & Hdone & Hall & Hu).
  exists s'. split.
  { rewrite (run_snoc _ _ s s1 Hrun). step_with Hdone. reflexivity. }
  split; [|exact Hu].
  rewrite Hall. unfold consumer_accepting_all.
  rewrite firstn_all2 by (unfold byteLength; lia). exact Hbytes.
Qed.

Lemma X22_greedy_consumer_gets_all_witness :
  exists s',
    run (contiguous_arrivals 0 0
           [(5, [Byte.x41; Byte.x42; Byte.x43]); (6, [Byte.x44; Byte.x45])]
         ++ [_onLoaderComplete 0 4])
        (set_onDataArrival (Some consumer_accepting_all)
                           controller_with_stash) = Ret tt s' /\
    consumed_bytes (trace s')
    = [Byte.x41; Byte.x42; Byte.x43; Byte.x44; Byte.x45] /\
    _stashUsed s' = 0.
Proof.
  set (s := set_onDataArrival (Some consumer_accepting_all)
                              controller_with_stash).
  assert (Hp : _paused s = false) by (vm_compute; reflexivity).
  assert (Hr : _currentRange s = Some (mkRange 0 (-1)))
    by (vm_compute; reflexivity).
  assert (Hss : _stashSize s = 393216) by (vm_compute; reflexivity).
  assert (Hu : _stashUsed s = 0) by (vm_compute; reflexivity).
  assert (Hbs : _bufferSize s = 3145728) by (vm_compute; reflexivity).
  assert (Hbl : ab_byteLength (_stashBuffer s) = 3145728)
    by (vm_compute; reflexivity).
  assert (Ht : trace s = []) by (vm_compute; reflexivity).
  assert (Hsb : stash_bytes s = []) by (vm_compute; reflexivity).
  assert (Hok : stash_ok s)
    by (unfold stash_ok; rewrite Hss, Hu, Hbs, Hbl; lia).
  destruct (X22_greedy_consumer_gets_all
              [(5, [Byte.x41; Byte.x42; Byte.x43]);
               (6, [Byte.x44; Byte.x45])] 0 0 0 4 s (mkRange 0 (-1))
              eq_refl Hp Hr Hok ltac:(rewrite Hss, Hbs; lia))
    as (s' & Hrun & Hbytes & Hu').
  exists s'. split; [exact Hrun|]. split; [|exact Hu'].
  rewrite Hbytes, Ht, Hsb. reflexivity.
Defined.

(** ** A stash size beyond the buffer *)

(** X23 (stash size beyond the buffer): while the stash size exceeds
    the length of the buffer (as after construction with a
    [stashInitialSize] above 3 MiB), a chunk that fits the stash size
    and arrives while the sampler reads zero makes
    [_onLoaderChunkArrival] throw a RangeError, when it creates the
    view of the first [_stashSize] bytes of the buffer; the chunk is
    neither dispatched nor stashed. *)
Theorem X23_stash_size_beyond_buffer (now : Z) (chunk : list Byte.byte)
    (byteStart receivedLength : Z) (s : t) (consumer : Consumer) :
  _onDataArrival s = Some consumer -> _paused s = false ->
  _enableStash s = true ->
  Qeq_bool (fst (SpeedSampler.lastSecondKBps now
                   (SpeedSampler.addBytes now (byteLength chunk)
                                          (_speedSampler s)))) 0 = true ->
  _stashUsed s + byteLength chunk <= _stashSize s ->
  ab_byteLength (_stashBuffer s) < _stashSize s ->
  exists s',
    _onLoaderChunkArrival now chunk byteStart receivedLength s
    = Throw RangeError s' /\
    dispatches (trace s') = dispatches (trace s) /\
    _stashUsed s' = _stashUsed s /\ _stashBuffer s' = _stashBuffer s.
Proof.
  intros Hc Hp He Hz Hfit Hbig.
  rewrite (chunk_arrival_parts now chunk byteStart receivedLength s consumer
             Hc Hp).
  pose proof (arrival_prefix_sampled now chunk s) as Hpre.
  cbv zeta in Hpre. rewrite Hz in Hpre. cbn [negb when] in Hpre.
  unfold ret in Hpre.
  step_with Hpre. step_gets. record_simpl. rewrite He. cbn [negb].
  unfold arrival_with_stash.
  step_gets. step_gets. record_simpl.
  unfold when.
  destruct ((_stashUsed s =? 0) && (_stashByteStart s =? 0)).
  - step_modify. step_gets. record_simpl.
    replace (_stashUsed s + byteLength chunk <=? _stashSize s) with true
      by (symmetry; apply Z.leb_le; exact Hfit).
    unfold bind at 1, stashArray_new, Uint8Array_new. record_simpl.
    replace ((_stashSize s <? 0)
             || (0 + _stashSize s >? ab_byteLength (_stashBuffer s)))
      with true
      by (symmetry; apply orb_true_iff; right; rewrite Z.gtb_ltb;
          apply Z.ltb_lt; lia).
    destruct ((0 <? 0) || (0 >? ab_byteLength (_stashBuffer s)));
      (eexists; split; [reflexivity|]); record_simpl;
      rewrite dispatches_app, notice_dispatches, app_nil_r;
      repeat split.
  - unfold ret at 1. step_with (eq_refl (Ret tt
        (set_speedSampler
           (snd (SpeedSampler.lastSecondKBps now
                   (SpeedSampler.addBytes now (byteLength chunk)
                                          (_speedSampler s))))
           (set_trace
              (trace s ++ (if _isEarlyEofReconnecting s
                              && _onRecoveredEarlyEof s
                           then [ev_onRecoveredEarlyEof] else []))
              (set_isEarlyEofReconnecting false s))))).
    step_gets. record_simpl.
    replace (_stashUsed s + byteLength chunk <=? _stashSize s) with true
      by (symmetry; apply Z.leb_le; exact Hfit).
    unfold bind at 1, stashArray_new, Uint8Array_new. record_simpl.
    replace ((_stashSize s <? 0)
             || (0 + _stashSize s >? ab_byteLength (_stashBuffer s)))
      with true
      by (symmetry; apply orb_true_iff; right; rewrite Z.gtb_ltb;
          apply Z.ltb_lt; lia).
    destruct ((0 <? 0) || (0 >? ab_byteLength (_stashBuffer s)));
      (eexists; split; [reflexivity|]); record_simpl;
      rewrite dispatches_app, notice_dispatches, app_nil_r;
      repeat split.
Qed.

Lemma X23_stash_size_beyond_buffer_witness :
  exists s',
    _onLoaderChunkArrival 5 [Byte.x41; Byte.x42; Byte.x43] 0 3
                          controller_with_large_stash
    = Throw RangeError s' /\
    dispatches (trace s') = [] /\ _stashUsed s' = 0.
Proof.
  assert (Hp : _paused controller_with_large_stash = false)
    by (vm_compute; reflexivity).
  assert (He : _enableStash controller_with_large_stash = true)
    by (vm_compute; reflexivity).
  assert (Hss : _stashSize controller_with_large_stash = 4194304)
    by (vm_compute; reflexivity).
  assert (Hu : _stashUsed controller_with_large_stash = 0)
    by (vm_compute; reflexivity).
  assert (Hbl : ab_byteLength (_stashBuffer controller_with_large_stash)
                = 3145728) by (vm_compute; reflexivity).
  assert (Ht : trace controller_with_large_stash = [])
    by (vm_compute; reflexivity).
  destruct (X23_stash_size_beyond_buffer 5 [Byte.x41; Byte.x42; Byte.x43]
              0 3 controller_with_large_stash consumer_accepting_all
              eq_refl Hp He)
    as (s' & Hrun & Hd & Hu' & _).
  - vm_compute. reflexivity.
  - rewrite Hu, Hss. vm_compute. discriminate.
  - rewrite Hbl, Hss. reflexivity.
  - exists s'. split; [exact Hrun|]. rewrite Hd, Hu', Ht, Hu.
    split; reflexivity.
Defined.

(** ** pause() and the next byte owed *)












